(** * LinkUp server: a shallow embedding of the REST handlers

    The repository holds three generations of the same server:
    - the Mongoose server (models [User], [Post], [Comment], JWT gate);
    - the native-driver server (collections [Users], [Posts], [Comments],
      [Notifications], JWT gate with ban check, follow graph, notifications,
      admin routes);
    - the Firebase server ([index.js]): the same handlers behind a gate that
      verifies a Firebase token and creates the identity on first sight.

    Collections are lists of documents in insertion order.  A handler is a
    state-passing computation over the database that either keeps going,
    sends a response, or throws (an unhandled rejection: nothing is sent). *)

From stdpp Require Import gmap strings list sorting.
From Stdlib Require Import ZArith Ascii PrimFloat.

#[local] Set Warnings "-register-all".
Local Open Scope Z_scope.
Local Open Scope string_scope.
Local Open Scope list_scope.

(** ** Values *)

(** A driver [ObjectId], identified by its hexadecimal rendering, which is
    what [toString()] returns. *)
Record ObjectId := OID { toString : string }.

#[global] Instance ObjectId_eq_dec : EqDecision ObjectId.
Proof. solve_decision. Defined.

(** The source compares identifiers as [a.toString() === b.toString()]. *)
Definition same_id (a b : ObjectId) : bool :=
  String.eqb (toString a) (toString b).

(** Stored values: JSON (as parsed from a request body) extended with the
    driver's [ObjectId] and [Date].  A JSON number is a JavaScript number, a
    double. *)
Inductive value :=
| VNull
| VBool (b : bool)
| VNum (x : float)
| VStr (s : string)
| VOid (o : ObjectId)
| VDate (t : Z)
| VArr (l : list value)
| VObj (l : list (string * value)).

(** JavaScript truthiness of a property read; an absent property reads
    [undefined]. *)
Definition truthy (v : option value) : bool :=
  match v with
  | None | Some VNull => false
  | Some (VBool b) => b
  | Some (VNum x) => negb (PrimFloat.eqb x 0 || PrimFloat.is_nan x)
  | Some (VStr s) => negb (String.eqb s "")
  | Some _ => true
  end.

Definition is_oid (o : ObjectId) (v : value) : bool :=
  match v with VOid o' => bool_decide (o = o') | _ => false end.

Definition is_str (s : string) (v : value) : bool :=
  match v with VStr s' => String.eqb s s' | _ => false end.

(** ** Documents and collections *)

Record doc (A : Type) := Doc { _id : ObjectId; data : A }.
Arguments Doc {A} _ _.
Arguments _id {A} _.
Arguments data {A} _.

(** A user document keeps whatever fields were written to it. *)
Abbreviation user := (doc (gmap string value)).

Definition field (u : user) (k : string) : option value := data u !! k.

Module Post.
Record t := Make {
  content : value;
  image : option string;
  author : ObjectId;
  likes : list ObjectId;
  createdAt : Z
}.
End Post.

Module Comment.
Record t := Make {
  text : value;
  postId : ObjectId;
  author : ObjectId;
  createdAt : Z
}.
End Comment.

Module Notification.
Record t := Make {
  type : string;
  sender : ObjectId;
  receiver : ObjectId;
  postId : option ObjectId;
  read : bool;
  createdAt : Z
}.
End Notification.

Record Db := MkDb {
  Users : list user;
  Posts : list (doc Post.t);
  Comments : list (doc Comment.t);
  Notifications : list (doc Notification.t);
  fresh : nat  (* number of identifiers generated so far *)
}.

Definition empty_db : Db := MkDb [] [] [] [] 0.

(** ** The driver's collection operations *)

Section Collection.
Context {A : Type}.

Fixpoint findOne (q : doc A → bool) (c : list (doc A)) : option (doc A) :=
  match c with
  | [] => None
  | d :: c' => if q d then Some d else findOne q c'
  end.

Definition find (q : doc A → bool) (c : list (doc A)) : list (doc A) :=
  List.filter q c.

(** [updateOne] rewrites the first match; the update operator may be
    refused by the database ([None]). *)
Fixpoint updateOne (q : doc A → bool) (op : A → option A)
    (c : list (doc A)) : option (list (doc A)) :=
  match c with
  | [] => Some []
  | d :: c' =>
      if q d then a ← op (data d); Some (Doc (_id d) a :: c')
      else c'' ← updateOne q op c'; Some (d :: c'')
  end.

Definition updateMany (q : doc A → bool) (op : A → A)
    (c : list (doc A)) : list (doc A) :=
  (λ d, if q d then Doc (_id d) (op (data d)) else d) <$> c.

Fixpoint deleteOne (q : doc A → bool) (c : list (doc A)) : list (doc A) :=
  match c with
  | [] => []
  | d :: c' => if q d then c' else d :: deleteOne q c'
  end.

Definition deleteMany (q : doc A → bool) (c : list (doc A)) : list (doc A) :=
  List.filter (λ d, negb (q d)) c.

Definition by_id (o : ObjectId) (d : doc A) : bool := bool_decide (_id d = o).
End Collection.

(** Equality match of a query on a string: the stored field is that string,
    or an array holding it. *)
Definition field_matches (k s : string) (u : user) : bool :=
  match field u k with
  | Some (VStr s') => String.eqb s s'
  | Some (VArr l) => existsb (is_str s) l
  | _ => false
  end.

(** [u.role === r] *)
Definition has_role (r : string) (u : user) : bool :=
  from_option (is_str r) false (field u "role").

(** Update operators on a user document. *)

(** [$set] of plain top-level fields: each named field takes the given
    value, the others stay. *)
Definition op_set (F : gmap string value) (d : gmap string value)
  : option (gmap string value) := Some (F ∪ d).

(** A field name that the database stores as it is: not empty, no [$] in
    front, no dot and no NUL character in it.  (In an update document a dot
    separates the steps of a path and a leading [$] marks an operator.) *)
Definition plain_name (k : string) : bool :=
  negb (String.eqb k "") && negb (String.prefix "$" k)
  && forallb (λ c, negb (Ascii.eqb c ".") && negb (Ascii.eqb c Ascii.zero))
       (String.list_ascii_of_string k).

(** A value that every version of the driver and the database stores as it
    is: its nested field names are plain and it holds no negative zero (which
    older drivers store as the integer 0). *)
Fixpoint plain_value (v : value) : bool :=
  match v with
  | VNum x => match PrimFloat.classify x with FloatClass.NZero => false | _ => true end
  | VArr l => forallb plain_value l
  | VObj l => forallb (λ '(k, w), plain_name k && plain_value w) l
  | _ => true
  end.

(** A request body that [$set] takes as a list of top-level fields: it names
    at least one field, plain names only, and not [_id]. *)
Definition plain_body (F : gmap string value) : bool :=
  match map_to_list F with
  | [] => false
  | l => forallb (λ '(k, v), plain_name k && negb (String.eqb k "_id") && plain_value v) l
  end.

Definition op_addToSet (k : string) (o : ObjectId) (d : gmap string value)
  : option (gmap string value) :=
  match d !! k with
  | None => Some (<[k := VArr [VOid o]]> d)
  | Some (VArr l) =>
      Some (<[k := VArr (if existsb (is_oid o) l then l else l ++ [VOid o])]> d)
  | Some _ => None
  end.

Definition op_pull (k : string) (o : ObjectId) (d : gmap string value)
  : option (gmap string value) :=
  match d !! k with
  | None => Some d
  | Some (VArr l) => Some (<[k := VArr (List.filter (λ v, negb (is_oid o v)) l)]> d)
  | Some _ => None
  end.

(** ** Responses and the handler monad *)

Inductive body :=
| BText (s : string)
| BLogin (token : string) (u : user)
| BMe (u : user) (posts : list (doc Post.t))
| BPost (p : doc Post.t)
| BPostWithAuthor (p : doc Post.t) (fullName profileImage : option value)
| BPosts (ps : list (doc Post.t))
| BComment (c : doc Comment.t)
| BNotifications (ns : list (doc Notification.t)).

Inductive error :=
  TypeError | BSONError | CastError | WriteError | DuplicateKey | BcryptError
  | UploadError.

(** How the handling of a request ends: a response was sent, or the handler's
    promise was rejected and nothing was sent. *)
Inductive outcome (B : Type) :=
| Sent (status : Z) (b : B)
| Thrown (e : error).
Arguments Sent {B} _ _.
Arguments Thrown {B} _.

(** A handler over a database [S] answering with bodies [B]: it threads the
    database and either yields a value or has finished the request. *)
Definition M (S B A : Type) : Type := S → S * (A + outcome B).

#[global] Instance M_ret {S B} : MRet (M S B) := λ A a db, (db, inl a).
#[global] Instance M_bind {S B} : MBind (M S B) := λ A C f m db,
  match m db with
  | (db', inl a) => f a db'
  | (db', inr o) => (db', inr o)
  end.

Definition send {S B A} (status : Z) (b : B) : M S B A :=
  λ db, (db, inr (Sent status b)).
Definition throw {S B A} (e : error) : M S B A := λ db, (db, inr (Thrown e)).
Definition get {S B} : M S B S := λ db, (db, inl db).
Definition put {S B} (db' : S) : M S B unit := λ _, (db', inl tt).

(** An awaited library call that may reject. *)
Definition await {S B A} (e : error) (r : option A) : M S B A :=
  match r with Some a => mret a | None => throw e end.

(** Running a complete handler: the database afterwards and how it ended. *)
Definition finish {S B} (m : M S B Empty_set) (db : S) : S * outcome B :=
  match m db with
  | (db', inr o) => (db', o)
  | (_, inl e) => match e with end
  end.

(** Handlers of the native-driver and Firebase servers. *)
Abbreviation H := (M Db body).

(** JavaScript's [s.split(sep)] for a one-character separator. *)
Fixpoint split (sep : Ascii.ascii) (s : string) : list string :=
  match s with
  | EmptyString => [EmptyString]
  | String c r =>
      if Ascii.eqb c sep then EmptyString :: split sep r
      else match split sep r with
           | [] => [String c EmptyString]
           | w :: ws => String c w :: ws
           end
  end.

(** [req.headers.authorization?.split(" ")[1]], [None] when falsy. *)
Definition bearer (header : option string) : option string :=
  h ← header;
  t ← split " "%char h !! 1%nat;
  if String.eqb t "" then None else Some t.

(** [find(...).sort({ createdAt: -1 })]: newest first. *)
Fixpoint insert_desc {A} (key : A → Z) (x : A) (l : list A) : list A :=
  match l with
  | [] => [x]
  | y :: l' => if Z.ltb (key y) (key x) then x :: l else y :: insert_desc key x l'
  end.

Definition sort_desc {A} (key : A → Z) (l : list A) : list A :=
  foldr (insert_desc key) [] l.

(** ** External capabilities *)

(** The libraries the handlers call into: the driver's [ObjectId]
    constructor (which throws on a malformed string) and identifier
    generator, [jsonwebtoken], [bcryptjs], the image host, the Firebase
    token verifier, and what the database makes of a [$set] document that is
    empty or names something else than plain top-level fields (paths,
    positional operators, its own [_id]). *)
Record Ext := {
  ObjectId_new : string → option ObjectId;
  oid_gen : nat → ObjectId;
  jwt_sign : ObjectId → string;
  jwt_verify : string → option string;      (* [decoded.id], or a throw *)
  bcrypt_hash : string → string;
  bcrypt_compare : string → string → bool;
  uploadToImgBB : list Byte.byte → option string;
  verifyIdToken : string → option (string * string); (* [decoded.name || ""], [decoded.email] *)
  set_paths : gmap string value → gmap string value → option (gmap string value)
}.

(** ** Requests *)

Inductive route :=
| PostRegister (username email password : string)
| PostLogin (email password : string)
| GetMe
| PutProfile (fields : gmap string value)
| PutProfileAvatar (file : option (list Byte.byte))
| PutProfileCover (file : option (list Byte.byte))
| PostFollow (id : string)
| PostUnfollow (id : string)
| PostPosts (content : value) (file : option (list Byte.byte))
| GetPosts
| PutLike (id : string)
| PostComments (id : string) (text : value)
| GetNotifications
| PutNotificationsReadAll
| PutAdminBan (id : string)
| DeleteAdminPost (id : string).

Record request (R : Type) := Request {
  authorization : option string;
  now : Z;                       (* what [new Date()] reads while it is handled *)
  target : R
}.
Arguments Request {R} _ _ _.
Arguments authorization {R} _.
Arguments now {R} _.
Arguments target {R} _.

(** ** The native-driver server *)

Section Server.
Context (ext : Ext).

Definition insertUser (f : gmap string value) : H user := λ db,
  let d := Doc (oid_gen ext (fresh db)) f in
  (MkDb (Users db ++ [d]) (Posts db) (Comments db) (Notifications db)
        (S (fresh db)), inl d).

Definition insertPost (p : Post.t) : H (doc Post.t) := λ db,
  let d := Doc (oid_gen ext (fresh db)) p in
  (MkDb (Users db) (Posts db ++ [d]) (Comments db) (Notifications db)
        (S (fresh db)), inl d).

Definition insertComment (c : Comment.t) : H (doc Comment.t) := λ db,
  let d := Doc (oid_gen ext (fresh db)) c in
  (MkDb (Users db) (Posts db) (Comments db ++ [d]) (Notifications db)
        (S (fresh db)), inl d).

Definition insertNotification (n : Notification.t) : H (doc Notification.t) := λ db,
  let d := Doc (oid_gen ext (fresh db)) n in
  (MkDb (Users db) (Posts db) (Comments db) (Notifications db ++ [d])
        (S (fresh db)), inl d).

Definition updateUser (q : user → bool)
    (op : gmap string value → option (gmap string value)) : H unit := λ db,
  match updateOne q op (Users db) with
  | Some us =>
      (MkDb us (Posts db) (Comments db) (Notifications db) (fresh db), inl tt)
  | None => throw WriteError db
  end.

Definition setPosts (ps : list (doc Post.t)) : H unit := λ db,
  (MkDb (Users db) ps (Comments db) (Notifications db) (fresh db), inl tt).

Definition setComments (cs : list (doc Comment.t)) : H unit := λ db,
  (MkDb (Users db) (Posts db) cs (Notifications db) (fresh db), inl tt).

Definition setNotifications (ns : list (doc Notification.t)) : H unit := λ db,
  (MkDb (Users db) (Posts db) (Comments db) ns (fresh db), inl tt).

(** *** Middleware *)

Definition auth {R} (req : request R) : H user :=
  match bearer (authorization req) with
  | None => send 401 (BText "No token")
  | Some token =>
      match jwt_verify ext token ≫= ObjectId_new ext with
      | None => send 401 (BText "Invalid token")
      | Some uid =>
          db ← get;
          match findOne (by_id uid) (Users db) with
          | None => send 403 (BText "Access denied")
          | Some u =>
              if truthy (field u "banned")
              then send 403 (BText "Access denied")
              else mret u
          end
      end
  end.

Definition adminOnly (u : user) : H unit :=
  if negb (has_role "admin" u) then send 403 (BText "Admin only")
  else mret tt.

(** *** Notification helper *)

Definition createNotification (type : string) (sender receiver : ObjectId)
    (postId : option ObjectId) (now : Z) : H unit :=
  if same_id sender receiver then mret tt
  else
    insertNotification (Notification.Make type sender receiver postId false now);;
    mret tt.

(** *** Routes: authentication *)

Definition register (username email password : string) (now : Z) : H Empty_set :=
  let hash := bcrypt_hash ext password in
  insertUser (list_to_map [
    ("username", VStr username);
    ("email", VStr email);
    ("password", VStr hash);
    ("role", VStr "user");
    ("banned", VBool false);
    ("profileImage", VStr "");
    ("coverImage", VStr "");
    ("bio", VStr "");
    ("location", VStr "");
    ("dateOfBirth", VNull);
    ("followers", VArr []);
    ("following", VArr []);
    ("createdAt", VDate now)]);;
  send 200 (BText "User registered").

Definition login (email password : string) : H Empty_set :=
  db ← get;
  match findOne (field_matches "email" email) (Users db) with
  | None => send 400 (BText "Invalid credentials")
  | Some u =>
      valid ← match field u "password" with
              | Some (VStr h) => mret (bcrypt_compare ext password h)
              | _ => throw BcryptError
              end;
      if negb valid then send 400 (BText "Invalid credentials")
      else
        let token := jwt_sign ext (_id u) in
        send 200 (BLogin token u)
  end.

(** *** Routes: profile *)

Definition me (u : user) : H Empty_set :=
  db ← get;
  let posts := find (λ p, bool_decide (Post.author (data p) = _id u)) (Posts db) in
  send 200 (BMe u posts).

(** [{ $set: req.body }] on the document of identity [o].  The database
    refuses an update that would change [_id], whatever else it names. *)
Definition set_body (o : ObjectId) (F : gmap string value) (d : gmap string value)
  : option (gmap string value) :=
  if plain_body F then op_set F d
  else
    match F !! "_id" with
    | Some v => if is_oid o v then set_paths ext F d else None
    | None => set_paths ext F d
    end.

Definition profile (u : user) (fields : gmap string value) : H Empty_set :=
  updateUser (by_id (_id u)) (set_body (_id u) fields);;
  send 200 (BText "Profile updated").

Definition profile_image (k : string) (u : user)
    (file : option (list Byte.byte)) : H Empty_set :=
  buffer ← await TypeError file;
  image ← await UploadError (uploadToImgBB ext buffer);
  updateUser (by_id (_id u)) (op_set {[ k := VStr image ]});;
  send 200 (BText image).

(** *** Routes: follow graph *)

Definition follow (u : user) (id : string) (now : Z) : H Empty_set :=
  targetId ← await BSONError (ObjectId_new ext id);
  if same_id targetId (_id u) then send 400 (BText "Cannot follow self")
  else
    updateUser (by_id (_id u)) (op_addToSet "following" targetId);;
    updateUser (by_id targetId) (op_addToSet "followers" (_id u));;
    createNotification "follow" (_id u) targetId None now;;
    send 200 (BText "Followed").

Definition unfollow (u : user) (id : string) : H Empty_set :=
  targetId ← await BSONError (ObjectId_new ext id);
  updateUser (by_id (_id u)) (op_pull "following" targetId);;
  updateUser (by_id targetId) (op_pull "followers" (_id u));;
  send 200 (BText "Unfollowed").

(** *** Routes: posts *)

Definition create_post (u : user) (content : value)
    (file : option (list Byte.byte)) (now : Z) : H Empty_set :=
  image ← match file with
          | Some buffer =>
              url ← await UploadError (uploadToImgBB ext buffer); mret (Some url)
          | None => mret None
          end;
  post ← insertPost (Post.Make content image (_id u) [] now);
  send 200 (BPost post).

Definition get_posts : H Empty_set :=
  db ← get;
  send 200 (BPosts (sort_desc (λ p, Post.createdAt (data p)) (Posts db))).

Definition addToSet_likes (o : ObjectId) (p : Post.t) : option Post.t :=
  Some (Post.Make (Post.content p) (Post.image p) (Post.author p)
          (if bool_decide (o ∈ Post.likes p) then Post.likes p
           else Post.likes p ++ [o])
          (Post.createdAt p)).

Definition like (u : user) (id : string) (now : Z) : H Empty_set :=
  postId ← await BSONError (ObjectId_new ext id);
  db ← get;
  post ← await TypeError (findOne (by_id postId) (Posts db));
  (if negb (existsb (λ id, same_id id (_id u)) (Post.likes (data post))) then
     ps ← await WriteError (updateOne (by_id postId) (addToSet_likes (_id u)) (Posts db));
     setPosts ps;;
     createNotification "like" (_id u) (Post.author (data post)) (Some postId) now
   else mret tt);;
  send 200 (BText "Liked").

(** *** Routes: comments *)

Definition add_comment (u : user) (id : string) (text : value) (now : Z)
  : H Empty_set :=
  postId ← await BSONError (ObjectId_new ext id);
  db ← get;
  let post := findOne (by_id postId) (Posts db) in
  comment ← insertComment (Comment.Make text postId (_id u) now);
  p ← await TypeError post;
  createNotification "comment" (_id u) (Post.author (data p)) (Some postId) now;;
  send 200 (BComment comment).

(** *** Routes: notifications *)

Definition for_receiver (o : ObjectId) (n : doc Notification.t) : bool :=
  bool_decide (Notification.receiver (data n) = o).

Definition notifications (u : user) : H Empty_set :=
  db ← get;
  send 200 (BNotifications
    (sort_desc (λ n, Notification.createdAt (data n))
       (find (for_receiver (_id u)) (Notifications db)))).

Definition mark_read (n : Notification.t) : Notification.t :=
  Notification.Make (Notification.type n) (Notification.sender n)
    (Notification.receiver n) (Notification.postId n) true
    (Notification.createdAt n).

Definition read_all (u : user) : H Empty_set :=
  db ← get;
  setNotifications (updateMany (for_receiver (_id u)) mark_read (Notifications db));;
  send 200 (BText "All read").

(** *** Routes: administration *)

Definition ban (id : string) : H Empty_set :=
  target ← await BSONError (ObjectId_new ext id);
  updateUser (by_id target) (op_set {[ "banned" := VBool true ]});;
  send 200 (BText "User banned").

Definition admin_delete_post (id : string) : H Empty_set :=
  postId ← await BSONError (ObjectId_new ext id);
  db ← get;
  setPosts (deleteOne (by_id postId) (Posts db));;
  db ← get;
  setComments (deleteMany (λ c, bool_decide (Comment.postId (data c) = postId))
                 (Comments db));;
  send 200 (BText "Post removed").

(** *** The application *)

Definition app (req : request route) : H Empty_set :=
  match target req with
  | PostRegister username email password => register username email password (now req)
  | PostLogin email password => login email password
  | GetMe => auth req ≫= me
  | PutProfile fields => u ← auth req; profile u fields
  | PutProfileAvatar file => u ← auth req; profile_image "profileImage" u file
  | PutProfileCover file => u ← auth req; profile_image "coverImage" u file
  | PostFollow id => u ← auth req; follow u id (now req)
  | PostUnfollow id => u ← auth req; unfollow u id
  | PostPosts content file => u ← auth req; create_post u content file (now req)
  | GetPosts => get_posts
  | PutLike id => u ← auth req; like u id (now req)
  | PostComments id text => u ← auth req; add_comment u id text (now req)
  | GetNotifications => auth req ≫= notifications
  | PutNotificationsReadAll => auth req ≫= read_all
  | PutAdminBan id => u ← auth req; adminOnly u;; ban id
  | DeleteAdminPost id => u ← auth req; adminOnly u;; admin_delete_post id
  end.

(** Handling one request: the database afterwards and how it ended. *)
Definition handle (req : request route) (db : Db) : Db * outcome body :=
  finish (app req) db.

(** The database after a sequence of requests. *)
Definition run (reqs : list (request route)) (db : Db) : Db :=
  foldl (λ db req, (handle req db).1) db reqs.
End Server.

(** ** The Firebase server ([index.js])

    The follow, profile, comment, notification and ban handlers are the ones
    of the native-driver server; the gate and the registration differ. *)
Module Firebase.
Inductive route :=
| PostRegister (fullName email : string)
| GetMe
| PutProfile (fields : gmap string value)
| PutProfileAvatar (file : option (list Byte.byte))
| PutProfileCover (file : option (list Byte.byte))
| PostFollow (id : string)
| PostPosts (content : value) (file : option (list Byte.byte))
| PostComments (id : string) (text : value)
| GetNotifications
| PutAdminBan (id : string).

Section Server.
Context (ext : Ext).

Definition auth {R} (req : request R) : H user :=
  match authorization req with
  | None | Some "" => send 401 (BText "No token")
  | Some header =>
      match split " "%char header !! 1%nat ≫= verifyIdToken ext with
      | None => send 401 (BText "Invalid Firebase token")
      | Some (name, email) =>
          db ← get;
          u ← match findOne (field_matches "email" email) (Users db) with
              | Some u => mret u
              | None =>
                  (* Auto-create user in DB if not exists *)
                  insertUser ext (list_to_map [
                    ("fullName", VStr name);
                    ("email", VStr email);
                    ("role", VStr "user");
                    ("banned", VBool false);
                    ("profileImage", VStr "");
                    ("coverImage", VStr "");
                    ("bio", VStr "");
                    ("location", VStr "");
                    ("dateOfBirth", VNull);
                    ("followers", VArr []);
                    ("following", VArr []);
                    ("createdAt", VDate (now req))])
              end;
          if truthy (field u "banned") then send 403 (BText "User banned")
          else mret u
      end
  end.

(** [updateOne(filter, { $set }, { upsert: true })] *)
Definition register (fullName email : string) : H Empty_set :=
  let doc := list_to_map [("fullName", VStr fullName); ("email", VStr email)] in
  db ← get;
  match findOne (field_matches "email" email) (Users db) with
  | Some _ => updateUser (field_matches "email" email) (op_set doc)
  | None => insertUser ext doc;; mret tt
  end;;
  send 200 (BText "User profile saved").

Definition create_post (u : user) (content : value)
    (file : option (list Byte.byte)) (now : Z) : H Empty_set :=
  match file with
  | Some buffer =>
      match uploadToImgBB ext buffer with
      | Some url =>
          post ← insertPost ext (Post.Make content (Some url) (_id u) [] now);
          send 200 (BPostWithAuthor post (field u "fullName") (field u "profileImage"))
      | None => send 500 (BText "Post creation failed")
      end
  | None =>
      post ← insertPost ext (Post.Make content None (_id u) [] now);
      send 200 (BPostWithAuthor post (field u "fullName") (field u "profileImage"))
  end.

Definition app (req : request route) : H Empty_set :=
  match target req with
  | PostRegister fullName email => register fullName email
  | GetMe => auth req ≫= me
  | PutProfile fields => u ← auth req; profile ext u fields
  | PutProfileAvatar file => u ← auth req; profile_image ext "profileImage" u file
  | PutProfileCover file => u ← auth req; profile_image ext "coverImage" u file
  | PostFollow id => u ← auth req; follow ext u id (now req)
  | PostPosts content file => u ← auth req; create_post u content file (now req)
  | PostComments id text => u ← auth req; add_comment ext u id text (now req)
  | GetNotifications => auth req ≫= notifications
  | PutAdminBan id => u ← auth req; adminOnly u;; ban ext id
  end.

Definition handle (req : request route) (db : Db) : Db * outcome body :=
  finish (app req) db.
End Server.
End Firebase.

(** ** The Mongoose server

    Schemas: [User] (username and email unique, password), [Post] (content,
    image, author, likes), [Comment] (text, post, author), all with
    timestamps. *)
Module Mongoose.
Module User.
Record t := Make {
  username : string;
  email : string;
  password : string;
  createdAt : Z;
  updatedAt : Z
}.
End User.

Module Post.
Record t := Make {
  content : option string;
  image : option string;
  author : ObjectId;
  likes : list ObjectId;
  createdAt : Z;
  updatedAt : Z
}.
End Post.

Module Comment.
Record t := Make {
  text : option string;
  post : ObjectId;
  author : ObjectId;
  createdAt : Z;
  updatedAt : Z
}.
End Comment.

Record Db := MkDb {
  Users : list (doc User.t);
  Posts : list (doc Post.t);
  Comments : list (doc Comment.t);
  fresh : nat
}.

Definition empty_db : Db := MkDb [] [] [] 0.

(** [populate("author", "username")] *)
Definition populated (A : Type) : Type := A * option (doc string).

Inductive body :=
| BText (s : string)
| BLogin (token : string) (u : doc User.t)
| BMe (u : option (doc (string * string * Z * Z))) (posts : list (doc Post.t))
| BPost (p : doc Post.t)
| BFeed (ps : list (populated (doc Post.t) * list (populated (doc Comment.t))))
| BComment (c : doc Comment.t).

Inductive route :=
| PostRegister (username email password : string)
| PostLogin (email password : string)
| GetMe
| PostPosts (content : option string) (file : option (list Byte.byte))
| GetPosts
| PutPost (id : string) (content : option string)
| DeletePost (id : string)
| PutLike (id : string)
| PostComments (id : string) (text : option string)
| DeleteComment (id : string).

Abbreviation H := (M Db body).

Section Server.
Context (ext : Ext).

(** The gate only decodes the token: [req.userId = decoded.id]. *)
Definition auth {R} (req : request R) : H string :=
  match bearer (authorization req) with
  | None => send 401 (BText "No token")
  | Some token =>
      match jwt_verify ext token with
      | Some userId => mret userId
      | None => send 401 (BText "Invalid token")
      end
  end.

Definition cast (id : string) : H ObjectId := await CastError (ObjectId_new ext id).

Definition register (username email password : string) (now : Z) : H Empty_set :=
  let hash := bcrypt_hash ext password in
  db ← get;
  if existsb (λ u, String.eqb (User.username (data u)) username
                   || String.eqb (User.email (data u)) email) (Users db)
  then throw DuplicateKey
  else
    put (MkDb (Users db ++ [Doc (oid_gen ext (fresh db))
                              (User.Make username email hash now now)])
           (Posts db) (Comments db) (S (fresh db)));;
    send 200 (BText "User registered").

Definition login (email password : string) : H Empty_set :=
  db ← get;
  match findOne (λ u, String.eqb (User.email (data u)) email) (Users db) with
  | None => send 400 (BText "Invalid credentials")
  | Some u =>
      if negb (bcrypt_compare ext password (User.password (data u)))
      then send 400 (BText "Invalid credentials")
      else send 200 (BLogin (jwt_sign ext (_id u)) u)
  end.

Definition me (userId : string) : H Empty_set :=
  uid ← cast userId;
  db ← get;
  let user := findOne (by_id uid) (Users db) in
  let posts := find (λ p, bool_decide (Post.author (data p) = uid)) (Posts db) in
  send 200 (BMe ((λ u, Doc (_id u) (User.username (data u), User.email (data u),
                                    User.createdAt (data u), User.updatedAt (data u)))
                   <$> user) posts).

Definition create_post (userId : string) (content : option string)
    (file : option (list Byte.byte)) (now : Z) : H Empty_set :=
  imageUrl ← match file with
             | Some buffer =>
                 url ← await UploadError (uploadToImgBB ext buffer); mret (Some url)
             | None => mret None
             end;
  author ← cast userId;
  db ← get;
  let post := Doc (oid_gen ext (fresh db))
                (Post.Make content imageUrl author [] now now) in
  put (MkDb (Users db) (Posts db ++ [post]) (Comments db) (S (fresh db)));;
  send 200 (BPost post).

Definition populate (db : Db) (o : ObjectId) : option (doc string) :=
  (λ u, Doc (_id u) (User.username (data u))) <$> findOne (by_id o) (Users db).

Definition feed : H Empty_set :=
  db ← get;
  send 200 (BFeed
    ((λ p, ((p, populate db (Post.author (data p))),
            (λ c, (c, populate db (Comment.author (data c))))
              <$> find (λ c, bool_decide (Comment.post (data c) = _id p))
                    (Comments db)))
       <$> sort_desc (λ p, Post.createdAt (data p)) (Posts db))).

(** [post.save()] writes the document back under its identifier. *)
Definition savePost (p : doc Post.t) : H unit :=
  db ← get;
  match updateOne (by_id (_id p)) (λ _, Some (data p)) (Posts db) with
  | Some ps => put (MkDb (Users db) ps (Comments db) (fresh db))
  | None => throw WriteError
  end.

Definition edit_post (userId id : string) (content : option string) (now : Z)
  : H Empty_set :=
  pid ← cast id;
  db ← get;
  post ← await TypeError (findOne (by_id pid) (Posts db));
  if negb (String.eqb (toString (Post.author (data post))) userId)
  then send 403 (BText "Not allowed")
  else
    let p := data post in
    let content' := match content with
                    | Some c => if String.eqb c "" then Post.content p else Some c
                    | None => Post.content p
                    end in
    (* [save()] writes, and stamps [updatedAt], only when the assignment
       changed the content. *)
    if bool_decide (content' = Post.content p)
    then send 200 (BPost post)
    else
      let post' := Doc (_id post)
                     (Post.Make content' (Post.image p) (Post.author p)
                        (Post.likes p) (Post.createdAt p) now) in
      savePost post';;
      send 200 (BPost post').

Definition delete_post (userId id : string) : H Empty_set :=
  pid ← cast id;
  db ← get;
  post ← await TypeError (findOne (by_id pid) (Posts db));
  if negb (String.eqb (toString (Post.author (data post))) userId)
  then send 403 (BText "Not allowed")
  else
    put (MkDb (Users db) (deleteOne (by_id (_id post)) (Posts db))
           (Comments db) (fresh db));;
    db ← get;
    put (MkDb (Users db) (Posts db)
           (deleteMany (λ c, bool_decide (Comment.post (data c) = _id post))
              (Comments db))
           (fresh db));;
    send 200 (BText "Post deleted").

Definition like (userId id : string) (now : Z) : H Empty_set :=
  pid ← cast id;
  db ← get;
  post ← await TypeError (findOne (by_id pid) (Posts db));
  if negb (existsb (λ o, String.eqb (toString o) userId) (Post.likes (data post)))
  then
    uid ← cast userId;
    let p := data post in
    let post' := Doc (_id post)
                   (Post.Make (Post.content p) (Post.image p) (Post.author p)
                      (Post.likes p ++ [uid]) (Post.createdAt p) now) in
    savePost post';;
    send 200 (BPost post')
  else send 200 (BPost post).

Definition add_comment (userId id : string) (text : option string) (now : Z)
  : H Empty_set :=
  pid ← cast id;
  author ← cast userId;
  db ← get;
  let comment := Doc (oid_gen ext (fresh db))
                   (Comment.Make text pid author now now) in
  put (MkDb (Users db) (Posts db) (Comments db ++ [comment]) (S (fresh db)));;
  send 200 (BComment comment).

Definition delete_comment (userId id : string) : H Empty_set :=
  cid ← cast id;
  db ← get;
  comment ← await TypeError (findOne (by_id cid) (Comments db));
  if negb (String.eqb (toString (Comment.author (data comment))) userId)
  then send 403 (BText "Not allowed")
  else
    put (MkDb (Users db) (Posts db)
           (deleteOne (by_id (_id comment)) (Comments db)) (fresh db));;
    send 200 (BText "Comment deleted").

Definition app (req : request route) : H Empty_set :=
  match target req with
  | PostRegister username email password =>
      register username email password (now req)
  | PostLogin email password => login email password
  | GetMe => auth req ≫= me
  | PostPosts content file =>
      userId ← auth req; create_post userId content file (now req)
  | GetPosts => feed
  | PutPost id content => userId ← auth req; edit_post userId id content (now req)
  | DeletePost id => userId ← auth req; delete_post userId id
  | PutLike id => userId ← auth req; like userId id (now req)
  | PostComments id text => userId ← auth req; add_comment userId id text (now req)
  | DeleteComment id => userId ← auth req; delete_comment userId id
  end.

Definition handle (req : request route) (db : Db) : Db * outcome body :=
  finish (app req) db.
End Server.
End Mongoose.

(** ** A concrete environment

    Executable stand-ins for the external libraries, used to run the
    handlers on concrete requests. *)
Module Demo.
Definition hex_digit (n : nat) : Ascii.ascii :=
  nth n (String.list_ascii_of_string "0123456789abcdef") "0"%char.

Fixpoint hex_of (digits n : nat) : string :=
  match digits with
  | O => ""
  | S d => hex_of d (n / 16) +:+ String (hex_digit (n mod 16)) ""
  end.

Definition is_hex (c : Ascii.ascii) : bool :=
  existsb (Ascii.eqb c) (String.list_ascii_of_string "0123456789abcdefABCDEF").

Definition lower (c : Ascii.ascii) : Ascii.ascii :=
  let n := nat_of_ascii c in
  if (Nat.leb 65 n && Nat.leb n 70)%bool then ascii_of_nat (n + 32) else c.

Definition parse_oid (s : string) : option ObjectId :=
  let cs := String.list_ascii_of_string s in
  if (Nat.eqb (length cs) 24 && forallb is_hex cs)%bool
  then Some (OID (String.string_of_list_ascii (lower <$> cs)))
  else None.

Definition strip (prefix s : string) : option string :=
  if String.prefix prefix s
  then Some (String.substring (String.length prefix)
               (String.length s - String.length prefix) s)
  else None.

Definition ext : Ext := {|
  ObjectId_new := parse_oid;
  oid_gen n := OID (hex_of 24 (S n));
  jwt_sign o := "jwt:" +:+ toString o;
  jwt_verify := strip "jwt:";
  bcrypt_hash p := "$2a$10$" +:+ p;
  bcrypt_compare p h := String.eqb ("$2a$10$" +:+ p) h;
  uploadToImgBB _ := Some "https://i.ibb.co/img.png";
  verifyIdToken t := (λ e, ("", e)) <$> strip "firebase:" t;
  set_paths _ _ := None
|}.

Definition id1 : string := "000000000000000000000001".
Definition id2 : string := "000000000000000000000002".
Definition id3 : string := "000000000000000000000003".
Definition bearer_of (id : string) : option string := Some ("Bearer jwt:" +:+ id).

Definition alice_registers : request route :=
  Request None 10 (PostRegister "alice" "a@x.com" "pw1").
Definition bob_registers : request route :=
  Request None 11 (PostRegister "bob" "b@x.com" "pw2").
Definition alice_posts : request route :=
  Request (bearer_of id1) 12 (PostPosts (VStr "hello") None).

(** Alice (identifier [id1]) and Bob ([id2]) are registered and Alice has
    published one post ([id3]). *)
Definition db0 : Db := Eval vm_compute in
  foldl (λ db req, (handle ext req db).1) empty_db
    [alice_registers; bob_registers; alice_posts].
Definition alice : user := default (Doc (OID "") ∅) (Users db0 !! 0%nat).
Definition bob : user := default (Doc (OID "") ∅) (Users db0 !! 1%nat).
Definition hello : doc Post.t :=
  Doc (OID id3) (Post.Make (VStr "hello") None (OID id1) [] 12).

(** As [db0], after Alice made herself administrator and Bob commented on
    her post. *)
Definition db1 : Db := Eval vm_compute in
  foldl (λ db req, (handle ext req db).1) db0
    [Request (bearer_of id1) 13 (PutProfile {[ "role" := VStr "admin" ]});
     Request (bearer_of id2) 14 (PostComments id3 (VStr "nice"))].
Definition admin_alice : user := default (Doc (OID "") ∅) (Users db1 !! 0%nat).

(** A database of the Mongoose server: Alice's post with Bob's comment. *)
Definition mdb : Mongoose.Db :=
  Mongoose.MkDb []
    [Doc (OID id3) (Mongoose.Post.Make (Some "hello") None (OID id1) [] 12 12)]
    [Doc (OID "000000000000000000000004")
       (Mongoose.Comment.Make (Some "nice") (OID id3) (OID id2) 14 14)]
    4.
End Demo.

(** ** Vocabulary of the specification *)

(** Routes registered behind [auth]. *)
Definition gated (r : route) : bool :=
  match r with
  | PostRegister _ _ _ | PostLogin _ _ | GetPosts => false
  | _ => true
  end.

Definition is_profile_update (r : route) : bool :=
  match r with PutProfile _ => true | _ => false end.

(** An array element refers to identity [o]: it is that [ObjectId], or the
    hexadecimal string that spells it in a JSON body or response. *)
Definition refers_to (o : ObjectId) (v : value) : bool :=
  match v with
  | VOid o' => same_id o' o
  | VStr s => String.eqb s (toString o)
  | _ => false
  end.

(** Identity [o] is listed in the array field [k] of [u]. *)
Definition listed (k : string) (u : user) (o : ObjectId) : bool :=
  match field u k with
  | Some (VArr l) => existsb (refers_to o) l
  | _ => false
  end.

(** How often the identifier [o] occurs in the array field [k] of [u]. *)
Definition occurrences (k : string) (u : user) (o : ObjectId) : nat :=
  match field u k with
  | Some (VArr l) => length (List.filter (is_oid o) l)
  | _ => O
  end.

Definition self_edge (u : user) : bool :=
  listed "followers" u (_id u) || listed "following" u (_id u).

Definition no_self_edges (db : Db) : bool :=
  forallb (λ u, negb (self_edge u)) (Users db).

(** A Hoare triple for handlers: from a database satisfying [P], the handler
    either yields [a] in a database satisfying [Q a], or ends the request
    with outcome [o] in a database satisfying [E o]. *)
Definition triple {S B A} (P : S → Prop) (m : M S B A)
    (Q : A → S → Prop) (E : outcome B → S → Prop) : Prop :=
  ∀ db, P db →
    match m db with
    | (db', inl a) => Q a db'
    | (db', inr o) => E o db'
    end.

(** An invariant of the stored records: every user document satisfies [okU]
    and every notification satisfies [okN]. *)
Definition store_inv (okU : user → Prop) (okN : doc Notification.t → Prop)
    (db : Db) : Prop :=
  Forall okU (Users db) ∧ Forall okN (Notifications db).

(** Every stored notification has a sender other than its receiver. *)
Definition distinct_parties (n : doc Notification.t) : Prop :=
  Notification.sender (data n) ≠ Notification.receiver (data n).

(** A request to either server that shares the database. *)
Definition serve (ext : Ext) (req : request route + request Firebase.route)
    (db : Db) : Db :=
  match req with
  | inl r => (handle ext r db).1
  | inr r => (Firebase.handle ext r db).1
  end.

(** A word of a header: it holds no space. *)
Fixpoint spaceless (s : string) : bool :=
  match s with
  | EmptyString => true
  | String c r => negb (Ascii.eqb c " ") && spaceless r
  end.

(** Newest first: no later element carries a later date. *)
Definition newest_first {A} (key : A → Z) (l : list A) : Prop :=
  StronglySorted (λ x y, (key y ≤ key x)%Z) l.

(** The writes the handlers make to the database, one driver call each. *)
Inductive write (ext : Ext) : Db → Db → Prop :=
| write_insertUser db f :
    write ext db (insertUser ext f db).1
| write_updateUser db q op us :
    updateOne q op (Users db) = Some us →
    write ext db (MkDb us (Posts db) (Comments db) (Notifications db) (fresh db))
| write_insertPost db content image author now :
    write ext db (insertPost ext (Post.Make content image author [] now) db).1
| write_like db pid o ps :
    updateOne (by_id pid) (addToSet_likes o) (Posts db) = Some ps →
    write ext db (MkDb (Users db) ps (Comments db) (Notifications db) (fresh db))
| write_deletePost db pid :
    write ext db (MkDb (Users db) (deleteOne (by_id pid) (Posts db)) (Comments db)
                    (Notifications db) (fresh db))
| write_insertComment db c :
    write ext db (insertComment ext c db).1
| write_deleteComments db pid :
    write ext db
      (MkDb (Users db) (Posts db)
         (deleteMany (λ c, bool_decide (Comment.postId (data c) = pid)) (Comments db))
         (Notifications db) (fresh db))
| write_notify db type s r pid now :
    s ≠ r →
    write ext db (insertNotification ext (Notification.Make type s r pid false now) db).1
| write_readAll db o :
    write ext db
      (MkDb (Users db) (Posts db) (Comments db)
         (updateMany (for_receiver o) mark_read (Notifications db)) (fresh db)).

(** The database after a sequence of requests to either server. *)
Definition serve_all (ext : Ext) (reqs : list (request route + request Firebase.route))
    (db : Db) : Db :=
  foldl (λ db req, serve ext req db) db reqs.

(** A stored post [p'] is the post [p] as it has become: only its likes may
    have grown. *)
Definition same_post (p p' : doc Post.t) : Prop :=
  _id p' = _id p
  ∧ Post.content (data p') = Post.content (data p)
  ∧ Post.image (data p') = Post.image (data p)
  ∧ Post.author (data p') = Post.author (data p)
  ∧ Post.createdAt (data p') = Post.createdAt (data p)
  ∧ Post.likes (data p) ⊆ Post.likes (data p').

(** A stored notification [n'] is the notification [n] as it has become: it
    may have been read meanwhile. *)
Definition same_notification (n n' : doc Notification.t) : Prop :=
  _id n' = _id n
  ∧ mark_read (data n') = mark_read (data n)
  ∧ (Notification.read (data n) = true → Notification.read (data n') = true).

(** The database of the Mongoose server after a sequence of requests. *)
Definition mongoose_run (ext : Ext) (reqs : list (request Mongoose.route))
    (db : Mongoose.Db) : Mongoose.Db :=
  foldl (λ db req, (Mongoose.handle ext req db).1) db reqs.

(** The [:id] parameter of a route of the native-driver server, if it has
    one, and whether the route is mounted behind [adminOnly]. *)
Definition id_param (r : route) : option string :=
  match r with
  | PostFollow id | PostUnfollow id | PutLike id | PostComments id _
  | PutAdminBan id | DeleteAdminPost id => Some id
  | _ => None
  end.

Definition admin_route (r : route) : bool :=
  match r with PutAdminBan _ | DeleteAdminPost _ => true | _ => false end.

(** A handler keeps an invariant, however it ends. *)
Definition keeps {S B A} (I : S → Prop) (m : M S B A) : Prop :=
  triple I m (λ _, I) (λ _, I).

(** * Properties *)

(** ** Reasoning about handlers *)

Lemma bind_run {S B A C} (m : M S B A) (k : A → M S B C) (db : S) :
  (m ≫= k) db =
  match m db with
  | (db', inl a) => k a db'
  | (db', inr o) => (db', inr o)
  end.
Proof. reflexivity. Qed.

Lemma bind_done {S B A C} (m : M S B A) (k : A → M S B C) db db' o :
  m db = (db', inr o) → (m ≫= k) db = (db', inr o).
Proof. intros E. by rewrite bind_run, E. Qed.

Lemma bind_value {S B A C} (m : M S B A) (k : A → M S B C) db db' a :
  m db = (db', inl a) → (m ≫= k) db = k a db'.
Proof. intros E. by rewrite bind_run, E. Qed.

Lemma finish_done {S B} (m : M S B Empty_set) db db' o :
  m db = (db', inr o) → finish m db = (db', o).
Proof. intros E. unfold finish. by rewrite E. Qed.

(** ** Hoare rules *)

Section Triples.
Context {S B : Type}.
Implicit Types (P I : S → Prop) (E : outcome B → S → Prop).

Lemma triple_ret {A} P (a : A) Q E :
  (∀ db, P db → Q a db) → triple P (mret a : M S B A) Q E.
Proof. intros HQ db HP. by apply HQ. Qed.

Lemma triple_send {A} P status b (Q : A → S → Prop) E :
  (∀ db, P db → E (Sent status b) db) → triple P (send status b) Q E.
Proof. intros HE db HP. by apply HE. Qed.

Lemma triple_throw {A} P e (Q : A → S → Prop) E :
  (∀ db, P db → E (Thrown e) db) → triple P (throw e) Q E.
Proof. intros HE db HP. by apply HE. Qed.

Lemma triple_get P Q E : (∀ db, P db → Q db db) → triple P get Q E.
Proof. intros HQ db HP. by apply HQ. Qed.

Lemma triple_put P db' Q E : (∀ db, P db → Q () db') → triple P (put db') Q E.
Proof. intros HQ db HP. by eapply HQ. Qed.

Lemma triple_bind {A C} P (m : M S B A) (k : A → M S B C) Q R E :
  triple P m Q E → (∀ a, triple (Q a) (k a) R E) → triple P (m ≫= k) R E.
Proof.
  intros Hm Hk db HP. rewrite bind_run. specialize (Hm db HP).
  destruct (m db) as [db' [a|o]]; [by apply Hk | done].
Qed.

Lemma triple_conseq {A} (P P' : S → Prop) (m : M S B A) (Q Q' : A → S → Prop) E :
  triple P' m Q' E → (∀ db, P db → P' db) → (∀ a db, Q' a db → Q a db) →
  triple P m Q E.
Proof.
  intros Hm HP HQ db Hdb. specialize (Hm db (HP db Hdb)).
  destruct (m db) as [db' [a|o]]; [by apply HQ | done].
Qed.

Lemma triple_finish P (m : M S B Empty_set) Q E db :
  triple P m Q E → P db → E (finish m db).2 (finish m db).1.
Proof.
  intros Hm HP. specialize (Hm db HP). unfold finish.
  by destruct (m db) as [db' [[]|o]].
Qed.

Lemma keeps_ret {A} I (a : A) : keeps I (mret a : M S B A).
Proof. by apply triple_ret. Qed.

Lemma keeps_send {A} I status b : keeps I (send status b : M S B A).
Proof. by apply triple_send. Qed.

Lemma keeps_throw {A} I e : keeps I (throw e : M S B A).
Proof. by apply triple_throw. Qed.

Lemma keeps_get I : keeps I (get : M S B S).
Proof. by apply triple_get. Qed.

Lemma keeps_await {A} I e (r : option A) : keeps I (await e r : M S B A).
Proof. destruct r; [apply keeps_ret | apply keeps_throw]. Qed.

Lemma keeps_bind {A C} I (m : M S B A) (k : A → M S B C) :
  keeps I m → (∀ a, keeps I (k a)) → keeps I (m ≫= k).
Proof. intros Hm Hk. by eapply triple_bind. Qed.

Lemma keeps_finish I (m : M S B Empty_set) db :
  keeps I m → I db → I (finish m db).1.
Proof. intros Hm HI. by apply (triple_finish I m _ _ db Hm). Qed.
End Triples.

(** One step of a proof that a handler keeps an invariant: follow the
    structure of the handler down to the driver calls. *)
Ltac keeps_step :=
  lazymatch goal with
  | |- keeps _ (_ ≫= _) => apply keeps_bind; [|intros ?]
  | |- keeps _ (mret _) => apply keeps_ret
  | |- keeps _ (send _ _) => apply keeps_send
  | |- keeps _ (throw _) => apply keeps_throw
  | |- keeps _ get => apply keeps_get
  | |- keeps _ (await _ _) => apply keeps_await
  | |- keeps _ (if ?b then _ else _) => destruct b eqn:?
  | |- keeps _ (match ?x with _ => _ end) => destruct x eqn:?
  end.

(** ** The access gate *)

Lemma auth_banned ext {R} (req : request R) token id uid u db :
  bearer (authorization req) = Some token →
  jwt_verify ext token = Some id →
  ObjectId_new ext id = Some uid →
  findOne (by_id uid) (Users db) = Some u →
  truthy (field u "banned") = true →
  auth ext req db = (db, inr (Sent 403 (BText "Access denied"))).
Proof.
  intros Hb Hv Hn Hf Ht. unfold auth. rewrite Hb, Hv. simpl. rewrite Hn.
  rewrite bind_run. unfold get. simpl. by rewrite Hf, Ht.
Qed.

Lemma auth_passes ext {R} (req : request R) token id uid u db :
  bearer (authorization req) = Some token →
  jwt_verify ext token = Some id →
  ObjectId_new ext id = Some uid →
  findOne (by_id uid) (Users db) = Some u →
  truthy (field u "banned") = false →
  auth ext req db = (db, inl u).
Proof.
  intros Hb Hv Hn Hf Ht. unfold auth. rewrite Hb, Hv. simpl. rewrite Hn.
  rewrite bind_run. unfold get. simpl. by rewrite Hf, Ht.
Qed.

(** The gate never writes, and whoever passes it is a stored, non-banned
    identity. *)
Lemma auth_inv ext {R} (req : request R) db db' r :
  auth ext req db = (db', r) →
  db' = db ∧
  match r with
  | inl u => u ∈ Users db ∧ truthy (field u "banned") = false
  | inr o => o = Sent 401 (BText "No token") ∨ o = Sent 401 (BText "Invalid token")
             ∨ o = Sent 403 (BText "Access denied")
  end.
Proof.
  unfold auth. destruct (bearer _); [|intros [= <- <-]; auto].
  destruct (_ ≫= _) as [uid|]; [|intros [= <- <-]; auto].
  rewrite bind_run. unfold get. simpl.
  destruct (findOne _ _) as [u|] eqn:Hf; [|intros [= <- <-]; auto 10].
  destruct (truthy _) eqn:Ht; intros [= <- <-]; auto 10.
  split; [done|]. split; [|done].
  clear Ht. induction (Users db) as [|d l IH]; [done|]. simpl in Hf.
  destruct (by_id uid d); [injection Hf as <-; left | right; auto].
Qed.

(** C1. An identity whose ban flag is set is turned away by the access gate
    with 403 although its bearer credential verifies: whatever handler is
    mounted behind the gate never runs, so every gated route answers 403 and
    leaves the database as it was. *)
Theorem banned_identity_is_forbidden ext (req : request route) token id uid u db :
  bearer (authorization req) = Some token →
  jwt_verify ext token = Some id →
  ObjectId_new ext id = Some uid →
  findOne (by_id uid) (Users db) = Some u →
  truthy (field u "banned") = true →
  (∀ A (handler : user → H A),
     (auth ext req ≫= handler) db = (db, inr (Sent 403 (BText "Access denied"))))
  ∧ (gated (target req) = true →
     handle ext req db = (db, Sent 403 (BText "Access denied"))).
Proof.
  intros Hb Hv Hn Hf Ht.
  pose proof (auth_banned ext req _ _ _ _ _ Hb Hv Hn Hf Ht) as Ha.
  split.
  - intros A handler. by apply bind_done.
  - intros Hg. unfold handle. apply finish_done. unfold app.
    destruct (target req); try discriminate Hg; by apply bind_done.
Qed.

Lemma banned_identity_is_forbidden_witness :
  let db := MkDb [Doc (OID Demo.id1) {[ "banned" := VBool true ]}] [] [] [] 1 in
  handle Demo.ext (Request (Demo.bearer_of Demo.id1) 0 GetMe) db
  = (db, Sent 403 (BText "Access denied")).
Proof.
  intros db.
  refine (proj2 (banned_identity_is_forbidden Demo.ext
    (Request (Demo.bearer_of Demo.id1) 0 GetMe) ("jwt:" +:+ Demo.id1) Demo.id1
    (OID Demo.id1) (Doc (OID Demo.id1) {[ "banned" := VBool true ]}) db
    _ _ _ _ _) _); reflexivity.
Defined.

(** The gate of the Firebase server turns a banned identity away as well,
    with 403 "User banned". *)
Lemma firebase_banned_identity_is_forbidden ext {R} (req : request R)
    header token name email u db {A} (handler : user → H A) :
  authorization req = Some header →
  header ≠ "" →
  split " " header !! 1%nat = Some token →
  verifyIdToken ext token = Some (name, email) →
  findOne (field_matches "email" email) (Users db) = Some u →
  truthy (field u "banned") = true →
  (Firebase.auth ext req ≫= handler) db = (db, inr (Sent 403 (BText "User banned"))).
Proof.
  intros Hh Hne Ht Hv Hf Hb. apply bind_done. unfold Firebase.auth.
  rewrite Hh. destruct header as [|c header]; [done|].
  rewrite Ht. simpl. rewrite Hv, bind_run. simpl.
  rewrite bind_run, Hf. simpl. by rewrite Hb.
Qed.

(** ** The follow graph has no self edges *)

Lemma same_id_sym a b : same_id a b = same_id b a.
Proof. apply String.eqb_sym. Qed.

Lemma same_id_true a b : same_id a b = true ↔ a = b.
Proof.
  unfold same_id. rewrite String.eqb_eq. destruct a, b; simpl.
  split; [by intros -> | by intros [= ->]].
Qed.

Lemma same_id_false a b : same_id a b = false ↔ a ≠ b.
Proof. rewrite <- same_id_true. by destruct (same_id a b). Qed.

Lemma listed_insert k k' i (m : gmap string value) v o :
  listed k' (Doc i (<[k := v]> m)) o =
  if decide (k = k')
  then match v with VArr l => existsb (refers_to o) l | _ => false end
  else listed k' (Doc i m) o.
Proof.
  unfold listed, field. simpl. rewrite lookup_insert.
  by destruct (decide (k = k')).
Qed.

Lemma listed_union k i (F m : gmap string value) o :
  F !! k = None → listed k (Doc i (F ∪ m)) o = listed k (Doc i m) o.
Proof.
  intros HF. unfold listed, field. simpl.
  by rewrite lookup_union_r.
Qed.

Lemma existsb_filter_false {A} (f p : A → bool) l :
  existsb f l = false → existsb f (List.filter p l) = false.
Proof.
  induction l as [|x l IH]; simpl; [done|].
  destruct (f x) eqn:Hx; [done|]. simpl. intros Hl.
  destruct (p x); simpl; rewrite ?Hx; auto.
Qed.

Lemma addToSet_no_self_edge k (d : user) t a :
  same_id t (_id d) = false →
  self_edge d = false →
  op_addToSet k t (data d) = Some a →
  self_edge (Doc (_id d) a) = false.
Proof.
  intros Hne Hd. unfold op_addToSet.
  apply orb_false_iff in Hd as [H1 H2].
  assert (∀ k' l, listed k' d (_id d) = false → data d !! k = Some (VArr l) →
            listed k' (Doc (_id d)
              (<[k := VArr (if existsb (is_oid t) l then l else l ++ [VOid t])]>
                 (data d))) (_id d) = false) as Harr.
  { intros k' l Hk' Hl. rewrite listed_insert. destruct (decide (k = k')) as [<-|].
    - unfold listed, field in Hk'. rewrite Hl in Hk'.
      destruct (existsb (is_oid t) l); [done|].
      rewrite existsb_app, Hk'. simpl. by rewrite Hne.
    - by destruct d. }
  assert (∀ k', listed k' d (_id d) = false →
            listed k' (Doc (_id d) (<[k := VArr [VOid t]]> (data d))) (_id d) = false)
    as Hnew.
  { intros k' Hk'. rewrite listed_insert. destruct (decide (k = k')) as [<-|].
    - simpl. by rewrite Hne.
    - by destruct d. }
  destruct (data d !! k) as [[| | | | | |l|]|] eqn:Hk; intros [= <-];
    unfold self_edge; simpl; apply orb_false_iff; split; auto.
Qed.

Lemma pull_no_self_edge k (d : user) t a :
  self_edge d = false →
  op_pull k t (data d) = Some a →
  self_edge (Doc (_id d) a) = false.
Proof.
  intros Hd. unfold op_pull. apply orb_false_iff in Hd as [H1 H2].
  assert (∀ k' l, listed k' d (_id d) = false → data d !! k = Some (VArr l) →
            listed k' (Doc (_id d)
              (<[k := VArr (List.filter (λ v, negb (is_oid t v)) l)]> (data d)))
              (_id d) = false) as Harr.
  { intros k' l Hk' Hl. rewrite listed_insert. destruct (decide (k = k')) as [<-|].
    - unfold listed, field in Hk'. rewrite Hl in Hk'.
      by apply existsb_filter_false.
    - by destruct d. }
  destruct (data d !! k) as [[| | | | | |l|]|] eqn:Hk; intros [= <-];
    unfold self_edge; simpl; apply orb_false_iff; split; auto; by destruct d.
Qed.

Lemma set_no_self_edge (F : gmap string value) (d : user) a :
  F !! "followers" = None → F !! "following" = None →
  self_edge d = false →
  op_set F (data d) = Some a →
  self_edge (Doc (_id d) a) = false.
Proof.
  intros H1 H2 Hd [= <-]. unfold self_edge. simpl.
  rewrite !listed_union by done. by destruct d.
Qed.

Lemma updateOne_Forall {A} (ok : doc A → Prop) q op (c c' : list (doc A)) :
  (∀ d a, ok d → q d = true → op (data d) = Some a → ok (Doc (_id d) a)) →
  Forall ok c → updateOne q op c = Some c' → Forall ok c'.
Proof.
  intros Hop Hc. revert c'. induction Hc as [|d c Hd Hc IH]; simpl.
  - by intros ? [= <-].
  - intros c'. destruct (q d) eqn:Hq.
    + destruct (op (data d)) as [a|] eqn:Ha; simpl; [|done].
      intros [= <-]. constructor; eauto.
    + destruct (updateOne q op c) as [c''|]; simpl; [|done].
      intros [= <-]. constructor; auto.
Qed.

Section StoreInvariant.
Context (ext : Ext) (okU : user → Prop) (okN : doc Notification.t → Prop).
Local Abbreviation I := (store_inv okU okN).

Lemma keeps_updateUser q op :
  (∀ d a, okU d → q d = true → op (data d) = Some a → okU (Doc (_id d) a)) →
  keeps I (updateUser q op).
Proof.
  intros Hop db [HU HN]. unfold updateUser.
  destruct (updateOne q op (Users db)) as [us|] eqn:Hu; simpl; [|done].
  split; [|done]. by eapply updateOne_Forall.
Qed.

Lemma keeps_insertUser f : (∀ o, okU (Doc o f)) → keeps I (insertUser ext f).
Proof.
  intros Hf db [HU HN]. split; [|done]. simpl.
  apply Forall_app. split; [done|]. by constructor.
Qed.

Lemma keeps_insertPost p : keeps I (insertPost ext p).
Proof. by intros db HI. Qed.

Lemma keeps_insertComment c : keeps I (insertComment ext c).
Proof. by intros db HI. Qed.

Lemma keeps_insertNotification n :
  (∀ o, okN (Doc o n)) → keeps I (insertNotification ext n).
Proof.
  intros Hn db [HU HN]. split; [done|]. simpl.
  apply Forall_app. split; [done|]. by constructor.
Qed.

Lemma keeps_setPosts ps : keeps I (setPosts ps).
Proof. by intros db HI. Qed.

Lemma keeps_setComments cs : keeps I (setComments cs).
Proof. by intros db HI. Qed.

Lemma keeps_createNotification type sender receiver postId now :
  (∀ n, distinct_parties n → okN n) →
  keeps I (createNotification ext type sender receiver postId now).
Proof.
  intros Hok. unfold createNotification. repeat keeps_step.
  apply keeps_insertNotification. intros o. apply Hok.
  unfold distinct_parties. simpl. by apply same_id_false.
Qed.

Lemma keeps_read_all u :
  (∀ n, okN n → okN (Doc (_id n) (mark_read (data n)))) → keeps I (read_all u).
Proof.
  intros Hok db [HU HN]. unfold read_all. rewrite bind_run. simpl.
  split; [done|]. simpl. unfold updateMany. apply Forall_fmap.
  eapply Forall_impl; [exact HN|]. intros n Hn. simpl.
  destruct (for_receiver (_id u) n); auto.
Qed.
End StoreInvariant.

(** The gate keeps every invariant: it only reads. *)
Lemma keeps_auth ext {R} (req : request R) (I : Db → Prop) : keeps I (auth ext req).
Proof.
  intros db HI. destruct (auth ext req db) as [db' r] eqn:Ha.
  apply auth_inv in Ha as [-> _]. by destruct r.
Qed.

Ltac users_step :=
  first
    [ keeps_step
    | apply keeps_auth
    | apply keeps_createNotification; [done]
    | apply keeps_insertPost
    | apply keeps_insertComment
    | apply keeps_setPosts
    | apply keeps_setComments ].

Section NoSelfEdges.
Context (ext : Ext).
Local Abbreviation ok := (λ u : user, self_edge u = false).
Local Abbreviation I := (store_inv ok (λ _, True)).

Lemma register_no_self_edges username email password now :
  keeps I (register ext username email password now).
Proof.
  unfold register. repeat users_step.
  apply keeps_insertUser. intros o. by vm_compute.
Qed.

Lemma follow_no_self_edges u id now : keeps I (follow ext u id now).
Proof.
  unfold follow. repeat users_step.
  - apply keeps_updateUser. intros d x Hd Hq Hx.
    apply bool_decide_eq_true in Hq.
    eapply addToSet_no_self_edge; [|done..]. by rewrite Hq.
  - apply keeps_updateUser. intros d x Hd Hq Hx.
    apply bool_decide_eq_true in Hq.
    eapply addToSet_no_self_edge; [|done..]. by rewrite Hq, same_id_sym.
Qed.

Lemma unfollow_no_self_edges u id : keeps I (unfollow ext u id).
Proof.
  unfold unfollow. repeat users_step;
    apply keeps_updateUser; intros d x Hd _ Hx; by eapply pull_no_self_edge.
Qed.

Lemma profile_image_no_self_edges k u file :
  k = "profileImage" ∨ k = "coverImage" →
  keeps I (profile_image ext k u file).
Proof.
  intros Hk. unfold profile_image. repeat users_step.
  apply keeps_updateUser. intros d x Hd _ Hx.
  eapply set_no_self_edge; [| |done..];
    apply lookup_singleton_ne; by destruct Hk as [-> | ->].
Qed.

Lemma ban_no_self_edges id : keeps I (ban ext id).
Proof.
  unfold ban. repeat users_step.
  apply keeps_updateUser. intros d x Hd _ Hx.
  by apply (set_no_self_edge {[ "banned" := VBool true ]} d x).
Qed.

Lemma app_no_self_edges req :
  is_profile_update (target req) = false → keeps I (app ext req).
Proof.
  intros Hr. unfold app. destruct (target req); try discriminate Hr.
  - apply register_no_self_edges.
  - unfold login. repeat users_step.
  - unfold me. repeat users_step.
  - users_step; [users_step|]. apply profile_image_no_self_edges; auto.
  - users_step; [users_step|]. apply profile_image_no_self_edges; auto.
  - users_step; [users_step|]. apply follow_no_self_edges.
  - users_step; [users_step|]. apply unfollow_no_self_edges.
  - unfold create_post. repeat users_step.
  - unfold get_posts. repeat users_step.
  - unfold like. repeat users_step.
  - unfold add_comment. repeat users_step.
  - unfold notifications. repeat users_step.
  - users_step; [users_step|]. by apply keeps_read_all.
  - unfold adminOnly. repeat users_step; apply ban_no_self_edges.
  - unfold adminOnly, admin_delete_post. repeat users_step.
Qed.
End NoSelfEdges.

Lemma no_self_edges_inv db :
  no_self_edges db = true ↔ store_inv (λ u, self_edge u = false) (λ _, True) db.
Proof.
  unfold no_self_edges, store_inv.
  assert (Forall (λ _ : doc Notification.t, True) (Notifications db)) as HN
    by by apply Forall_forall.
  induction (Users db) as [|u us IH]; simpl.
  - split; [by split | done].
  - rewrite andb_true_iff, negb_true_iff, IH. split.
    + intros [? [??]]. split; [by constructor | done].
    + intros [HU _]. inversion HU; subst. by repeat split.
Qed.

Lemma follow_self ext u id now db :
  ObjectId_new ext id = Some (_id u) →
  follow ext u id now db = (db, inr (Sent 400 (BText "Cannot follow self"))).
Proof.
  intros Hid. unfold follow. rewrite bind_run, Hid. simpl.
  assert (same_id (_id u) (_id u) = true) as -> by by apply same_id_true.
  done.
Qed.

(** C2 (as the code has it). Starting from a database without self edges, no
    sequence of requests other than profile updates makes an identity appear
    in its own [followers] or [following]; and following oneself answers 400
    "Cannot follow self" and changes nothing. *)
Theorem no_self_edges_without_profile_update ext :
  (∀ reqs db,
     no_self_edges db = true →
     Forall (λ req, is_profile_update (target req) = false) reqs →
     no_self_edges (run ext reqs db) = true)
  ∧ (∀ u id now db,
       ObjectId_new ext id = Some (_id u) →
       finish (follow ext u id now) db = (db, Sent 400 (BText "Cannot follow self"))).
Proof.
  split.
  - intros reqs. induction reqs as [|req reqs IH]; intros db Hdb Hreqs; [done|].
    inversion Hreqs as [|?? Hreq Hreqs']; subst. simpl. apply IH; [|done].
    apply no_self_edges_inv. unfold handle. apply keeps_finish.
    + by apply app_no_self_edges.
    + by apply no_self_edges_inv.
  - intros u id now db Hid. apply finish_done. by apply follow_self.
Qed.

Lemma no_self_edges_without_profile_update_witness :
  no_self_edges
    (run Demo.ext
       [Demo.alice_registers; Demo.bob_registers;
        Request (Demo.bearer_of Demo.id1) 12 (PostFollow Demo.id2);
        Request (Demo.bearer_of Demo.id1) 13 (PostFollow Demo.id1);
        Request (Demo.bearer_of Demo.id2) 14 (PostUnfollow Demo.id1)]
       empty_db) = true
  ∧ finish (follow Demo.ext (Doc (OID Demo.id1) ∅) Demo.id1 13) empty_db
    = (empty_db, Sent 400 (BText "Cannot follow self")).
Proof.
  split.
  - apply (proj1 (no_self_edges_without_profile_update Demo.ext)).
    + reflexivity.
    + repeat constructor.
  - apply (proj2 (no_self_edges_without_profile_update Demo.ext)). reflexivity.
Defined.

(** C2 fails for profile updates: the body is written to the caller's
    document as it is, so a caller can list themselves as followed. *)
Lemma profile_update_makes_self_edge :
  let reqs :=
    [Demo.alice_registers;
     Request (Demo.bearer_of Demo.id1) 12
       (PutProfile {[ "following" := VArr [VStr Demo.id1] ]})] in
  (handle Demo.ext (Request (Demo.bearer_of Demo.id1) 12
       (PutProfile {[ "following" := VArr [VStr Demo.id1] ]}))
     (run Demo.ext [Demo.alice_registers] empty_db)).2
  = Sent 200 (BText "Profile updated")
  ∧ no_self_edges (run Demo.ext reqs empty_db) = false.
Proof. split; by vm_compute. Qed.

(** ** Registration *)

(** The native-driver registration inserts unconditionally. *)
Lemma register_always_inserts ext username email password now db :
  ∃ u,
    handle ext (Request None now (PostRegister username email password)) db
    = (MkDb (Users db ++ [u]) (Posts db) (Comments db) (Notifications db)
         (S (fresh db)),
       Sent 200 (BText "User registered"))
    ∧ field u "email" = Some (VStr email)
    ∧ field u "username" = Some (VStr username).
Proof. eexists. split; [reflexivity|]. split; by vm_compute. Qed.

(** The Mongoose registration is refused by the unique indexes of the schema:
    the save rejects and no document is added. *)
Lemma mongoose_register_duplicate ext username email password now db :
  existsb (λ u, String.eqb (Mongoose.User.username (data u)) username
                || String.eqb (Mongoose.User.email (data u)) email)
    (Mongoose.Users db) = true →
  Mongoose.handle ext
    (Request None now (Mongoose.PostRegister username email password)) db
  = (db, Thrown DuplicateKey).
Proof.
  intros Hdup. unfold Mongoose.handle, Mongoose.app. simpl.
  apply finish_done. unfold Mongoose.register. rewrite bind_run. simpl.
  by rewrite Hdup.
Qed.

(** C3 (the code at the failing input). With alice registered under
    a@x.com, registering that email again answers 200 "User registered" and
    leaves two identity records for the email. *)
Theorem register_duplicate_email_inserts_twice :
  let db := run Demo.ext [Demo.alice_registers] empty_db in
  let again := Request None 20 (PostRegister "alice" "a@x.com" "pw9") in
  (handle Demo.ext again db).2 = Sent 200 (BText "User registered")
  ∧ length (find (field_matches "email" "a@x.com") (Users db)) = 1%nat
  ∧ length (find (field_matches "email" "a@x.com")
              (Users (handle Demo.ext again db).1)) = 2%nat
  ∧ length (find (field_matches "username" "alice")
              (Users (handle Demo.ext again db).1)) = 2%nat.
Proof. repeat split; by vm_compute. Qed.

(** ** Operations on a post that does not exist *)

Lemma like_missing_post ext u id now pid db :
  ObjectId_new ext id = Some pid →
  findOne (by_id pid) (Posts db) = None →
  finish (like ext u id now) db = (db, Thrown TypeError).
Proof.
  intros Hid Hp. apply finish_done. unfold like.
  rewrite bind_run, Hid. simpl. rewrite bind_run. simpl.
  by rewrite bind_run, Hp.
Qed.

Lemma add_comment_missing_post ext u id text now pid db :
  ObjectId_new ext id = Some pid →
  findOne (by_id pid) (Posts db) = None →
  finish (add_comment ext u id text now) db
  = (MkDb (Users db) (Posts db)
       (Comments db ++ [Doc (oid_gen ext (fresh db))
                          (Comment.Make text pid (_id u) now)])
       (Notifications db) (S (fresh db)),
     Thrown TypeError).
Proof.
  intros Hid Hp. apply finish_done. unfold add_comment.
  rewrite bind_run, Hid. simpl. rewrite bind_run. simpl.
  by rewrite bind_run, Hp.
Qed.

(** C4 (the code at the failing input). Alice likes, then comments on, a
    post identifier that names no post: neither request is answered (the
    handler throws a TypeError on the missing post), and the comment has been
    stored before the throw. *)
Theorem missing_post_is_not_reported :
  let db := run Demo.ext [Demo.alice_registers] empty_db in
  let like_it := Request (Demo.bearer_of Demo.id1) 20 (PutLike Demo.id3) in
  let comment_it :=
    Request (Demo.bearer_of Demo.id1) 21 (PostComments Demo.id3 (VStr "hi")) in
  Posts db = []
  ∧ handle Demo.ext like_it db = (db, Thrown TypeError)
  ∧ (handle Demo.ext comment_it db).2 = Thrown TypeError
  ∧ Comments (handle Demo.ext comment_it db).1
    = [Doc (OID Demo.id2) (Comment.Make (VStr "hi") (OID Demo.id3) (OID Demo.id1) 21)].
Proof. repeat split; by vm_compute. Qed.

(** ** Profile update *)

Lemma findOne_by_id_id {A} o (c : list (doc A)) d :
  findOne (by_id o) c = Some d → _id d = o.
Proof.
  induction c as [|x c IH]; simpl; [done|].
  destruct (by_id o x) eqn:Hq; [|done].
  intros [= <-]. by apply bool_decide_eq_true in Hq.
Qed.

Lemma findOne_updateOne_same {A} o op (c c' : list (doc A)) d :
  findOne (by_id o) c = Some d →
  updateOne (by_id o) op c = Some c' →
  ∃ a, op (data d) = Some a ∧ findOne (by_id o) c' = Some (Doc (_id d) a).
Proof.
  revert c'. induction c as [|x c IH]; simpl; [done|]. intros c'.
  destruct (by_id o x) eqn:Hq.
  - intros [= <-]. destruct (op (data x)) as [a|]; simpl; [|done].
    intros [= <-]. exists a. split; [done|]. simpl.
    unfold by_id in *. simpl. by rewrite Hq.
  - intros Hd. destruct (updateOne (by_id o) op c) as [c''|]; simpl; [|done].
    intros [= <-]. simpl. rewrite Hq. by apply IH.
Qed.

Lemma findOne_updateOne_other {A} o o' op (c c' : list (doc A)) :
  o ≠ o' →
  updateOne (by_id o') op c = Some c' →
  findOne (by_id o) c' = findOne (by_id o) c.
Proof.
  intros Hne. revert c'. induction c as [|x c IH]; simpl; intros c'.
  - by intros [= <-].
  - destruct (by_id o' x) eqn:Hq.
    + destruct (op (data x)) as [a|]; simpl; [|done]. intros [= <-]. simpl.
      apply bool_decide_eq_true in Hq. unfold by_id. simpl.
      by rewrite !bool_decide_eq_false_2 by congruence.
    + destruct (updateOne (by_id o') op c) as [c''|]; simpl; [|done].
      intros [= <-]. simpl. destruct (by_id o x); [done|]. by apply IH.
Qed.

Lemma updateOne_total {A} q (op : A → option A) (c : list (doc A)) :
  (∀ a, is_Some (op a)) → is_Some (updateOne q op c).
Proof.
  intros Hop. induction c as [|x c [c' IH]]; simpl; [by eexists|].
  destruct (q x).
  - destruct (Hop (data x)) as [a ->]. by eexists.
  - rewrite IH. by eexists.
Qed.

Lemma updateOne_length {A} q (op : A → option A) (c c' : list (doc A)) :
  updateOne q op c = Some c' → length c' = length c.
Proof.
  revert c'. induction c as [|y c IH]; simpl; intros c'; [by intros [= <-]|].
  destruct (q y).
  - destruct (op (data y)); simpl; [|done]. by intros [= <-].
  - destruct (updateOne q op c) as [c''|]; simpl; [|done].
    intros [= <-]. simpl. by rewrite (IH c'').
Qed.


(** The database refuses a profile update that would change the caller's
    [_id]: the handler throws and nothing is written, whatever else the body
    names. *)
Lemma profile_refuses_another_id ext (u : user) fields v db :
  fields !! "_id" = Some v →
  is_oid (_id u) v = false →
  findOne (by_id (_id u)) (Users db) = Some u →
  finish (profile ext u fields) db = (db, Thrown WriteError).
Proof.
  intros Hid Hv Hu.
  assert (plain_body fields = false) as Hplain.
  { pose proof Hid as Hin. unfold plain_body. apply elem_of_map_to_list in Hin.
    destruct (map_to_list fields) as [|kv l] eqn:Hl; [done|].
    apply not_true_iff_false. intros Hall. rewrite forallb_forall in Hall.
    apply list_elem_of_In, Hall in Hin. simpl in Hin. discriminate Hin. }
  assert (set_body ext (_id u) fields (data u) = None) as Hset.
  { unfold set_body. by rewrite Hplain, Hid, Hv. }
  assert (updateOne (by_id (_id u)) (set_body ext (_id u) fields) (Users db) = None)
    as Hnone.
  { revert Hu. generalize (by_id (A := gmap string value) (_id u)). intros q.
    induction (Users db) as [|x c IH]; simpl; [done|].
    destruct (q x).
    - intros [= ->]. by rewrite Hset.
    - intros Hc. by rewrite (IH Hc). }
  unfold finish, profile. rewrite bind_run. unfold updateUser. by rewrite Hnone.
Qed.




(** ** Login *)

Lemma findOne_Some_elem {A} q (c : list (doc A)) d :
  findOne q c = Some d → d ∈ c ∧ q d = true.
Proof.
  induction c as [|x c IH]; simpl; [done|].
  destruct (q x) eqn:Hq.
  - intros [= <-]. split; [left | done].
  - intros Hd. destruct (IH Hd). split; [by right | done].
Qed.

(** C10. A login that succeeds answers with the issued token together with
    the stored identity record found under the email, whole: the record in
    the response is the stored document, password hash included.  This holds
    for the native-driver server and for the Mongoose server. *)
Theorem login_response_carries_stored_record ext :
  (∀ (h : option string) now email password db db' b,
     handle ext (Request h now (PostLogin email password)) db = (db', Sent 200 b) →
     ∃ u hash,
       db' = db
       ∧ findOne (field_matches "email" email) (Users db) = Some u
       ∧ u ∈ Users db
       ∧ field u "password" = Some (VStr hash)
       ∧ bcrypt_compare ext password hash = true
       ∧ b = BLogin (jwt_sign ext (_id u)) u)
  ∧ (∀ (h : option string) now email password db db' b,
       Mongoose.handle ext (Request h now (Mongoose.PostLogin email password)) db
       = (db', Sent 200 b) →
       ∃ u,
         db' = db
         ∧ findOne (λ u, String.eqb (Mongoose.User.email (data u)) email)
             (Mongoose.Users db) = Some u
         ∧ u ∈ Mongoose.Users db
         ∧ bcrypt_compare ext password (Mongoose.User.password (data u)) = true
         ∧ b = Mongoose.BLogin (jwt_sign ext (_id u)) u).
Proof.
  split.
  - intros h now email password db db' b.
    unfold handle, finish, app, login. simpl. rewrite bind_run. simpl.
    destruct (findOne _ _) as [u|] eqn:Hu; [|by intros [= <- ?]].
    rewrite bind_run.
    destruct (field u "password") as [[| | |hash| | | |]|] eqn:Hp;
      try by intros [= <- ?].
    simpl. destruct (bcrypt_compare ext password hash) eqn:Hc; simpl;
      [|by intros [= <- ?]].
    intros [= <- <-]. exists u, hash.
    by destruct (findOne_Some_elem _ _ _ Hu).
  - intros h now email password db db' b.
    unfold Mongoose.handle, finish, Mongoose.app, Mongoose.login. simpl.
    rewrite bind_run. simpl.
    destruct (findOne _ _) as [u|] eqn:Hu; [|by intros [= <- ?]].
    destruct (bcrypt_compare ext password _) eqn:Hc; simpl; [|by intros [= <- ?]].
    intros [= <- <-]. exists u.
    by destruct (findOne_Some_elem _ _ _ Hu).
Qed.

Lemma login_response_carries_stored_record_witness :
  let db := run Demo.ext [Demo.alice_registers] empty_db in
  let stored := default (Doc (OID "") ∅) (head (Users db)) in
  handle Demo.ext (Request None 40 (PostLogin "a@x.com" "pw1")) db
  = (db, Sent 200 (BLogin "jwt:000000000000000000000001" stored))
  ∧ ∃ u hash,
      db = db
      ∧ findOne (field_matches "email" "a@x.com") (Users db) = Some u
      ∧ u ∈ Users db
      ∧ field u "password" = Some (VStr hash)
      ∧ bcrypt_compare Demo.ext "pw1" hash = true
      ∧ BLogin "jwt:000000000000000000000001" stored
        = BLogin (jwt_sign Demo.ext (_id u)) u.
Proof.
  intros db stored.
  assert (handle Demo.ext (Request None 40 (PostLogin "a@x.com" "pw1")) db
          = (db, Sent 200 (BLogin "jwt:000000000000000000000001" stored))) as Hrun
    by by vm_compute.
  split; [exact Hrun|].
  exact (proj1 (login_response_carries_stored_record Demo.ext)
           None 40 "a@x.com" "pw1" db db _ Hrun).
Defined.

(** ** Notifications *)

Lemma createNotification_self ext type s postId now db :
  createNotification ext type s s postId now db = (db, inl ()).
Proof.
  unfold createNotification.
  by assert (same_id s s = true) as -> by by apply same_id_true.
Qed.

Lemma createNotification_other ext type s r postId now db :
  s ≠ r →
  createNotification ext type s r postId now db
  = (MkDb (Users db) (Posts db) (Comments db)
       (Notifications db
          ++ [Doc (oid_gen ext (fresh db))
                (Notification.Make type s r postId false now)])
       (S (fresh db)),
     inl ()).
Proof.
  intros Hne. unfold createNotification.
  by assert (same_id s r = false) as -> by by apply same_id_false.
Qed.

Ltac store_step :=
  first
    [ users_step
    | apply keeps_updateUser; done
    | apply keeps_insertUser; done
    | apply keeps_read_all; done ].

Section DistinctParties.
Context (ext : Ext).
Local Abbreviation I := (store_inv (λ _, True) distinct_parties).

Lemma app_distinct_parties req : keeps I (app ext req).
Proof.
  unfold app, register, login, me, profile, profile_image, follow, unfollow,
    create_post, get_posts, like, add_comment, notifications, adminOnly, ban,
    admin_delete_post.
  destruct (target req); repeat store_step.
Qed.

Lemma firebase_app_distinct_parties req : keeps I (Firebase.app ext req).
Proof.
  assert (keeps I (Firebase.auth ext req)) as Hauth.
  { unfold Firebase.auth. repeat store_step. }
  unfold Firebase.app, Firebase.register, Firebase.create_post, me, profile,
    profile_image, follow, add_comment, notifications, adminOnly, ban.
  destruct (target req); repeat (first [exact Hauth | store_step]).
Qed.

Lemma serve_distinct_parties req db : I db → I (serve ext req db).
Proof.
  intros HI. destruct req as [r|r]; simpl;
    unfold handle, Firebase.handle; apply keeps_finish;
    auto using app_distinct_parties, firebase_app_distinct_parties.
Qed.
End DistinctParties.

Lemma like_own_post ext u id now pid p db :
  ObjectId_new ext id = Some pid →
  findOne (by_id pid) (Posts db) = Some p →
  Post.author (data p) = _id u →
  Notifications (finish (like ext u id now) db).1 = Notifications db.
Proof.
  intros Hid Hp Ha. unfold finish, like.
  rewrite bind_run, Hid. simpl. rewrite bind_run. simpl.
  rewrite bind_run, Hp. simpl. rewrite Ha.
  destruct (negb _); simpl; [|done].
  rewrite !bind_run.
  destruct (updateOne _ _ _) as [ps|]; simpl; [|done].
  rewrite !bind_run. simpl. by rewrite createNotification_self.
Qed.

Lemma add_comment_own_post ext u id text now pid p db :
  ObjectId_new ext id = Some pid →
  findOne (by_id pid) (Posts db) = Some p →
  Post.author (data p) = _id u →
  Notifications (finish (add_comment ext u id text now) db).1 = Notifications db.
Proof.
  intros Hid Hp Ha. unfold finish, add_comment.
  rewrite bind_run, Hid. simpl. rewrite bind_run. simpl.
  rewrite bind_run. simpl. rewrite bind_run, Hp. simpl.
  by rewrite bind_run, Ha, createNotification_self.
Qed.

(** C8. [createNotification] stores nothing when sender and receiver are the
    same identity, and otherwise appends exactly one notification, unread.
    Hence, starting from stored notifications whose sender differs from their
    receiver (the empty collection, say), every notification stored after any
    sequence of requests to either server has a sender other than its
    receiver; an author who likes or comments on their own post leaves the
    notifications as they were. *)
Theorem notifications_never_to_self ext :
  (∀ type s postId now db,
     createNotification ext type s s postId now db = (db, inl ()))
  ∧ (∀ type s r postId now db,
       s ≠ r →
       createNotification ext type s r postId now db
       = (MkDb (Users db) (Posts db) (Comments db)
            (Notifications db
               ++ [Doc (oid_gen ext (fresh db))
                     (Notification.Make type s r postId false now)])
            (S (fresh db)),
          inl ()))
  ∧ (∀ reqs db,
       Forall distinct_parties (Notifications db) →
       Forall distinct_parties
         (Notifications (foldl (λ db req, serve ext req db) db reqs)))
  ∧ (∀ u id text now pid p db,
       ObjectId_new ext id = Some pid →
       findOne (by_id pid) (Posts db) = Some p →
       Post.author (data p) = _id u →
       Notifications (finish (like ext u id now) db).1 = Notifications db
       ∧ Notifications (finish (add_comment ext u id text now) db).1
         = Notifications db).
Proof.
  split; [|split; [|split]].
  - apply createNotification_self.
  - apply createNotification_other.
  - intros reqs db HN.
    assert (store_inv (λ _, True) distinct_parties db) as HI.
    { split; [by apply Forall_forall | done]. }
    clear HN. revert db HI. induction reqs as [|req reqs IH]; intros db HI.
    + apply HI.
    + simpl. apply IH. by apply serve_distinct_parties.
  - intros u id text now pid p db Hid Hp Ha. split.
    + by eapply like_own_post.
    + by eapply add_comment_own_post.
Qed.

Lemma notifications_never_to_self_witness :
  createNotification Demo.ext "follow" (OID Demo.id1) (OID Demo.id2) None 20 Demo.db0
  = (MkDb (Users Demo.db0) (Posts Demo.db0) (Comments Demo.db0)
       [Doc (OID "000000000000000000000004")
          (Notification.Make "follow" (OID Demo.id1) (OID Demo.id2) None false 20)]
       4, inl ())
  ∧ Forall distinct_parties
      (Notifications
         (foldl (λ db req, serve Demo.ext req db) Demo.db0
            [inl (Request (Demo.bearer_of Demo.id2) 21 (PutLike Demo.id3));
             inl (Request (Demo.bearer_of Demo.id1) 22 (PutLike Demo.id3))]))
  ∧ Notifications (finish (like Demo.ext Demo.alice Demo.id3 23) Demo.db0).1 = []
  ∧ Notifications
      (finish (add_comment Demo.ext Demo.alice Demo.id3 (VStr "me") 24) Demo.db0).1
    = [].
Proof.
  destruct (notifications_never_to_self Demo.ext) as (_ & H2 & H3 & H4).
  split; [|split; [|split]].
  - rewrite (H2 "follow" (OID Demo.id1) (OID Demo.id2) None 20 Demo.db0) by done.
    by vm_compute.
  - apply H3. constructor.
  - apply (H4 Demo.alice Demo.id3 (VStr "me") 23 (OID Demo.id3) Demo.hello Demo.db0);
      reflexivity.
  - apply (H4 Demo.alice Demo.id3 (VStr "me") 24 (OID Demo.id3) Demo.hello Demo.db0);
      reflexivity.
Defined.

(** ** Deleting a post *)

Lemma findOne_by_id_None {A} o (c : list (doc A)) :
  o ∉ _id <$> c → findOne (by_id o) c = None.
Proof.
  induction c as [|x c IH]; simpl; [done|].
  rewrite not_elem_of_cons. intros [Hx Hc]. unfold by_id at 1.
  rewrite bool_decide_eq_false_2 by done. auto.
Qed.

Lemma deleteOne_removes {A} o (c : list (doc A)) :
  NoDup (_id <$> c) → findOne (by_id o) (deleteOne (by_id o) c) = None.
Proof.
  induction c as [|x c IH]; simpl; [done|].
  rewrite NoDup_cons. intros [Hx Hc].
  destruct (by_id o x) eqn:Hq.
  - apply bool_decide_eq_true in Hq as <-. by apply findOne_by_id_None.
  - simpl. rewrite Hq. auto.
Qed.

Lemma deleteMany_Forall {A} q (c : list (doc A)) :
  Forall (λ d, q d = false) (deleteMany q c).
Proof.
  unfold deleteMany. induction c as [|x c IH]; simpl; [constructor|].
  destruct (q x) eqn:Hq; simpl; [done|]. by constructor.
Qed.

Lemma mongoose_auth_passes ext {R} (req : request R) token userId db :
  bearer (authorization req) = Some token →
  jwt_verify ext token = Some userId →
  Mongoose.auth ext req db = (db, inl userId).
Proof. intros Hb Hv. unfold Mongoose.auth. by rewrite Hb, Hv. Qed.

(** C7. Deleting a post is open to its author on [DELETE /api/posts/:id]
    (Mongoose server) and to an administrator on
    [DELETE /api/admin/posts/:id] (native-driver server).  On either route an
    actor who is not the one it admits gets 403 and nothing changes; an
    admitted actor gets 200, the post is deleted (no post has its identifier
    afterwards) and so is every comment that refers to it. *)
Theorem delete_post_authorised_and_cascades ext :
  (∀ (req : request Mongoose.route) id token userId pid post db,
     target req = Mongoose.DeletePost id →
     bearer (authorization req) = Some token →
     jwt_verify ext token = Some userId →
     ObjectId_new ext id = Some pid →
     findOne (by_id pid) (Mongoose.Posts db) = Some post →
     if String.eqb (toString (Mongoose.Post.author (data post))) userId
     then
       ∃ posts comments,
         Mongoose.handle ext req db
         = (Mongoose.MkDb (Mongoose.Users db) posts comments (Mongoose.fresh db),
            Sent 200 (Mongoose.BText "Post deleted"))
         ∧ posts = deleteOne (by_id pid) (Mongoose.Posts db)
         ∧ (NoDup (_id <$> Mongoose.Posts db) → findOne (by_id pid) posts = None)
         ∧ comments
           = List.filter (λ c, negb (bool_decide (Mongoose.Comment.post (data c) = pid)))
               (Mongoose.Comments db)
         ∧ Forall (λ c, Mongoose.Comment.post (data c) ≠ pid) comments
     else
       Mongoose.handle ext req db = (db, Sent 403 (Mongoose.BText "Not allowed")))
  ∧ (∀ (req : request route) id token uid_hex uid u db,
       target req = DeleteAdminPost id →
       bearer (authorization req) = Some token →
       jwt_verify ext token = Some uid_hex →
       ObjectId_new ext uid_hex = Some uid →
       findOne (by_id uid) (Users db) = Some u →
       truthy (field u "banned") = false →
       if has_role "admin" u
       then
         ∀ pid, ObjectId_new ext id = Some pid →
         ∃ posts comments,
           handle ext req db
           = (MkDb (Users db) posts comments (Notifications db) (fresh db),
              Sent 200 (BText "Post removed"))
           ∧ posts = deleteOne (by_id pid) (Posts db)
           ∧ (NoDup (_id <$> Posts db) → findOne (by_id pid) posts = None)
           ∧ comments
             = List.filter (λ c, negb (bool_decide (Comment.postId (data c) = pid)))
                 (Comments db)
           ∧ Forall (λ c, Comment.postId (data c) ≠ pid) comments
       else
         handle ext req db = (db, Sent 403 (BText "Admin only"))).
Proof.
  split.
  - intros req id token userId pid post db Ht Hb Hv Hid Hp.
    pose proof (mongoose_auth_passes ext req _ _ db Hb Hv) as Ha.
    pose proof (findOne_by_id_id _ _ _ Hp) as Hpid.
    unfold Mongoose.handle, finish, Mongoose.app. rewrite Ht.
    rewrite (bind_value _ _ _ _ _ Ha). unfold Mongoose.delete_post, Mongoose.cast.
    rewrite bind_run, Hid. simpl. rewrite bind_run. simpl.
    rewrite bind_run, Hp. simpl.
    destruct (String.eqb _ userId) eqn:Hauthor; simpl; [|done].
    rewrite Hpid. eexists _, _. split; [reflexivity|].
    split; [done|]. split; [apply deleteOne_removes|]. split; [done|].
    eapply Forall_impl; [apply deleteMany_Forall|]. simpl.
    intros c Hc. by apply bool_decide_eq_false in Hc.
  - intros req id token uid_hex uid u db Ht Hb Hv Hn Hf Hban.
    pose proof (auth_passes ext req _ _ _ _ _ Hb Hv Hn Hf Hban) as Ha.
    unfold handle, finish, app. rewrite Ht. rewrite (bind_value _ _ _ _ _ Ha).
    unfold adminOnly.
    destruct (has_role "admin" u); simpl; [|done].
    intros pid Hid. unfold admin_delete_post.
    rewrite bind_run. simpl. rewrite bind_run, Hid. simpl.
    eexists _, _. split; [reflexivity|].
    split; [done|]. split; [apply deleteOne_removes|]. split; [done|].
    eapply Forall_impl; [apply deleteMany_Forall|]. simpl.
    intros c Hc. by apply bool_decide_eq_false in Hc.
Qed.

Lemma delete_post_authorised_and_cascades_witness :
  Mongoose.handle Demo.ext
    (Request (Demo.bearer_of Demo.id1) 30 (Mongoose.DeletePost Demo.id3)) Demo.mdb
  = (Mongoose.MkDb [] [] [] 4, Sent 200 (Mongoose.BText "Post deleted"))
  ∧ Mongoose.handle Demo.ext
      (Request (Demo.bearer_of Demo.id2) 30 (Mongoose.DeletePost Demo.id3)) Demo.mdb
    = (Demo.mdb, Sent 403 (Mongoose.BText "Not allowed"))
  ∧ handle Demo.ext (Request (Demo.bearer_of Demo.id1) 30 (DeleteAdminPost Demo.id3))
      Demo.db1
    = (MkDb (Users Demo.db1) [] [] (Notifications Demo.db1) (fresh Demo.db1),
       Sent 200 (BText "Post removed"))
  ∧ handle Demo.ext (Request (Demo.bearer_of Demo.id2) 30 (DeleteAdminPost Demo.id3))
      Demo.db1
    = (Demo.db1, Sent 403 (BText "Admin only")).
Proof.
  destruct (delete_post_authorised_and_cascades Demo.ext) as [Hauthor Hadmin].
  split; [|split; [|split]].
  - destruct (Hauthor
        (Request (Demo.bearer_of Demo.id1) 30 (Mongoose.DeletePost Demo.id3))
        Demo.id3 ("jwt:" +:+ Demo.id1) Demo.id1 (OID Demo.id3)
        (Doc (OID Demo.id3) (Mongoose.Post.Make (Some "hello") None (OID Demo.id1) [] 12 12))
        Demo.mdb eq_refl eq_refl eq_refl eq_refl eq_refl)
      as (posts & comments & Hrun & -> & _ & -> & _).
    exact Hrun.
  - exact (Hauthor
        (Request (Demo.bearer_of Demo.id2) 30 (Mongoose.DeletePost Demo.id3))
        Demo.id3 ("jwt:" +:+ Demo.id2) Demo.id2 (OID Demo.id3)
        (Doc (OID Demo.id3) (Mongoose.Post.Make (Some "hello") None (OID Demo.id1) [] 12 12))
        Demo.mdb eq_refl eq_refl eq_refl eq_refl eq_refl).
  - destruct (Hadmin
        (Request (Demo.bearer_of Demo.id1) 30 (DeleteAdminPost Demo.id3))
        Demo.id3 ("jwt:" +:+ Demo.id1) Demo.id1 (OID Demo.id1) Demo.admin_alice
        Demo.db1 eq_refl eq_refl eq_refl eq_refl eq_refl eq_refl
        (OID Demo.id3) eq_refl)
      as (posts & comments & Hrun & -> & _ & -> & _).
    exact Hrun.
  - exact (Hadmin
        (Request (Demo.bearer_of Demo.id2) 30 (DeleteAdminPost Demo.id3))
        Demo.id3 ("jwt:" +:+ Demo.id2) Demo.id2 (OID Demo.id2) Demo.bob
        Demo.db1 eq_refl eq_refl eq_refl eq_refl eq_refl eq_refl).
Defined.

(** ** Liking a post *)

Lemma existsb_same_id a (l : list ObjectId) :
  existsb (λ id, same_id id a) l = bool_decide (a ∈ l).
Proof.
  induction l as [|x l IH]; simpl; [done|]. rewrite IH.
  destruct (same_id x a) eqn:Hx.
  - apply same_id_true in Hx as ->. simpl.
    symmetry. apply bool_decide_eq_true. left.
  - apply same_id_false in Hx. simpl. apply bool_decide_ext.
    rewrite elem_of_cons. split; [auto|]. intros [?|?]; [congruence | done].
Qed.

Lemma like_first ext u id now pid p db :
  ObjectId_new ext id = Some pid →
  findOne (by_id pid) (Posts db) = Some p →
  _id u ∉ Post.likes (data p) →
  ∃ ps,
    updateOne (by_id pid) (addToSet_likes (_id u)) (Posts db) = Some ps
    ∧ findOne (by_id pid) ps
      = Some (Doc (_id p)
                (Post.Make (Post.content (data p)) (Post.image (data p))
                   (Post.author (data p)) (Post.likes (data p) ++ [_id u])
                   (Post.createdAt (data p))))
    ∧ finish (like ext u id now) db
      = ((createNotification ext "like" (_id u) (Post.author (data p)) (Some pid) now
            (MkDb (Users db) ps (Comments db) (Notifications db) (fresh db))).1,
         Sent 200 (BText "Liked")).
Proof.
  intros Hid Hp Hnew.
  destruct (updateOne_total (by_id pid) (addToSet_likes (_id u)) (Posts db))
    as [ps Hps]; [by eexists|].
  destruct (findOne_updateOne_same _ _ _ _ _ Hp Hps) as (a & Ha & Hps').
  exists ps. split; [done|]. split.
  - rewrite Hps'. unfold addToSet_likes in Ha.
    rewrite bool_decide_eq_false_2 in Ha by done. by injection Ha as <-.
  - unfold finish, like. rewrite bind_run, Hid. simpl. rewrite bind_run. simpl.
    rewrite bind_run, Hp. simpl. rewrite existsb_same_id.
    rewrite bool_decide_eq_false_2 by done. simpl.
    rewrite !bind_run, Hps. simpl. rewrite !bind_run. simpl.
    unfold createNotification. by destruct (same_id _ _).
Qed.

Lemma like_again ext u id now pid p db :
  ObjectId_new ext id = Some pid →
  findOne (by_id pid) (Posts db) = Some p →
  _id u ∈ Post.likes (data p) →
  finish (like ext u id now) db = (db, Sent 200 (BText "Liked")).
Proof.
  intros Hid Hp Hin. unfold finish, like.
  rewrite bind_run, Hid. simpl. rewrite bind_run. simpl.
  rewrite bind_run, Hp. simpl. rewrite existsb_same_id.
  by rewrite bool_decide_eq_true_2.
Qed.

(** C6 (as the code has it). An actor likes, twice, an existing post they
    had not liked: both requests answer 200, the second changes nothing, the
    post's likes are the former ones followed by the actor, who occurs in
    them exactly once; and exactly one like notification, to the post's
    author and unread, has been stored if the actor is not the author, none
    if the actor is the author. *)
Theorem like_twice_likes_once ext u id now now' pid p db :
  ObjectId_new ext id = Some pid →
  findOne (by_id pid) (Posts db) = Some p →
  _id u ∉ Post.likes (data p) →
  let first := finish (like ext u id now) db in
  let second := finish (like ext u id now') first.1 in
  first.2 = Sent 200 (BText "Liked")
  ∧ second = (first.1, Sent 200 (BText "Liked"))
  ∧ (∃ p',
       findOne (by_id pid) (Posts second.1) = Some p'
       ∧ Post.likes (data p') = Post.likes (data p) ++ [_id u]
       ∧ length (List.filter (λ o, bool_decide (o = _id u)) (Post.likes (data p')))
         = 1%nat)
  ∧ Notifications second.1
    = Notifications db
      ++ (if bool_decide (_id u = Post.author (data p)) then []
          else [Doc (oid_gen ext (fresh db))
                  (Notification.Make "like" (_id u) (Post.author (data p))
                     (Some pid) false now)]).
Proof.
  intros Hid Hp Hnew first second.
  destruct (like_first ext u id now pid p db Hid Hp Hnew) as (ps & Hps & Hp' & Hrun).
  assert (Posts first.1 = ps ∧
          Notifications first.1
          = Notifications db
            ++ (if bool_decide (_id u = Post.author (data p)) then []
                else [Doc (oid_gen ext (fresh db))
                        (Notification.Make "like" (_id u) (Post.author (data p))
                           (Some pid) false now)])) as [HP HN].
  { subst first. rewrite Hrun. simpl. case_bool_decide as Hau.
    - rewrite <- Hau, createNotification_self. simpl. by rewrite app_nil_r.
    - by rewrite createNotification_other. }
  assert (second = (first.1, Sent 200 (BText "Liked"))) as Hsecond.
  { subst second. eapply like_again; [done| |].
    - by rewrite HP.
    - simpl. set_solver. }
  split; [by subst first; rewrite Hrun|]. split; [done|].
  rewrite Hsecond. simpl. split; [|done].
  eexists. rewrite HP. split; [done|]. simpl. split; [done|].
  rewrite List.filter_app. simpl. rewrite bool_decide_eq_true_2 by done.
  rewrite length_app. simpl.
  assert (List.filter (λ o, bool_decide (o = _id u)) (Post.likes (data p)) = [])
    as ->; [|done].
  clear -Hnew. induction (Post.likes (data p)) as [|x l IH]; simpl; [done|].
  apply not_elem_of_cons in Hnew as [Hx Hl].
  rewrite bool_decide_eq_false_2 by done. auto.
Qed.

Lemma like_twice_likes_once_witness :
  let first := finish (like Demo.ext Demo.bob Demo.id3 20) Demo.db0 in
  let second := finish (like Demo.ext Demo.bob Demo.id3 21) first.1 in
  second = (first.1, Sent 200 (BText "Liked"))
  ∧ Notifications second.1
    = [Doc (OID "000000000000000000000004")
         (Notification.Make "like" (OID Demo.id2) (OID Demo.id1)
            (Some (OID Demo.id3)) false 20)].
Proof.
  intros first second.
  destruct (like_twice_likes_once Demo.ext Demo.bob Demo.id3 20 21 (OID Demo.id3)
              Demo.hello Demo.db0)
    as (_ & H2 & _ & H4);
    [reflexivity | reflexivity | apply (bool_decide_unpack _); by vm_compute |].
  split; [exact H2 | exact H4].
Defined.

(** C6 fails when the actor is the post's author: Alice likes her own post
    twice, her like is recorded once and no notification is stored. *)
Lemma author_liking_own_post_is_not_notified :
  let like_it now := Request (Demo.bearer_of Demo.id1) now (PutLike Demo.id3) in
  let db2 := run Demo.ext [like_it 20; like_it 21] Demo.db0 in
  (handle Demo.ext (like_it 20) Demo.db0).2 = Sent 200 (BText "Liked")
  ∧ Post.likes ∘ data <$> Posts db2 = [[OID Demo.id1]]
  ∧ length (Notifications db2) = 0%nat.
Proof. repeat split; by vm_compute. Qed.

(** ** Following twice *)

Lemma existsb_is_oid_count o (l : list value) :
  existsb (is_oid o) l = negb (Nat.eqb (length (List.filter (is_oid o) l)) 0).
Proof.
  induction l as [|x l IH]; simpl; [done|].
  destruct (is_oid o x); simpl; [done | exact IH].
Qed.

Lemma is_oid_refl o : is_oid o (VOid o) = true.
Proof. simpl. by apply bool_decide_eq_true. Qed.

Lemma addToSet_idem k o (d d' : gmap string value) :
  op_addToSet k o d = Some d' → op_addToSet k o d' = Some d'.
Proof.
  unfold op_addToSet.
  destruct (d !! k) as [[| | | | | |l|]|] eqn:Hk; intros [= <-].
  - rewrite lookup_insert_eq.
    assert (existsb (is_oid o) (if existsb (is_oid o) l then l else l ++ [VOid o])
            = true) as ->.
    { destruct (existsb (is_oid o) l) eqn:Hl; [done|].
      rewrite existsb_app. cbn [existsb]. by rewrite is_oid_refl, orb_true_r. }
    by rewrite insert_insert_eq.
  - rewrite lookup_insert_eq. cbn [existsb]. rewrite is_oid_refl. simpl.
    by rewrite insert_insert_eq.
Qed.

Lemma addToSet_occurrences k o i (d d' : gmap string value) :
  op_addToSet k o d = Some d' →
  (occurrences k (Doc i d) o ≤ 1)%nat →
  occurrences k (Doc i d') o = 1%nat.
Proof.
  unfold op_addToSet, occurrences, field. simpl.
  destruct (d !! k) as [[| | | | | |l|]|] eqn:Hk; intros [= <-];
    rewrite lookup_insert_eq.
  - rewrite existsb_is_oid_count. intros Hle.
    destruct (length (List.filter (is_oid o) l)) as [|[|n]] eqn:Hn; simpl.
    + rewrite List.filter_app, length_app, Hn. cbn [List.filter].
      by rewrite is_oid_refl.
    + done.
    + lia.
  - intros _. cbn [List.filter]. by rewrite is_oid_refl.
Qed.

Lemma updateOne_fix {A} q op (c : list (doc A)) :
  (∀ d, findOne q c = Some d → op (data d) = Some (data d)) →
  updateOne q op c = Some c.
Proof.
  induction c as [|x c IH]; simpl; [done|]. intros Hfix.
  destruct (q x).
  - rewrite (Hfix x eq_refl). simpl. by destruct x.
  - by rewrite IH.
Qed.

Lemma follow_inv ext u id now b db db1 :
  ObjectId_new ext id = Some b →
  _id u ≠ b →
  finish (follow ext u id now) db = (db1, Sent 200 (BText "Followed")) →
  ∃ us1 us2,
    updateOne (by_id (_id u)) (op_addToSet "following" b) (Users db) = Some us1
    ∧ updateOne (by_id b) (op_addToSet "followers" (_id u)) us1 = Some us2
    ∧ db1 = MkDb us2 (Posts db) (Comments db)
              (Notifications db
                 ++ [Doc (oid_gen ext (fresh db))
                       (Notification.Make "follow" (_id u) b None false now)])
              (S (fresh db)).
Proof.
  intros Hid Hne. unfold finish, follow. rewrite bind_run, Hid. simpl.
  assert (same_id b (_id u) = false) as -> by by apply same_id_false.
  rewrite bind_run. unfold updateUser at 1.
  destruct (updateOne _ _ (Users db)) as [us1|] eqn:H1; simpl; [|done].
  rewrite bind_run. unfold updateUser. simpl.
  destruct (updateOne _ _ us1) as [us2|] eqn:H2; simpl; [|done].
  rewrite bind_run, createNotification_other by done. simpl.
  intros [= <-]. by exists us1, us2.
Qed.

Lemma follow_run ext u id now b db us1 us2 :
  ObjectId_new ext id = Some b →
  _id u ≠ b →
  updateOne (by_id (_id u)) (op_addToSet "following" b) (Users db) = Some us1 →
  updateOne (by_id b) (op_addToSet "followers" (_id u)) us1 = Some us2 →
  finish (follow ext u id now) db
  = (MkDb us2 (Posts db) (Comments db)
       (Notifications db
          ++ [Doc (oid_gen ext (fresh db))
                (Notification.Make "follow" (_id u) b None false now)])
       (S (fresh db)),
     Sent 200 (BText "Followed")).
Proof.
  intros Hid Hne H1 H2. unfold finish, follow. rewrite bind_run, Hid. simpl.
  assert (same_id b (_id u) = false) as -> by by apply same_id_false.
  rewrite bind_run. unfold updateUser at 1. rewrite H1. simpl.
  rewrite bind_run. unfold updateUser. simpl. rewrite H2. simpl.
  by rewrite bind_run, createNotification_other.
Qed.

(** C5 (as the code has it). After a successful [follow(A, B)] with A ≠ B, a
    second [follow(A, B)] succeeds again and leaves the identity records, the
    posts and the comments as they were, so B is still listed once in
    A.following and A once in B.followers (given they were listed at most
    once before the first call); its only effect is one more unread follow
    notification from A to B. *)
Theorem second_follow_only_notifies ext u u' id now now' b db db1 :
  ObjectId_new ext id = Some b →
  _id u ≠ b →
  _id u' = _id u →
  finish (follow ext u id now) db = (db1, Sent 200 (BText "Followed")) →
  finish (follow ext u' id now') db1
  = (MkDb (Users db1) (Posts db1) (Comments db1)
       (Notifications db1
          ++ [Doc (oid_gen ext (fresh db1))
                (Notification.Make "follow" (_id u) b None false now')])
       (S (fresh db1)),
     Sent 200 (BText "Followed"))
  ∧ (∀ ua, findOne (by_id (_id u)) (Users db) = Some ua →
       (occurrences "following" ua b ≤ 1)%nat →
       ∃ ua', findOne (by_id (_id u)) (Users db1) = Some ua'
              ∧ occurrences "following" ua' b = 1%nat)
  ∧ (∀ ub, findOne (by_id b) (Users db) = Some ub →
       (occurrences "followers" ub (_id u) ≤ 1)%nat →
       ∃ ub', findOne (by_id b) (Users db1) = Some ub'
              ∧ occurrences "followers" ub' (_id u) = 1%nat).
Proof.
  intros Hid Hne Hu' Hfirst.
  destruct (follow_inv _ _ _ _ _ _ _ Hid Hne Hfirst) as (us1 & us2 & H1 & H2 & Hdb1).
  assert (Users db1 = us2) as HU by by rewrite Hdb1.
  clear Hdb1 Hfirst. rewrite HU. split; [|split].
  - rewrite <- HU, <- Hu'.
    apply (follow_run ext u' id now' b db1 (Users db1) (Users db1));
      rewrite ?Hu', ?HU; try done.
    + apply updateOne_fix. intros d Hd.
      rewrite (findOne_updateOne_other _ _ _ _ _ Hne H2) in Hd.
      destruct (findOne (by_id (_id u)) (Users db)) as [ua|] eqn:Hua.
      * destruct (findOne_updateOne_same _ _ _ _ _ Hua H1) as (a & Ha & Hd').
        rewrite Hd' in Hd. injection Hd as <-. simpl. by eapply addToSet_idem.
      * assert (us1 = Users db) as ->.
        { rewrite updateOne_fix in H1; [by injection H1|].
          intros d0 Hd0. congruence. }
        congruence.
    + apply updateOne_fix. intros d Hd.
      destruct (findOne (by_id b) us1) as [ub|] eqn:Hub.
      * destruct (findOne_updateOne_same _ _ _ _ _ Hub H2) as (a & Ha & Hd').
        rewrite Hd' in Hd. injection Hd as <-. simpl. by eapply addToSet_idem.
      * assert (us2 = us1) as ->.
        { rewrite updateOne_fix in H2; [by injection H2|].
          intros d0 Hd0. congruence. }
        congruence.
  - intros ua Hua Hle.
    destruct (findOne_updateOne_same _ _ _ _ _ Hua H1) as (a & Ha & Hd').
    eexists. split.
    + by rewrite (findOne_updateOne_other _ _ _ _ _ Hne H2).
    + destruct ua as [i d]. by eapply addToSet_occurrences.
  - intros ub Hub Hle.
    assert (findOne (by_id b) us1 = Some ub) as Hub1.
    { rewrite (findOne_updateOne_other b (_id u) _ _ _ (not_eq_sym Hne) H1). done. }
    destruct (findOne_updateOne_same _ _ _ _ _ Hub1 H2) as (a & Ha & Hd').
    eexists. split; [done|].
    destruct ub as [i d]. by eapply addToSet_occurrences.
Qed.

Lemma second_follow_only_notifies_witness :
  let first := finish (follow Demo.ext Demo.alice Demo.id2 20) Demo.db0 in
  finish (follow Demo.ext Demo.alice Demo.id2 21) first.1
  = (MkDb (Users first.1) (Posts first.1) (Comments first.1)
       (Notifications first.1
          ++ [Doc (oid_gen Demo.ext (fresh first.1))
                (Notification.Make "follow" (_id Demo.alice) (OID Demo.id2)
                   None false 21)])
       (S (fresh first.1)),
     Sent 200 (BText "Followed"))
  ∧ ∃ ua', findOne (by_id (_id Demo.alice)) (Users first.1) = Some ua'
           ∧ occurrences "following" ua' (OID Demo.id2) = 1%nat.
Proof.
  intros first.
  destruct (second_follow_only_notifies Demo.ext Demo.alice Demo.alice Demo.id2
              20 21 (OID Demo.id2) Demo.db0 first.1)
    as (H1 & H2 & _);
    [ reflexivity | apply (bool_decide_unpack _); by vm_compute | reflexivity
    | by vm_compute |].
  split; [exact H1|].
  apply (H2 Demo.alice); [reflexivity | vm_compute; lia].
Defined.

(** C5 fails on "no other state change": Alice follows Bob twice; the
    identity records are the same after the second request as after the
    first, but a second follow notification has been stored. *)
Lemma second_follow_notifies_again :
  let follow_bob now := Request (Demo.bearer_of Demo.id1) now (PostFollow Demo.id2) in
  let once := run Demo.ext [follow_bob 20] Demo.db0 in
  let twice := run Demo.ext [follow_bob 20; follow_bob 21] Demo.db0 in
  (handle Demo.ext (follow_bob 21) once).2 = Sent 200 (BText "Followed")
  ∧ Users twice = Users once
  ∧ length (Notifications once) = 1%nat
  ∧ Notification.type ∘ data <$> Notifications twice = ["follow"; "follow"]
  ∧ Notification.sender ∘ data <$> Notifications twice = [OID Demo.id1; OID Demo.id1]
  ∧ Notification.receiver ∘ data <$> Notifications twice = [OID Demo.id2; OID Demo.id2].
Proof. repeat split; by vm_compute. Qed.

(** * Further properties of the handlers *)

(** ** Reading the bearer token *)

Lemma split_spaceless s : spaceless s = true → split " " s = [s].
Proof.
  induction s as [|c s IH]; simpl; [done|].
  intros [Hc Hs]%andb_true_iff. apply negb_true_iff in Hc. by rewrite Hc, IH.
Qed.

Lemma split_word w r :
  spaceless w = true → split " " (w +:+ " " +:+ r) = w :: split " " r.
Proof.
  change (" " +:+ r) with (String " " r).
  induction w as [|c w IH]; simpl; [done|].
  intros [Hc Hw]%andb_true_iff. apply negb_true_iff in Hc. by rewrite Hc, IH.
Qed.

(** A route behind the gate ends as the gate ends when the gate refuses. *)
Lemma gated_stops ext (req : request route) db db' o :
  gated (target req) = true →
  auth ext req db = (db', inr o) →
  handle ext req db = (db', o).
Proof.
  intros Hg Ha. unfold handle. apply finish_done. unfold app.
  destruct (target req); try discriminate Hg; by apply bind_done.
Qed.

(** The gate takes the second space-separated word of the header as the
    token, whatever the first word (the scheme is not compared with
    "Bearer") and whatever follows; a header of one word, or whose second word
    is empty, carries no token, and then every gated route answers 401
    "No token" and leaves the database alone. *)
Theorem gate_reads_second_word ext :
  (∀ w t, spaceless w = true → spaceless t = true → t ≠ "" →
     bearer (Some (w +:+ " " +:+ t)) = Some t)
  ∧ (∀ w t rest, spaceless w = true → spaceless t = true → t ≠ "" →
       bearer (Some (w +:+ " " +:+ t +:+ " " +:+ rest)) = Some t)
  ∧ (∀ h, spaceless h = true → bearer (Some h) = None)
  ∧ (∀ w rest, spaceless w = true → bearer (Some (w +:+ "  " +:+ rest)) = None)
  ∧ (∀ (req : request route) db,
       bearer (authorization req) = None →
       gated (target req) = true →
       handle ext req db = (db, Sent 401 (BText "No token"))).
Proof.
  split; [|split; [|split; [|split]]].
  - intros w t Hw Ht Hne. unfold bearer. simpl.
    rewrite (split_word w t Hw), (split_spaceless t Ht). simpl.
    destruct (String.eqb_spec t ""); done.
  - intros w t rest Hw Ht Hne. unfold bearer. simpl.
    rewrite (split_word w _ Hw), (split_word t rest Ht). simpl.
    destruct (String.eqb_spec t ""); done.
  - intros h Hh. unfold bearer. simpl. by rewrite (split_spaceless h Hh).
  - intros w rest Hw. unfold bearer. simpl.
    change ("  " +:+ rest) with (" " +:+ " " +:+ rest).
    by rewrite (split_word w _ Hw).
  - intros req db Hb Hg. apply gated_stops; [done|].
    unfold auth. by rewrite Hb.
Qed.

Lemma gate_reads_second_word_witness :
  bearer (Some "Basic abc") = Some "abc"
  ∧ bearer (Some "Bearer abc def") = Some "abc"
  ∧ bearer (Some "Bearer") = None
  ∧ bearer (Some "Bearer  abc") = None
  ∧ handle Demo.ext (Request (Some "token-without-scheme") 0 GetMe) Demo.db0
    = (Demo.db0, Sent 401 (BText "No token")).
Proof.
  destruct (gate_reads_second_word Demo.ext) as (H1 & H2 & H3 & H4 & H5).
  split; [|split; [|split; [|split]]].
  - by apply (H1 "Basic" "abc").
  - by apply (H2 "Bearer" "abc" "def").
  - by apply (H3 "Bearer").
  - by apply (H4 "Bearer" "abc").
  - by apply H5.
Defined.

(** ** What the gate lets through *)

(** The gate never writes.  Whoever it admits is the stored record that the
    token names, and that record is not banned; a token that verifies for an
    identifier without a record is refused with 403, an unreadable one with
    401. *)
Theorem gate_admits_only_stored_identities ext {R} (req : request R) db :
  (∀ db' u,
     auth ext req db = (db', inl u) →
     db' = db
     ∧ ∃ token id,
         bearer (authorization req) = Some token
         ∧ jwt_verify ext token = Some id
         ∧ ObjectId_new ext id = Some (_id u)
         ∧ findOne (by_id (_id u)) (Users db) = Some u
         ∧ truthy (field u "banned") = false)
  ∧ (∀ db' o,
       auth ext req db = (db', inr o) →
       db' = db
       ∧ (o = Sent 401 (BText "No token") ∨ o = Sent 401 (BText "Invalid token")
          ∨ o = Sent 403 (BText "Access denied")))
  ∧ (∀ token id uid,
       bearer (authorization req) = Some token →
       jwt_verify ext token = Some id →
       ObjectId_new ext id = Some uid →
       findOne (by_id uid) (Users db) = None →
       auth ext req db = (db, inr (Sent 403 (BText "Access denied"))))
  ∧ (∀ token,
       bearer (authorization req) = Some token →
       jwt_verify ext token ≫= ObjectId_new ext = None →
       auth ext req db = (db, inr (Sent 401 (BText "Invalid token")))).
Proof.
  split; [|split; [|split]].
  - intros db' u. unfold auth.
    destruct (bearer _) as [token|]; [|done].
    destruct (jwt_verify ext token) as [id|] eqn:Hv; [|done]. simpl.
    destruct (ObjectId_new ext id) as [uid|] eqn:Hn; [|done].
    rewrite bind_run. unfold get. simpl.
    destruct (findOne _ _) as [u0|] eqn:Hf; [|done].
    destruct (truthy _) eqn:Ht; [done|]. intros [= <- <-].
    split; [done|]. exists token, id.
    rewrite (findOne_by_id_id _ _ _ Hf). by repeat split.
  - intros db' o Ha. by apply auth_inv in Ha.
  - intros token id uid Hb Hv Hn Hf. unfold auth. rewrite Hb, Hv. simpl.
    rewrite Hn, bind_run. unfold get. simpl. by rewrite Hf.
  - intros token Hb Hv. unfold auth. by rewrite Hb, Hv.
Qed.

Lemma gate_admits_only_stored_identities_witness :
  auth Demo.ext (Request (Demo.bearer_of Demo.id3) 0 GetMe) Demo.db0
  = (Demo.db0, inr (Sent 403 (BText "Access denied")))
  ∧ auth Demo.ext (Request (Some "Bearer forged") 0 GetMe) Demo.db0
    = (Demo.db0, inr (Sent 401 (BText "Invalid token")))
  ∧ ∃ token id,
      bearer (Demo.bearer_of Demo.id1) = Some token
      ∧ jwt_verify Demo.ext token = Some id
      ∧ ObjectId_new Demo.ext id = Some (_id Demo.alice)
      ∧ findOne (by_id (_id Demo.alice)) (Users Demo.db0) = Some Demo.alice
      ∧ truthy (field Demo.alice "banned") = false.
Proof.
  destruct (gate_admits_only_stored_identities Demo.ext
              (Request (Demo.bearer_of Demo.id3) 0 GetMe) Demo.db0)
    as (_ & _ & H3 & _).
  destruct (gate_admits_only_stored_identities Demo.ext
              (Request (Some "Bearer forged") 0 GetMe) Demo.db0)
    as (_ & _ & _ & H4).
  destruct (gate_admits_only_stored_identities Demo.ext
              (Request (Demo.bearer_of Demo.id1) 0 GetMe) Demo.db0)
    as (H1 & _).
  split; [|split].
  - by apply (H3 ("jwt:" +:+ Demo.id3) Demo.id3 (OID Demo.id3)).
  - by apply (H4 "forged").
  - apply (H1 Demo.db0 Demo.alice). vm_compute. reflexivity.
Defined.

(** ** Banning *)

Lemma op_set_singleton k v (d : gmap string value) :
  op_set {[ k := v ]} d = Some (<[k := v]> d).
Proof. unfold op_set. by rewrite insert_union_singleton_l. Qed.



(** ** Unfollowing *)

Lemma filter_is_oid_removed o (l : list value) :
  List.filter (is_oid o) (List.filter (λ v, negb (is_oid o v)) l) = [].
Proof.
  induction l as [|x l IH]; simpl; [done|].
  destruct (is_oid o x) eqn:Hx; simpl; [done|]. by rewrite Hx.
Qed.

Lemma filter_negb_idem {A} (f : A → bool) (l : list A) :
  List.filter (λ v, negb (f v)) (List.filter (λ v, negb (f v)) l)
  = List.filter (λ v, negb (f v)) l.
Proof.
  induction l as [|x l IH]; simpl; [done|].
  destruct (f x) eqn:Hx; simpl; [done|]. by rewrite Hx, IH.
Qed.

Lemma pull_idem k o (d d' : gmap string value) :
  op_pull k o d = Some d' → op_pull k o d' = Some d'.
Proof.
  unfold op_pull.
  destruct (d !! k) as [[| | | | | |l|]|] eqn:Hk; intros [= <-].
  - by rewrite lookup_insert_eq, filter_negb_idem, insert_insert_eq.
  - by rewrite Hk.
Qed.

Lemma pull_occurrences k o i (d d' : gmap string value) :
  op_pull k o d = Some d' → occurrences k (Doc i d') o = 0%nat.
Proof.
  unfold op_pull, occurrences, field. simpl.
  destruct (d !! k) as [[| | | | | |l|]|] eqn:Hk; intros [= <-].
  - by rewrite lookup_insert_eq, filter_is_oid_removed.
  - by rewrite Hk.
Qed.

Lemma pull_other_key k k' o o' i (d d' : gmap string value) :
  k ≠ k' → op_pull k o d = Some d' →
  occurrences k' (Doc i d') o' = occurrences k' (Doc i d) o'.
Proof.
  intros Hk. unfold op_pull, occurrences, field. simpl.
  destruct (d !! k) as [[| | | | | |l|]|]; intros [= <-]; [|done].
  by rewrite lookup_insert_ne.
Qed.

Lemma pull_fixed_after_other k k' o o' (d x : gmap string value) :
  k ≠ k' → op_pull k' o' d = Some d → op_pull k o d = Some x →
  op_pull k' o' x = Some x.
Proof.
  intros Hk Hfix. unfold op_pull in *.
  destruct (d !! k) as [[| | | | | |l|]|] eqn:Hdk; intros Hx; simplify_eq; [|done].
  rewrite lookup_insert_ne by done.
  destruct (d !! k') as [[| | | | | |l'|]|] eqn:Hdk'; simplify_eq; [|done].
  f_equal. rewrite insert_insert_ne by done. by rewrite Hfix.
Qed.

Lemma unfollow_run ext u id b db :
  ObjectId_new ext id = Some b →
  finish (unfollow ext u id) db =
  match updateOne (by_id (_id u)) (op_pull "following" b) (Users db) with
  | None => (db, Thrown WriteError)
  | Some us1 =>
      match updateOne (by_id b) (op_pull "followers" (_id u)) us1 with
      | None =>
          (MkDb us1 (Posts db) (Comments db) (Notifications db) (fresh db),
           Thrown WriteError)
      | Some us2 =>
          (MkDb us2 (Posts db) (Comments db) (Notifications db) (fresh db),
           Sent 200 (BText "Unfollowed"))
      end
  end.
Proof.
  intros Hid. unfold finish, unfollow. rewrite bind_run, Hid. simpl.
  rewrite bind_run. unfold updateUser at 1.
  destruct (updateOne _ _ (Users db)) as [us1|]; simpl; [|done].
  rewrite bind_run. unfold updateUser. simpl.
  by destruct (updateOne _ _ us1).
Qed.

(** [POST /api/unfollow/:id].  The handler never answers 400 (unfollowing
    oneself is not refused) and never touches posts, comments or
    notifications.  When it answers, the target is listed neither in the
    caller's [following] nor the caller in the target's [followers], and
    unfollowing again answers 200 and changes nothing. *)
Theorem unfollow_removes_the_edge ext u u' id b db :
  ObjectId_new ext id = Some b →
  _id u' = _id u →
  let r := finish (unfollow ext u id) db in
  (r.2 = Sent 200 (BText "Unfollowed") ∨ r.2 = Thrown WriteError)
  ∧ Posts r.1 = Posts db ∧ Comments r.1 = Comments db
  ∧ Notifications r.1 = Notifications db
  ∧ (r.2 = Sent 200 (BText "Unfollowed") →
     (∀ ua, findOne (by_id (_id u)) (Users r.1) = Some ua →
        occurrences "following" ua b = 0%nat)
     ∧ (∀ ub, findOne (by_id b) (Users r.1) = Some ub →
          occurrences "followers" ub (_id u) = 0%nat)
     ∧ finish (unfollow ext u' id) r.1 = (r.1, Sent 200 (BText "Unfollowed"))).
Proof.
  intros Hid Hu' r. subst r. rewrite (unfollow_run ext u id b db Hid).
  destruct (updateOne _ _ (Users db)) as [us1|] eqn:H1; simpl;
    [|split; [by right | by repeat split]].
  destruct (updateOne _ _ us1) as [us2|] eqn:H2; simpl;
    [|split; [by right | by repeat split]].
  split; [by left|]. repeat (split; [done|]).
  intros _.
  assert (∀ ub, findOne (by_id b) us2 = Some ub →
            op_pull "followers" (_id u) (data ub) = Some (data ub)
            ∧ occurrences "followers" ub (_id u) = 0%nat) as Hb.
  { intros ub Hub. destruct (findOne (by_id b) us1) as [ub1|] eqn:Hub1.
    - destruct (findOne_updateOne_same _ _ _ _ _ Hub1 H2) as (x & Hx & Hub').
      rewrite Hub' in Hub. injection Hub as <-. simpl. split.
      + by eapply pull_idem.
      + by eapply pull_occurrences.
    - rewrite updateOne_fix in H2 by (intros; congruence).
      injection H2 as <-. congruence. }
  assert (∀ ua, findOne (by_id (_id u)) us2 = Some ua →
            op_pull "following" b (data ua) = Some (data ua)
            ∧ occurrences "following" ua b = 0%nat) as Ha.
  { intros ua Hua.
    assert (∃ ua1, findOne (by_id (_id u)) us1 = Some ua1
                   ∧ op_pull "following" b (data ua1) = Some (data ua1)
                   ∧ occurrences "following" ua1 b = 0%nat) as (ua1 & Hua1 & Hp1 & Ho1).
    { destruct (findOne (by_id (_id u)) (Users db)) as [ua0|] eqn:Hua0.
      - destruct (findOne_updateOne_same _ _ _ _ _ Hua0 H1) as (x & Hx & Hua').
        eexists. split; [done|]. simpl. split.
        + by eapply pull_idem.
        + by eapply pull_occurrences.
      - rewrite updateOne_fix in H1 by (intros; congruence).
        injection H1 as <-.
        destruct (decide (_id u = b)) as [Hab|Hab].
        + rewrite Hab in Hua0. rewrite updateOne_fix in H2 by (intros; congruence).
          injection H2 as <-. rewrite Hab in Hua. congruence.
        + rewrite (findOne_updateOne_other _ _ _ _ _ Hab H2) in Hua. congruence. }
    destruct (decide (_id u = b)) as [Hab|Hab].
    - rewrite Hab in Hua1.
      destruct (findOne_updateOne_same _ _ _ _ _ Hua1 H2) as (x & Hx & Hua').
      rewrite <- Hab in Hua'. rewrite Hua' in Hua. injection Hua as <-. simpl.
      assert (occurrences "following" (Doc (_id ua1) x) b = 0%nat) as Hocc.
      { rewrite (pull_other_key "followers" "following" _ _ _ _ _ ltac:(done) Hx).
        by destruct ua1. }
      split; [|done].
      by apply (pull_fixed_after_other "followers" "following" (_id u) b (data ua1)).
    - rewrite (findOne_updateOne_other _ _ _ _ _ Hab H2) in Hua.
      rewrite Hua1 in Hua. by injection Hua as <-. }
  split; [intros ua Hua; by apply Ha|]. split; [intros ub Hub; by apply Hb|].
  rewrite (unfollow_run ext u' id b _ Hid). simpl. rewrite Hu'.
  rewrite (updateOne_fix _ _ us2) by (intros d Hd; by apply Ha).
  by rewrite (updateOne_fix _ _ us2) by (intros d Hd; by apply Hb).
Qed.

Lemma unfollow_removes_the_edge_witness :
  let followed := (finish (follow Demo.ext Demo.alice Demo.id2 20) Demo.db0).1 in
  let r := finish (unfollow Demo.ext Demo.alice Demo.id2) followed in
  r.2 = Sent 200 (BText "Unfollowed")
  ∧ Notifications r.1 = Notifications followed
  ∧ finish (unfollow Demo.ext Demo.alice Demo.id2) r.1
    = (r.1, Sent 200 (BText "Unfollowed")).
Proof.
  intros followed r.
  destruct (unfollow_removes_the_edge Demo.ext Demo.alice Demo.alice Demo.id2
              (OID Demo.id2) followed eq_refl eq_refl)
    as (_ & _ & _ & HN & Hok).
  assert (r.2 = Sent 200 (BText "Unfollowed")) as Hr by by vm_compute.
  split; [exact Hr|]. split; [exact HN|]. by apply Hok.
Defined.

(** ** Following, then unfollowing *)

Lemma pull_after_addToSet k o (d x : gmap string value) l :
  d !! k = Some (VArr l) →
  existsb (is_oid o) l = false →
  op_addToSet k o d = Some x →
  op_pull k o x = Some d.
Proof.
  intros Hk Hl. unfold op_addToSet, op_pull. rewrite Hk, Hl. intros [= <-].
  rewrite lookup_insert_eq, insert_insert_eq. f_equal.
  rewrite List.filter_app. cbn [List.filter]. rewrite is_oid_refl. simpl.
  rewrite app_nil_r.
  assert (List.filter (λ v, negb (is_oid o v)) l = l) as ->.
  { clear Hk. induction l as [|y l IH]; [done|]. simpl in *.
    apply orb_false_iff in Hl as [Hy Hl]. rewrite Hy. simpl. by rewrite IH. }
  by apply insert_id.
Qed.

Lemma updateOne_there_and_back {A} o (f g : A → option A) (c c1 c2 : list (doc A)) :
  (∀ d x, findOne (by_id o) c = Some d → f (data d) = Some x → g x = Some (data d)) →
  updateOne (by_id o) f c = Some c1 →
  updateOne (by_id o) g c1 = Some c2 →
  c2 = c.
Proof.
  revert c1 c2. induction c as [|y c IH]; simpl; intros c1 c2 Hfg.
  - by intros [= <-] [= <-].
  - destruct (by_id o y) eqn:Hq.
    + destruct (f (data y)) as [x|] eqn:Hx; simpl; [|done]. intros [= <-]. simpl.
      unfold by_id in *. simpl. rewrite Hq. simpl.
      rewrite (Hfg y x eq_refl Hx). simpl. intros [= <-]. by destruct y.
    + destruct (updateOne (by_id o) f c) as [c'|] eqn:Hc'; simpl; [|done].
      intros [= <-]. simpl. rewrite Hq.
      destruct (updateOne (by_id o) g c') as [c''|] eqn:Hc''; simpl; [|done].
      intros [= <-]. f_equal. by eapply IH.
Qed.

Lemma by_id_updated {A} o (y : doc A) (x : A) :
  by_id o (Doc (_id y) x) = by_id o y.
Proof. done. Qed.

Lemma updateOne_two_there_and_back {A} a b (f f' g g' : A → option A)
    (c c1 c2 c3 c4 : list (doc A)) :
  a ≠ b →
  (∀ d x, findOne (by_id a) c = Some d → f (data d) = Some x → g x = Some (data d)) →
  (∀ d x, findOne (by_id b) c = Some d → f' (data d) = Some x → g' x = Some (data d)) →
  updateOne (by_id a) f c = Some c1 →
  updateOne (by_id b) f' c1 = Some c2 →
  updateOne (by_id a) g c2 = Some c3 →
  updateOne (by_id b) g' c3 = Some c4 →
  c4 = c.
Proof.
  intros Hab. revert c1 c2 c3 c4.
  induction c as [|y c IH]; simpl; intros c1 c2 c3 c4.
  - by intros _ _ [= <-] [= <-] [= <-] [= <-].
  - destruct (by_id a y) eqn:Hqa; [|destruct (by_id b y) eqn:Hqb].
    + assert (by_id b y = false) as Hqb.
      { apply bool_decide_eq_true in Hqa. apply bool_decide_eq_false. congruence. }
      rewrite Hqb. intros Ha Hb.
      destruct (f (data y)) as [x|] eqn:Hx; simpl; [|done]. intros [= <-]. simpl.
      rewrite by_id_updated, Hqb.
      destruct (updateOne (by_id b) f' c) as [c'|] eqn:Hc'; simpl; [|done].
      intros [= <-]. simpl. rewrite by_id_updated, Hqa, (Ha y x eq_refl Hx). simpl.
      intros [= <-]. simpl. rewrite by_id_updated, Hqb.
      destruct (updateOne (by_id b) g' c') as [c''|] eqn:Hc''; simpl; [|done].
      intros [= <-]. destruct y. simpl. f_equal.
      by eapply (updateOne_there_and_back b f' g').
    + intros Ha Hb.
      destruct (updateOne (by_id a) f c) as [c'|] eqn:Hc'; simpl; [|done].
      intros [= <-]. simpl. rewrite Hqb.
      destruct (f' (data y)) as [x|] eqn:Hx; simpl; [|done]. intros [= <-]. simpl.
      rewrite by_id_updated, Hqa.
      destruct (updateOne (by_id a) g c') as [c''|] eqn:Hc''; simpl; [|done].
      intros [= <-]. simpl. rewrite by_id_updated, Hqb, (Hb y x eq_refl Hx). simpl.
      intros [= <-]. destruct y. simpl. f_equal.
      by eapply (updateOne_there_and_back a f g).
    + intros Ha Hb.
      destruct (updateOne (by_id a) f c) as [c'|] eqn:Hc'; simpl; [|done].
      intros [= <-]. simpl. rewrite Hqb.
      destruct (updateOne (by_id b) f' c') as [c''|] eqn:Hc''; simpl; [|done].
      intros [= <-]. simpl. rewrite Hqa.
      destruct (updateOne (by_id a) g c'') as [c3'|] eqn:Hc3; simpl; [|done].
      intros [= <-]. simpl. rewrite Hqb.
      destruct (updateOne (by_id b) g' c3') as [c4'|] eqn:Hc4; simpl; [|done].
      intros [= <-]. f_equal. by eapply IH.
Qed.

Lemma updateOne_succeeds {A} q (op : A → option A) (c : list (doc A)) :
  (∀ d, findOne q c = Some d → is_Some (op (data d))) → is_Some (updateOne q op c).
Proof.
  induction c as [|y c IH]; simpl; [by eexists|]. intros Hop.
  destruct (q y).
  - destruct (Hop y eq_refl) as [x ->]. by eexists.
  - destruct (IH Hop) as [c' ->]. by eexists.
Qed.

Lemma pull_array_succeeds k o (d : gmap string value) l :
  d !! k = Some (VArr l) → is_Some (op_pull k o d).
Proof. intros Hk. unfold op_pull. rewrite Hk. by eexists. Qed.

Lemma addToSet_array k o (d x : gmap string value) l :
  d !! k = Some (VArr l) → op_addToSet k o d = Some x →
  ∃ l', x !! k = Some (VArr l').
Proof.
  intros Hk. unfold op_addToSet. rewrite Hk. intros [= <-].
  eexists. apply lookup_insert_eq.
Qed.

(** Following and then unfollowing an identity puts both identity records
    back exactly as they were, provided each held the edge array without the
    other before; posts and comments are untouched, and the follow
    notification stays: unfollowing retracts nothing from the
    notifications. *)
Theorem follow_then_unfollow_restores_records ext u u' id now b db ua ub la lb :
  ObjectId_new ext id = Some b →
  _id u ≠ b →
  _id u' = _id u →
  findOne (by_id (_id u)) (Users db) = Some ua →
  data ua !! "following" = Some (VArr la) →
  existsb (is_oid b) la = false →
  findOne (by_id b) (Users db) = Some ub →
  data ub !! "followers" = Some (VArr lb) →
  existsb (is_oid (_id u)) lb = false →
  let followed := finish (follow ext u id now) db in
  let unfollowed := finish (unfollow ext u' id) followed.1 in
  followed.2 = Sent 200 (BText "Followed")
  ∧ unfollowed.2 = Sent 200 (BText "Unfollowed")
  ∧ Users unfollowed.1 = Users db
  ∧ Posts unfollowed.1 = Posts db
  ∧ Comments unfollowed.1 = Comments db
  ∧ Notifications unfollowed.1
    = Notifications db
      ++ [Doc (oid_gen ext (fresh db))
            (Notification.Make "follow" (_id u) b None false now)].
Proof.
  intros Hid Hab Hu' Hua Hla Hnb Hub Hlb Hna followed unfollowed.
  destruct (updateOne_succeeds (by_id (_id u)) (op_addToSet "following" b) (Users db))
    as [us1 H1].
  { intros d Hd. rewrite Hua in Hd. injection Hd as <-.
    unfold op_addToSet. rewrite Hla. by eexists. }
  assert (findOne (by_id b) us1 = Some ub) as Hub1.
  { by rewrite (findOne_updateOne_other b (_id u) _ _ _ (not_eq_sym Hab) H1). }
  destruct (updateOne_succeeds (by_id b) (op_addToSet "followers" (_id u)) us1)
    as [us2 H2].
  { intros d Hd. rewrite Hub1 in Hd. injection Hd as <-.
    unfold op_addToSet. rewrite Hlb. by eexists. }
  assert (followed
          = (MkDb us2 (Posts db) (Comments db)
               (Notifications db
                  ++ [Doc (oid_gen ext (fresh db))
                        (Notification.Make "follow" (_id u) b None false now)])
               (S (fresh db)),
             Sent 200 (BText "Followed"))) as Hfollowed
    by by apply (follow_run ext u id now b db us1 us2).
  destruct (findOne_updateOne_same _ _ _ _ _ Hua H1) as (xa & Hxa & Hua1).
  destruct (findOne_updateOne_same _ _ _ _ _ Hub1 H2) as (xb & Hxb & Hub2).
  destruct (addToSet_array _ _ _ _ _ Hla Hxa) as [la' Hla'].
  destruct (addToSet_array _ _ _ _ _ Hlb Hxb) as [lb' Hlb'].
  destruct (updateOne_succeeds (by_id (_id u)) (op_pull "following" b) us2)
    as [us3 H3].
  { intros d Hd. rewrite (findOne_updateOne_other _ _ _ _ _ Hab H2), Hua1 in Hd.
    injection Hd as <-. by eapply pull_array_succeeds. }
  destruct (updateOne_succeeds (by_id b) (op_pull "followers" (_id u)) us3)
    as [us4 H4].
  { intros d Hd.
    rewrite (findOne_updateOne_other b (_id u) _ _ _ (not_eq_sym Hab) H3), Hub2 in Hd.
    injection Hd as <-. by eapply pull_array_succeeds. }
  assert (us4 = Users db) as ->.
  { eapply (updateOne_two_there_and_back (_id u) b); [exact Hab| | |done..].
    - intros d x Hd Hx. rewrite Hua in Hd. injection Hd as <-.
      by eapply pull_after_addToSet.
    - intros d x Hd Hx. rewrite Hub in Hd. injection Hd as <-.
      by eapply pull_after_addToSet. }
  subst unfollowed. rewrite Hfollowed. simpl.
  rewrite (unfollow_run ext u' id b _ Hid). simpl. rewrite Hu', H3, H4.
  by repeat split.
Qed.

Lemma follow_then_unfollow_restores_records_witness :
  let followed := finish (follow Demo.ext Demo.alice Demo.id2 20) Demo.db0 in
  let unfollowed := finish (unfollow Demo.ext Demo.alice Demo.id2) followed.1 in
  Users unfollowed.1 = Users Demo.db0
  ∧ length (Notifications unfollowed.1) = 1%nat.
Proof.
  intros followed unfollowed.
  destruct (follow_then_unfollow_restores_records Demo.ext Demo.alice Demo.alice
              Demo.id2 20 (OID Demo.id2) Demo.db0 Demo.alice Demo.bob [] [])
    as (_ & _ & HU & _ & _ & HN);
    [ reflexivity | apply (bool_decide_unpack _); by vm_compute | reflexivity
    | reflexivity | by vm_compute | reflexivity | reflexivity | by vm_compute
    | reflexivity |].
  split; [exact HU|]. subst unfollowed followed. by rewrite HN.
Defined.

(** ** Listings, newest first *)

Lemma insert_desc_perm {A} (key : A → Z) x l : insert_desc key x l ≡ₚ x :: l.
Proof.
  induction l as [|y l IH]; simpl; [done|].
  destruct (Z.ltb (key y) (key x)); [done|].
  rewrite IH. apply Permutation_swap.
Qed.

Lemma sort_desc_perm {A} (key : A → Z) l : sort_desc key l ≡ₚ l.
Proof.
  unfold sort_desc. induction l as [|x l IH]; simpl; [done|].
  by rewrite insert_desc_perm, IH.
Qed.

Lemma insert_desc_sorted {A} (key : A → Z) x l :
  newest_first key l → newest_first key (insert_desc key x l).
Proof.
  unfold newest_first. induction 1 as [|y l Hl IH Hy]; simpl.
  - repeat constructor.
  - destruct (Z.ltb_spec (key y) (key x)) as [Hlt|Hge].
    + constructor; [by constructor|]. constructor; [lia|].
      eapply Forall_impl; [exact Hy|]. simpl. intros z Hz. lia.
    + constructor; [done|]. rewrite insert_desc_perm. by constructor.
Qed.

Lemma sort_desc_sorted {A} (key : A → Z) l : newest_first key (sort_desc key l).
Proof.
  unfold sort_desc. induction l as [|x l IH]; simpl; [constructor|].
  by apply insert_desc_sorted.
Qed.

(** [GET /api/notifications] answers with the notifications addressed to the
    caller, all of them and no others, newest first, and writes nothing. *)
Theorem notifications_lists_own_newest_first (u : user) db :
  ∃ ns,
    finish (notifications u) db = (db, Sent 200 (BNotifications ns))
    ∧ ns ≡ₚ List.filter (for_receiver (_id u)) (Notifications db)
    ∧ (∀ n, n ∈ ns ↔ n ∈ Notifications db ∧ Notification.receiver (data n) = _id u)
    ∧ newest_first (λ n, Notification.createdAt (data n)) ns.
Proof.
  eexists. split; [reflexivity|]. split; [apply sort_desc_perm|]. split.
  - intros n. rewrite sort_desc_perm. unfold find.
    rewrite list_elem_of_In, filter_In, <- list_elem_of_In.
    unfold for_receiver. by rewrite bool_decide_eq_true.
  - apply sort_desc_sorted.
Qed.

(** [GET /api/posts] needs no credential: whatever the header, it answers
    with all stored posts, newest first, and writes nothing. *)
Theorem feed_lists_all_posts_newest_first ext header now db :
  ∃ ps,
    handle ext (Request header now GetPosts) db = (db, Sent 200 (BPosts ps))
    ∧ ps ≡ₚ Posts db
    ∧ newest_first (λ p, Post.createdAt (data p)) ps.
Proof.
  eexists. split; [reflexivity|]. split; [apply sort_desc_perm | apply sort_desc_sorted].
Qed.

(** ** Marking notifications read *)

(** [PUT /api/notifications/read-all] answers 200 and sets [read] on every
    notification addressed to the caller; it changes nothing else: the
    notifications keep their number, order, identifiers and other fields,
    those addressed to others keep their read flag, and the other collections
    are untouched.  Doing it again changes nothing, and the caller's listing
    afterwards shows only read notifications. *)
Theorem read_all_marks_own_notifications (u : user) db :
  ∃ ns,
    finish (read_all u) db
    = (MkDb (Users db) (Posts db) (Comments db) ns (fresh db),
       Sent 200 (BText "All read"))
    ∧ Forall (λ n, Notification.receiver (data n) = _id u →
                   Notification.read (data n) = true) ns
    ∧ Forall2 (λ n n', _id n' = _id n
                       ∧ mark_read (data n') = mark_read (data n)
                       ∧ (Notification.receiver (data n) ≠ _id u → n' = n))
        (Notifications db) ns
    ∧ finish (read_all u) (MkDb (Users db) (Posts db) (Comments db) ns (fresh db))
      = (MkDb (Users db) (Posts db) (Comments db) ns (fresh db),
         Sent 200 (BText "All read"))
    ∧ ∃ listed,
        finish (notifications u) (MkDb (Users db) (Posts db) (Comments db) ns (fresh db))
        = (MkDb (Users db) (Posts db) (Comments db) ns (fresh db),
           Sent 200 (BNotifications listed))
        ∧ Forall (λ n, Notification.read (data n) = true) listed.
Proof.
  exists (updateMany (for_receiver (_id u)) mark_read (Notifications db)).
  split; [reflexivity|].
  assert (Forall (λ n, Notification.receiver (data n) = _id u →
                       Notification.read (data n) = true)
            (updateMany (for_receiver (_id u)) mark_read (Notifications db))) as Hread.
  { unfold updateMany. apply Forall_fmap, Forall_forall. intros n _. simpl.
    unfold for_receiver. case_bool_decide; [done|]. by intros ?. }
  split; [done|]. split; [|split].
  - unfold updateMany. apply Forall2_fmap_r, Forall_Forall2_diag, Forall_forall.
    intros n _. simpl. unfold for_receiver.
    case_bool_decide; simpl; [|done].
    split; [done|]. split; [destruct n as [i []]; reflexivity | by intros ?].
  - unfold finish, read_all. rewrite bind_run. simpl. do 2 f_equal.
    unfold updateMany. rewrite <- list_fmap_compose. apply list_fmap_ext.
    intros i [o [ty s r pid rd t]] _. unfold for_receiver. simpl.
    destruct (decide (r = _id u)) as [Hr|Hr].
    + rewrite !(bool_decide_eq_true_2 (r = _id u)) by done. simpl.
      rewrite ?(bool_decide_eq_true_2 (r = _id u)) by done. reflexivity.
    + rewrite !(bool_decide_eq_false_2 (r = _id u)) by done. simpl.
      rewrite ?(bool_decide_eq_false_2 (r = _id u)) by done. reflexivity.
  - eexists. split; [reflexivity|]. simpl.
    apply Forall_forall. intros n Hn. rewrite sort_desc_perm in Hn.
    unfold find in Hn. apply list_elem_of_In, filter_In in Hn as [Hn Hr].
    apply list_elem_of_In in Hn. rewrite Forall_forall in Hread.
    apply (Hread n Hn). by apply bool_decide_eq_true in Hr.
Qed.

(** ** Logging in *)

(** [POST /api/login] never writes.  An email without a record and a wrong
    password get the very same answer, 400 "Invalid credentials"; only the
    first record stored under the email is consulted. *)
Theorem login_failures_look_alike ext (header : option string) now email password db :
  (findOne (field_matches "email" email) (Users db) = None →
   handle ext (Request header now (PostLogin email password)) db
   = (db, Sent 400 (BText "Invalid credentials")))
  ∧ (∀ u hash,
       findOne (field_matches "email" email) (Users db) = Some u →
       field u "password" = Some (VStr hash) →
       bcrypt_compare ext password hash = false →
       handle ext (Request header now (PostLogin email password)) db
       = (db, Sent 400 (BText "Invalid credentials")))
  ∧ (handle ext (Request header now (PostLogin email password)) db).1 = db.
Proof.
  unfold handle, finish, app, login. simpl. rewrite bind_run. simpl.
  split; [|split].
  - by intros ->.
  - intros u hash -> Hp Hc. rewrite bind_run, Hp. simpl. by rewrite Hc.
  - destruct (findOne _ _) as [u|]; [|done]. rewrite bind_run.
    destruct (field u "password") as [[| | |hash| | | |]|]; try done. simpl.
    by destruct (bcrypt_compare ext password hash).
Qed.

Lemma login_failures_look_alike_witness :
  handle Demo.ext (Request None 50 (PostLogin "nobody@x.com" "pw1")) Demo.db0
  = (Demo.db0, Sent 400 (BText "Invalid credentials"))
  ∧ handle Demo.ext (Request None 50 (PostLogin "a@x.com" "wrong")) Demo.db0
    = (Demo.db0, Sent 400 (BText "Invalid credentials")).
Proof.
  split.
  - by apply (proj1 (login_failures_look_alike Demo.ext None 50 "nobody@x.com" "pw1"
                       Demo.db0)).
  - by apply (proj1 (proj2 (login_failures_look_alike Demo.ext None 50 "a@x.com"
                              "wrong" Demo.db0)) Demo.alice "$2a$10$pw1").
Defined.

(** ** Registering, logging in, passing the gate *)

Lemma findOne_app {A} q (c : list (doc A)) d :
  findOne q (c ++ [d]) =
  match findOne q c with
  | Some x => Some x
  | None => if q d then Some d else None
  end.
Proof.
  induction c as [|y c IH]; simpl; [done|]. by destruct (q y).
Qed.

(** A registration with an email that has no record yet, followed by a login
    with the same email and password, succeeds and issues a token for the
    new identity; presenting that token then passes the gate as that
    identity.  (This needs what the libraries promise: bcrypt accepts the
    password against its own hash, the issued token verifies and spells the
    identifier, and the generated identifier is not in use.) *)
Theorem register_login_gate_round_trip ext (header : option string) now now'
    username email password db {R} (req : request R) :
  findOne (field_matches "email" email) (Users db) = None →
  findOne (by_id (oid_gen ext (fresh db))) (Users db) = None →
  bcrypt_compare ext password (bcrypt_hash ext password) = true →
  jwt_verify ext (jwt_sign ext (oid_gen ext (fresh db))) ≫= ObjectId_new ext
  = Some (oid_gen ext (fresh db)) →
  let registered :=
    handle ext (Request header now (PostRegister username email password)) db in
  ∃ u,
    registered.2 = Sent 200 (BText "User registered")
    ∧ Users registered.1 = Users db ++ [u]
    ∧ _id u = oid_gen ext (fresh db)
    ∧ field u "password" = Some (VStr (bcrypt_hash ext password))
    ∧ field u "role" = Some (VStr "user")
    ∧ handle ext (Request header now' (PostLogin email password)) registered.1
      = (registered.1, Sent 200 (BLogin (jwt_sign ext (_id u)) u))
    ∧ (bearer (authorization req) = Some (jwt_sign ext (_id u)) →
       auth ext req registered.1 = (registered.1, inl u)).
Proof.
  intros Hemail Hid Hbcrypt Hjwt registered.
  eexists. split; [reflexivity|]. split; [reflexivity|]. split; [reflexivity|].
  split; [by vm_compute|]. split; [by vm_compute|]. split.
  - unfold handle, finish, app, login. simpl. rewrite bind_run. simpl.
    rewrite findOne_app, Hemail.
    match goal with |- context [field_matches "email" email ?d] =>
      assert (field_matches "email" email d = true) as ->
    end.
    { unfold field_matches, field. simpl.
      match goal with |- context [?m !! "email"] =>
        assert (m !! "email" = Some (VStr email)) as -> by by vm_compute
      end.
      apply String.eqb_refl. }
    rewrite bind_run.
    match goal with |- context [field ?d "password"] =>
      assert (field d "password" = Some (VStr (bcrypt_hash ext password))) as ->
        by by vm_compute
    end.
    simpl. by rewrite Hbcrypt.
  - intros Hb. unfold auth. rewrite Hb.
    simpl in *. rewrite Hjwt. rewrite bind_run. unfold get. simpl.
    rewrite findOne_app, Hid. unfold by_id at 1. simpl.
    rewrite bool_decide_eq_true_2 by done.
    match goal with |- context [truthy (field ?d "banned")] =>
      assert (truthy (field d "banned") = false) as -> by by vm_compute
    end.
    done.
Qed.

Lemma register_login_gate_round_trip_witness :
  let registered := handle Demo.ext Demo.alice_registers empty_db in
  ∃ u,
    handle Demo.ext (Request None 11 (PostLogin "a@x.com" "pw1")) registered.1
    = (registered.1, Sent 200 (BLogin (jwt_sign Demo.ext (_id u)) u))
    ∧ auth Demo.ext (Request (Demo.bearer_of Demo.id1) 12 GetMe) registered.1
      = (registered.1, inl u).
Proof.
  intros registered.
  destruct (register_login_gate_round_trip Demo.ext None 10 11 "alice" "a@x.com"
              "pw1" empty_db (Request (Demo.bearer_of Demo.id1) 12 GetMe))
    as (u & _ & _ & Hid & _ & _ & Hlogin & Hgate); [reflexivity..|].
  exists u. split; [exact Hlogin|]. apply Hgate. rewrite Hid. reflexivity.
Defined.

(** ** The Firebase gate and registration *)

(** The Firebase gate creates the identity of a verified email on first
    sight: one record, with role "user", not banned, no edges.  The same
    token presented again finds that record and creates nothing.  A verified
    email that has a record which is not banned is admitted without any
    write. *)
Theorem firebase_gate_creates_identity_once ext {R} (req req' : request R)
    header token name email db :
  authorization req = Some header →
  authorization req' = Some header →
  header ≠ "" →
  split " " header !! 1%nat = Some token →
  verifyIdToken ext token = Some (name, email) →
  (findOne (field_matches "email" email) (Users db) = None →
   ∃ u,
     let db1 := MkDb (Users db ++ [u]) (Posts db) (Comments db) (Notifications db)
                  (S (fresh db)) in
     Firebase.auth ext req db = (db1, inl u)
     ∧ _id u = oid_gen ext (fresh db)
     ∧ field u "email" = Some (VStr email)
     ∧ field u "fullName" = Some (VStr name)
     ∧ field u "role" = Some (VStr "user")
     ∧ field u "banned" = Some (VBool false)
     ∧ field u "followers" = Some (VArr [])
     ∧ field u "following" = Some (VArr [])
     ∧ Firebase.auth ext req' db1 = (db1, inl u))
  ∧ (∀ u, findOne (field_matches "email" email) (Users db) = Some u →
          truthy (field u "banned") = false →
          Firebase.auth ext req db = (db, inl u)).
Proof.
  intros Hh Hh' Hne Ht Hv.
  assert (∀ (r : request R) d, authorization r = Some header →
            Firebase.auth ext r d
            = (u ← match findOne (field_matches "email" email) (Users d) with
                   | Some u => mret u
                   | None =>
                       insertUser ext (list_to_map [
                         ("fullName", VStr name); ("email", VStr email);
                         ("role", VStr "user"); ("banned", VBool false);
                         ("profileImage", VStr ""); ("coverImage", VStr "");
                         ("bio", VStr ""); ("location", VStr "");
                         ("dateOfBirth", VNull); ("followers", VArr []);
                         ("following", VArr []); ("createdAt", VDate (now r))])
                   end;
               if truthy (field u "banned") then send 403 (BText "User banned")
               else mret u) d) as Hauth.
  { intros r d Hr. unfold Firebase.auth. rewrite Hr.
    destruct header as [|c header]; [done|]. rewrite Ht. simpl. by rewrite Hv. }
  split.
  - intros Hnone. eexists. simpl.
    split; [rewrite (Hauth req db Hh), bind_run, Hnone; reflexivity|].
    repeat (split; [by vm_compute|]).
    rewrite (Hauth req' _ Hh'), bind_run. simpl.
    rewrite findOne_app, Hnone.
    match goal with |- context [field_matches "email" email ?d] =>
      assert (field_matches "email" email d = true) as ->
    end.
    { unfold field_matches, field. simpl.
      match goal with |- context [?m !! "email"] =>
        assert (m !! "email" = Some (VStr email)) as -> by by vm_compute
      end.
      apply String.eqb_refl. }
    reflexivity.
  - intros u Hu Hb. by rewrite (Hauth req db Hh), bind_run, Hu; simpl; rewrite Hb.
Qed.

Lemma firebase_gate_creates_identity_once_witness :
  let req : request Firebase.route := Request (Some "Bearer firebase:c@x.com") 60
                                        Firebase.GetMe in
  ∃ u,
    (Firebase.auth Demo.ext req Demo.db0).2 = inl u
    ∧ length (Users (Firebase.auth Demo.ext req Demo.db0).1) = 3%nat
    ∧ Firebase.auth Demo.ext req (Firebase.auth Demo.ext req Demo.db0).1
      = ((Firebase.auth Demo.ext req Demo.db0).1, inl u).
Proof.
  intros req.
  destruct (firebase_gate_creates_identity_once Demo.ext req req
              "Bearer firebase:c@x.com" "firebase:c@x.com" "" "c@x.com" Demo.db0
              eq_refl eq_refl ltac:(done) eq_refl eq_refl) as [Hfirst _].
  destruct (Hfirst eq_refl) as (u & Hrun & _ & _ & _ & _ & _ & _ & _ & Hagain).
  exists u. rewrite Hrun. simpl. split; [done|]. split; [by vm_compute|]. exact Hagain.
Defined.

Lemma findOne_updateOne_matching {A} q (op : A → option A) (c c' : list (doc A)) d :
  findOne q c = Some d →
  updateOne q op c = Some c' →
  (∀ x, op (data d) = Some x → q (Doc (_id d) x) = true) →
  ∃ x, op (data d) = Some x ∧ findOne q c' = Some (Doc (_id d) x).
Proof.
  revert c'. induction c as [|y c IH]; simpl; [done|]. intros c'.
  destruct (q y) eqn:Hq.
  - intros [= <-]. destruct (op (data y)) as [x|] eqn:Hx; simpl; [|done].
    intros [= <-] Hkeep. exists x. split; [done|]. simpl. by rewrite (Hkeep x).
  - intros Hd. destruct (updateOne q op c) as [c''|]; simpl; [|done].
    intros [= <-] Hkeep. simpl. rewrite Hq. by apply IH.
Qed.

Lemma firebase_register_run ext (header : option string) now fullName email db :
  Firebase.handle ext (Request header now (Firebase.PostRegister fullName email)) db =
  match findOne (field_matches "email" email) (Users db) with
  | Some _ =>
      match updateOne (field_matches "email" email)
              (op_set (list_to_map [("fullName", VStr fullName); ("email", VStr email)]))
              (Users db) with
      | Some us =>
          (MkDb us (Posts db) (Comments db) (Notifications db) (fresh db),
           Sent 200 (BText "User profile saved"))
      | None => (db, Thrown WriteError)
      end
  | None =>
      (MkDb (Users db
               ++ [Doc (oid_gen ext (fresh db))
                     (list_to_map [("fullName", VStr fullName); ("email", VStr email)])])
         (Posts db) (Comments db) (Notifications db) (S (fresh db)),
       Sent 200 (BText "User profile saved"))
  end.
Proof.
  unfold Firebase.handle, finish, Firebase.app, Firebase.register.
  cbn [target]. rewrite !bind_run. cbn [get fst snd].
  destruct (findOne _ _) as [d|]; [|reflexivity].
  unfold updateUser. rewrite bind_run. cbn beta.
  by destruct (updateOne _ _ _).
Qed.

(** [POST /api/register] of the Firebase server asks for no credential and
    always answers 200.  It stores the profile under the email by upsert: if
    no record holds the email it appends one with just the name and email,
    otherwise it overwrites the name in the first such record and adds
    nothing; sending the same registration again changes nothing. *)
Theorem firebase_register_upserts ext (header header' : option string) now now'
    fullName email db :
  let profile : gmap string value :=
    list_to_map [("fullName", VStr fullName); ("email", VStr email)] in
  let r := Firebase.handle ext
             (Request header now (Firebase.PostRegister fullName email)) db in
  r.2 = Sent 200 (BText "User profile saved")
  ∧ Posts r.1 = Posts db ∧ Comments r.1 = Comments db
  ∧ Notifications r.1 = Notifications db
  ∧ (findOne (field_matches "email" email) (Users db) = None →
     Users r.1 = Users db ++ [Doc (oid_gen ext (fresh db)) profile])
  ∧ (∀ d, findOne (field_matches "email" email) (Users db) = Some d →
          length (Users r.1) = length (Users db)
          ∧ findOne (field_matches "email" email) (Users r.1)
            = Some (Doc (_id d) (profile ∪ data d)))
  ∧ Firebase.handle ext
      (Request header' now' (Firebase.PostRegister fullName email)) r.1
    = (r.1, Sent 200 (BText "User profile saved")).
Proof.
  intros profile r.
  assert (profile !! "email" = Some (VStr email)) as Hpe by by vm_compute.
  assert (∀ i (m : gmap string value),
            field_matches "email" email (Doc i (profile ∪ m)) = true) as Hmatch.
  { intros i m. unfold field_matches, field. simpl.
    rewrite (lookup_union_Some_l _ _ _ _ Hpe). apply String.eqb_refl. }
  assert (∀ m : gmap string value, op_set profile (profile ∪ m) = Some (profile ∪ m))
    as Hidem.
  { intros m. unfold op_set. by rewrite map_union_assoc, map_union_idemp. }
  assert (∀ d us ps cs ns n,
            findOne (field_matches "email" email) us = Some d →
            (∀ d', findOne (field_matches "email" email) us = Some d' →
                   op_set profile (data d') = Some (data d')) →
            Firebase.handle ext
              (Request header' now' (Firebase.PostRegister fullName email))
              (MkDb us ps cs ns n)
            = (MkDb us ps cs ns n, Sent 200 (BText "User profile saved"))) as Hagain.
  { intros d us ps cs ns n Hd Hfix. rewrite firebase_register_run. cbn [Users].
    rewrite Hd. fold profile. by rewrite (updateOne_fix _ _ us Hfix). }
  subst r. rewrite firebase_register_run. fold profile.
  destruct (findOne (field_matches "email" email) (Users db)) as [d|] eqn:Hd.
  - destruct (updateOne_total (field_matches "email" email) (op_set profile) (Users db))
      as [us Hus]; [by eexists|].
    rewrite Hus. cbn [fst snd Users Posts Comments Notifications].
    destruct (findOne_updateOne_matching _ _ _ _ _ Hd Hus) as (x & [= <-] & Hd').
    { intros x [= <-]. apply Hmatch. }
    repeat (split; [done|]). split; [|apply (Hagain _ us _ _ _ _ Hd')].
    + intros d0 [= <-]. split; [by eapply updateOne_length | done].
    + intros d' Hd''. rewrite Hd' in Hd''. injection Hd'' as <-. apply Hidem.
  - cbn [fst snd Users Posts Comments Notifications].
    repeat (split; [done|]).
    assert (profile ∪ ∅ = profile) as Hp by by rewrite (right_id_L ∅ (∪)).
    pose proof (Hmatch (oid_gen ext (fresh db)) ∅) as Hmatch0.
    pose proof (Hidem ∅) as Hidem0. rewrite Hp in Hmatch0, Hidem0.
    apply (Hagain (Doc (oid_gen ext (fresh db)) profile)).
    + by rewrite findOne_app, Hd, Hmatch0.
    + intros d'. rewrite findOne_app, Hd, Hmatch0. by intros [= <-].
Qed.

Lemma firebase_register_upserts_witness :
  let again := Firebase.handle Demo.ext
                 (Request None 70 (Firebase.PostRegister "Alice A" "a@x.com")) Demo.db0 in
  let fresh_email := Firebase.handle Demo.ext
                       (Request None 70 (Firebase.PostRegister "Carol" "c@x.com")) Demo.db0 in
  length (Users again.1) = 2%nat ∧ length (Users fresh_email.1) = 3%nat.
Proof.
  intros again fresh_email. split.
  - destruct (firebase_register_upserts Demo.ext None None 70 70 "Alice A" "a@x.com"
                Demo.db0) as (_ & _ & _ & _ & _ & Hsome & _).
    destruct (Hsome Demo.alice eq_refl) as [Hlen _]. exact Hlen.
  - destruct (firebase_register_upserts Demo.ext None None 70 70 "Carol" "c@x.com"
                Demo.db0) as (_ & _ & _ & _ & Hnone & _).
    subst fresh_email. by rewrite (Hnone eq_refl).
Defined.

(** ** Creating a post *)



(** ** What the handlers write *)

Section Writes.
Context (ext : Ext) (db0 : Db).
Local Abbreviation W := (λ db, rtc (write ext) db0 db).

Lemma writes_insertUser f : keeps W (insertUser ext f).
Proof. intros db Hdb. eapply rtc_r; [exact Hdb | apply write_insertUser]. Qed.

Lemma writes_updateUser q op : keeps W (updateUser q op).
Proof.
  intros db Hdb. unfold updateUser.
  destruct (updateOne q op (Users db)) as [us|] eqn:Hus; [|done].
  eapply rtc_r; [exact Hdb | by apply (write_updateUser _ _ q op)].
Qed.

Lemma writes_insertPost content image author now :
  keeps W (insertPost ext (Post.Make content image author [] now)).
Proof. intros db Hdb. eapply rtc_r; [exact Hdb | apply write_insertPost]. Qed.

Lemma writes_insertComment c : keeps W (insertComment ext c).
Proof. intros db Hdb. eapply rtc_r; [exact Hdb | apply write_insertComment]. Qed.

Lemma writes_createNotification type sender receiver postId now :
  keeps W (createNotification ext type sender receiver postId now).
Proof.
  intros db Hdb. unfold createNotification.
  destruct (same_id sender receiver) eqn:Hsr; [done|].
  rewrite bind_run. simpl. eapply rtc_r; [exact Hdb|].
  apply write_notify. by apply same_id_false.
Qed.

Lemma writes_like u id now : keeps W (like ext u id now).
Proof.
  intros db Hdb. unfold like. rewrite bind_run.
  destruct (ObjectId_new ext id) as [pid|]; simpl; [|done].
  rewrite bind_run. simpl. rewrite bind_run.
  destruct (findOne (by_id pid) (Posts db)) as [p|]; simpl; [|done].
  rewrite bind_run.
  destruct (negb _); simpl; [|done].
  rewrite bind_run.
  destruct (updateOne (by_id pid) (addToSet_likes (_id u)) (Posts db)) as [ps|] eqn:Hps;
    simpl; [|done].
  rewrite bind_run. simpl.
  assert (W (MkDb (Users db) ps (Comments db) (Notifications db) (fresh db))) as Hps'.
  { eapply rtc_r; [exact Hdb | by eapply write_like]. }
  pose proof (writes_createNotification "like" (_id u) (Post.author (data p))
                (Some pid) now _ Hps') as Hn.
  by destruct (createNotification _ _ _ _ _ _ _) as [db' [[]|o]].
Qed.

Lemma writes_read_all u : keeps W (read_all u).
Proof.
  intros db Hdb. unfold read_all. rewrite bind_run. simpl.
  eapply rtc_r; [exact Hdb | apply write_readAll].
Qed.

Lemma writes_admin_delete_post id : keeps W (admin_delete_post ext id).
Proof.
  intros db Hdb. unfold admin_delete_post. rewrite bind_run.
  destruct (ObjectId_new ext id) as [pid|]; simpl; [|done].
  rewrite ?bind_run. simpl.
  eapply rtc_r; [eapply rtc_r; [exact Hdb | apply (write_deletePost _ _ pid)]|].
  apply (write_deleteComments ext
           (MkDb (Users db) (deleteOne (by_id pid) (Posts db)) (Comments db)
              (Notifications db) (fresh db)) pid).
Qed.
End Writes.

Ltac writes_step :=
  first
    [ keeps_step
    | apply keeps_auth
    | apply writes_insertUser
    | apply writes_updateUser
    | apply writes_insertPost
    | apply writes_insertComment
    | apply writes_createNotification
    | apply writes_like
    | apply writes_read_all
    | apply writes_admin_delete_post ].

(** Every request is served by a sequence of these writes. *)
Lemma serve_writes ext req db : rtc (write ext) db (serve ext req db).
Proof.
  destruct req as [req|req]; simpl.
  - unfold handle. apply (keeps_finish (λ s, rtc (write ext) db s)); [|done].
    unfold app, register, login, me, profile, profile_image, follow, unfollow,
      create_post, get_posts, add_comment, notifications, adminOnly, ban.
    destruct (target req); repeat writes_step.
  - unfold Firebase.handle. apply (keeps_finish (λ s, rtc (write ext) db s)); [|done].
    assert (keeps (λ s, rtc (write ext) db s) (Firebase.auth ext req)) as Hauth.
    { unfold Firebase.auth. repeat writes_step. }
    unfold Firebase.app, Firebase.register, Firebase.create_post, me, profile,
      profile_image, follow, add_comment, notifications, adminOnly, ban.
    destruct (target req); repeat (first [exact Hauth | writes_step]).
Qed.

Lemma serve_all_writes ext reqs db : rtc (write ext) db (serve_all ext reqs db).
Proof.
  unfold serve_all. revert db. induction reqs as [|req reqs IH]; intros db; [done|].
  simpl. etrans; [apply serve_writes | apply IH].
Qed.

(** An invariant of the writes is an invariant of the servers. *)
Lemma writes_invariant ext (I : Db → Prop) :
  (∀ db db', write ext db db' → I db → I db') →
  ∀ reqs db, I db → I (serve_all ext reqs db).
Proof.
  intros Hstep reqs db HI.
  induction (serve_all_writes ext reqs db) as [|db1 db2 db3 Hw _ IH]; [done|].
  apply IH. by eapply Hstep.
Qed.

(** ** Invariants of the two servers on the shared database *)

Lemma deleteOne_subseteq {A} q (c : list (doc A)) : deleteOne q c ⊆ c.
Proof.
  induction c as [|y c IH]; simpl; [done|].
  destruct (q y); intros x Hx; [by right|].
  apply elem_of_cons in Hx as [->|Hx]; [left | right; by apply IH].
Qed.

Lemma updateOne_elem {A} q (op : A → option A) (c c' : list (doc A)) x :
  updateOne q op c = Some c' → x ∈ c' →
  x ∈ c ∨ ∃ d a, d ∈ c ∧ op (data d) = Some a ∧ x = Doc (_id d) a.
Proof.
  revert c'. induction c as [|y c IH]; simpl; intros c'.
  - intros [= <-]. set_solver.
  - destruct (q y).
    + destruct (op (data y)) as [a|] eqn:Ha; simpl; [|done]. intros [= <-].
      rewrite elem_of_cons. intros [->|Hx].
      * right. exists y, a. split; [left | done].
      * left. by right.
    + destruct (updateOne q op c) as [c''|]; simpl; [|done]. intros [= <-].
      rewrite elem_of_cons. intros [->|Hx]; [left; left|].
      destruct (IH c'' eq_refl Hx) as [?|(d & a & ? & ? & ?)].
      * left. by right.
      * right. exists d, a. split; [by right | done].
Qed.

Lemma updateOne_ids {A} q (op : A → option A) (c c' : list (doc A)) :
  updateOne q op c = Some c' → _id <$> c' = _id <$> c.
Proof.
  revert c'. induction c as [|y c IH]; simpl; intros c'; [by intros [= <-]|].
  destruct (q y).
  - destruct (op (data y)); simpl; [|done]. by intros [= <-].
  - destruct (updateOne q op c) as [c''|]; simpl; [|done].
    intros [= <-]. rewrite !fmap_cons. f_equal. by apply IH.
Qed.

(** No post ever lists an identity twice among its likes: whatever requests
    the two servers handle, the likes of every stored post stay free of
    duplicates. *)
Theorem likes_stay_duplicate_free ext reqs db :
  Forall (λ p, NoDup (Post.likes (data p))) (Posts db) →
  Forall (λ p, NoDup (Post.likes (data p))) (Posts (serve_all ext reqs db)).
Proof.
  apply (writes_invariant ext
           (λ db, Forall (λ p, NoDup (Post.likes (data p))) (Posts db))).
  clear. intros db db' Hw HI. destruct Hw; simpl; try done.
  - apply Forall_app. split; [done|]. repeat constructor.
  - eapply updateOne_Forall; [|exact HI|done]. simpl.
    intros d a Hd _ [= <-]. simpl. case_bool_decide; [done|].
    apply NoDup_app. split; [done|]. split; [|apply NoDup_singleton].
    intros x Hx ->%list_elem_of_singleton. done.
  - rewrite Forall_forall in *. intros p Hp. apply HI.
    by apply (deleteOne_subseteq (by_id pid) (Posts db)).
Qed.

Lemma likes_stay_duplicate_free_witness :
  Forall (λ p, NoDup (Post.likes (data p)))
    (Posts (serve_all Demo.ext
              [inl (Request (Demo.bearer_of Demo.id2) 21 (PutLike Demo.id3));
               inl (Request (Demo.bearer_of Demo.id2) 22 (PutLike Demo.id3));
               inl (Request (Demo.bearer_of Demo.id1) 23 (PutLike Demo.id3))]
              Demo.db0)).
Proof.
  apply likes_stay_duplicate_free. repeat constructor.
Defined.

(** Identities are never removed and never change identifier: after any
    requests to the two servers the identity records are the former ones, in
    order and under the same identifiers, possibly followed by new ones. *)
Theorem identities_are_never_removed ext reqs db :
  (_id <$> Users db) `prefix_of` (_id <$> Users (serve_all ext reqs db)).
Proof.
  apply (writes_invariant ext
           (λ s, (_id <$> Users db) `prefix_of` (_id <$> Users s))); [|done].
  clear. intros s s' Hw HI. destruct Hw; simpl; try done.
  - rewrite fmap_app. by apply prefix_app_r.
  - match goal with
    | Hus : updateOne _ _ _ = Some _ |- _ => by rewrite (updateOne_ids _ _ _ _ Hus)
    end.
Qed.

(** Posts and comments are never edited: a post stored after any requests to
    the two servers is either a post that was there before, with the same
    content, image, author and date and at least the likes it had, or a post
    created meanwhile; a comment stored afterwards was there before,
    unchanged, or was created meanwhile. *)
Theorem posts_and_comments_are_never_edited ext reqs db :
  let db' := serve_all ext reqs db in
  (fresh db ≤ fresh db')%nat
  ∧ (∀ p', p' ∈ Posts db' →
       (∃ p, p ∈ Posts db ∧ same_post p p')
       ∨ (∃ n, (fresh db ≤ n < fresh db')%nat ∧ _id p' = oid_gen ext n))
  ∧ (∀ c', c' ∈ Comments db' →
       c' ∈ Comments db
       ∨ (∃ n, (fresh db ≤ n < fresh db')%nat ∧ _id c' = oid_gen ext n)).
Proof.
  apply (writes_invariant ext
    (λ s, (fresh db ≤ fresh s)%nat
          ∧ (∀ p', p' ∈ Posts s →
               (∃ p, p ∈ Posts db ∧ same_post p p')
               ∨ (∃ n, (fresh db ≤ n < fresh s)%nat ∧ _id p' = oid_gen ext n))
          ∧ (∀ c', c' ∈ Comments s →
               c' ∈ Comments db
               ∨ (∃ n, (fresh db ≤ n < fresh s)%nat ∧ _id c' = oid_gen ext n)))).
  - clear reqs. intros s s' Hw (Hf & HP & HC).
    assert (∀ (P : nat → Prop) m, (fresh s ≤ m)%nat →
              (∃ n, (fresh db ≤ n < fresh s)%nat ∧ P n) →
              ∃ n, (fresh db ≤ n < m)%nat ∧ P n) as Hweaken.
    { intros P m Hm (n & Hn & HPn). exists n. split; [lia | done]. }
    destruct Hw; simpl.
    + split; [lia|]. split.
      * intros p' Hp'. destruct (HP p' Hp') as [?|?]; [by left|].
        right. by apply (Hweaken _ (S (fresh db0))); [lia|].
      * intros c' Hc'. destruct (HC c' Hc') as [?|?]; [by left|].
        right. by apply (Hweaken _ (S (fresh db0))); [lia|].
    + done.
    + split; [lia|]. split.
      * intros p' [Hp'|Hp'%list_elem_of_singleton]%elem_of_app.
        -- destruct (HP p' Hp') as [?|?]; [by left|].
           right. by apply (Hweaken _ (S (fresh db0))); [lia|].
        -- right. exists (fresh db0). split; [lia | by rewrite Hp'].
      * intros c' Hc'. destruct (HC c' Hc') as [?|?]; [by left|].
        right. by apply (Hweaken _ (S (fresh db0))); [lia|].
    + split; [done|]. split; [|done].
      intros p' Hp'. destruct (updateOne_elem _ _ _ _ _ H Hp')
        as [Hold|(d & a & Hd & [= <-] & ->)]; [by apply HP|].
      destruct (HP d Hd) as [(p & Hp & Hsame)|?]; [|by right].
      left. exists p. split; [done|].
      destruct Hsame as (? & ? & ? & ? & ? & Hlikes). repeat split; try done.
      simpl. case_bool_decide; [done|].
      intros x Hx. apply elem_of_app. left. by apply Hlikes.
    + split; [done|]. split; [|done]. intros p' Hp'. apply HP.
      by apply (deleteOne_subseteq (by_id pid) (Posts db0)).
    + split; [lia|]. split.
      * intros p' Hp'. destruct (HP p' Hp') as [?|?]; [by left|].
        right. by apply (Hweaken _ (S (fresh db0))); [lia|].
      * intros c' [Hc'|Hc'%list_elem_of_singleton]%elem_of_app.
        -- destruct (HC c' Hc') as [?|?]; [by left|].
           right. by apply (Hweaken _ (S (fresh db0))); [lia|].
        -- right. exists (fresh db0). split; [lia | by rewrite Hc'].
    + split; [done|]. split; [done|]. intros c' Hc'. apply HC.
      unfold deleteMany in Hc'. by apply list_elem_of_In, filter_In in Hc' as [?%list_elem_of_In _].
    + split; [lia|]. split.
      * intros p' Hp'. destruct (HP p' Hp') as [?|?]; [by left|].
        right. by apply (Hweaken _ (S (fresh db0))); [lia|].
      * intros c' Hc'. destruct (HC c' Hc') as [?|?]; [by left|].
        right. by apply (Hweaken _ (S (fresh db0))); [lia|].
    + done.
  - split; [done|]. split.
    + intros p' Hp'. left. exists p'. split; [done|]. by repeat split.
    + intros c' Hc'. by left.
Qed.

(** Notifications are never removed, and one that has been read is never
    unread again: after any requests to the two servers the stored
    notifications are the former ones, in order, each unchanged but for
    possibly having been read, followed by those created meanwhile. *)
Theorem notifications_are_never_removed ext reqs db :
  ∃ old new,
    Notifications (serve_all ext reqs db) = old ++ new
    ∧ Forall2 same_notification (Notifications db) old.
Proof.
  apply (writes_invariant ext
    (λ s, ∃ old new, Notifications s = old ++ new
                     ∧ Forall2 same_notification (Notifications db) old)).
  - clear reqs. intros d d' Hw (old & new & Hs & Hold).
    destruct Hw; simpl; try by exists old, new.
    + eexists old, (new ++ [_]).
      split; [by rewrite Hs, app_assoc | done].
    + exists (updateMany (for_receiver o) mark_read old),
             (updateMany (for_receiver o) mark_read new).
      split; [by rewrite Hs; unfold updateMany; rewrite fmap_app|].
      unfold updateMany. apply Forall2_fmap_r.
      eapply Forall2_impl; [exact Hold|]. simpl.
      intros n n' (Hid & Hdata & Hread).
      destruct (for_receiver o n'); [|done]. simpl.
      split; [done|]. split; [|done].
      rewrite <- Hdata. by destruct n' as [? []].
  - exists (Notifications db), []. split; [by rewrite app_nil_r|].
    apply Forall_Forall2_diag, Forall_forall. by intros n _.
Qed.

(** ** The Mongoose server *)

(** A handler that reads the database finds the invariant in what it read. *)
Lemma keeps_get_bind {S B C} (I : S → Prop) (k : S → M S B C) :
  (∀ a, I a → keeps I (k a)) → keeps I (get ≫= k).
Proof. intros Hk db HI. rewrite bind_run. simpl. by apply Hk. Qed.

Lemma keeps_put {S B} (I : S → Prop) (db' : S) : I db' → keeps I (put db' : M S B ()).
Proof. by intros HI db _. Qed.

Ltac mongoose_step :=
  lazymatch goal with
  | |- keeps _ (get ≫= _) => apply keeps_get_bind; intros ? ?
  | |- keeps _ (put _) => apply keeps_put
  | _ => keeps_step
  end.

(** Usernames and emails stay unique on the Mongoose server: a registration
    that would repeat either is refused (the save throws on the unique index
    and nothing is stored), and no other route touches the users. *)
Theorem mongoose_usernames_and_emails_stay_unique ext reqs db :
  NoDup (Mongoose.User.username ∘ data <$> Mongoose.Users db) →
  NoDup (Mongoose.User.email ∘ data <$> Mongoose.Users db) →
  NoDup (Mongoose.User.username ∘ data <$> Mongoose.Users (mongoose_run ext reqs db))
  ∧ NoDup (Mongoose.User.email ∘ data <$> Mongoose.Users (mongoose_run ext reqs db)).
Proof.
  intros Hu He.
  set (I := λ s, NoDup (Mongoose.User.username ∘ data <$> Mongoose.Users s)
                 ∧ NoDup (Mongoose.User.email ∘ data <$> Mongoose.Users s)).
  assert (I db) as HI by done. clear Hu He.
  change (I (mongoose_run ext reqs db)). unfold mongoose_run.
  revert db HI. induction reqs as [|req reqs IH]; intros db HI; [done|].
  simpl. apply IH. unfold Mongoose.handle. apply keeps_finish; [|done]. clear.
  unfold Mongoose.app, Mongoose.auth, Mongoose.register, Mongoose.login, Mongoose.me,
    Mongoose.create_post, Mongoose.feed, Mongoose.edit_post, Mongoose.delete_post,
    Mongoose.like, Mongoose.add_comment, Mongoose.delete_comment, Mongoose.savePost,
    Mongoose.cast.
  destruct (target req); repeat mongoose_step; try done.
  match goal with H : I _ |- _ => destruct H as [Hu He] end.
  match goal with H : existsb _ _ = false |- _ => rename H into Hdup end.
  assert (∀ v, v ∈ Mongoose.Users a →
            Mongoose.User.username (data v) ≠ username
            ∧ Mongoose.User.email (data v) ≠ email) as Hnew.
  { intros v Hv%list_elem_of_In.
    rewrite <- not_true_iff_false, existsb_exists in Hdup.
    split; intros Heq; apply Hdup; exists v; (split; [done|]);
      apply orb_true_iff; [left | right]; by apply String.eqb_eq. }
  split; simpl; rewrite fmap_app; apply NoDup_app; (split; [done|]);
    (split; [|apply NoDup_singleton]);
    intros x (v & -> & Hv)%list_elem_of_fmap Hx%list_elem_of_singleton;
    by destruct (Hnew v Hv).
Qed.

Lemma mongoose_usernames_and_emails_stay_unique_witness :
  let register_alice now :=
    Request None now (Mongoose.PostRegister "alice" "a@x.com" "pw1") in
  let db := mongoose_run Demo.ext
              [register_alice 10; register_alice 11;
               Request None 12 (Mongoose.PostRegister "alice" "other@x.com" "pw2")]
              Mongoose.empty_db in
  NoDup (Mongoose.User.username ∘ data <$> Mongoose.Users db)
  ∧ NoDup (Mongoose.User.email ∘ data <$> Mongoose.Users db).
Proof.
  intros register_alice db.
  apply mongoose_usernames_and_emails_stay_unique; constructor.
Defined.

(** [PUT /api/posts/:id] of the Mongoose server.  Only the author may edit:
    anyone else gets 403 and nothing changes.  For the author, a request
    that carries no content, an empty one, or the content the post already
    has writes nothing and is answered with the post as it is, its
    [updatedAt] included.  A request with another content stores it and
    stamps [updatedAt]; the post's author, image, likes and creation date
    stay, the other posts, the users and the comments are untouched, and the
    response shows the post as stored.  A post that does not exist makes the
    handler throw. *)
Theorem mongoose_edit_post_by_author_only ext userId id content now pid db :
  ObjectId_new ext id = Some pid →
  (findOne (by_id pid) (Mongoose.Posts db) = None →
   finish (Mongoose.edit_post ext userId id content now) db = (db, Thrown TypeError))
  ∧ (∀ post,
       findOne (by_id pid) (Mongoose.Posts db) = Some post →
       if String.eqb (toString (Mongoose.Post.author (data post))) userId
       then
         let kept := match content with
                     | Some "" | None => Mongoose.Post.content (data post)
                     | Some c => Some c
                     end in
         if bool_decide (kept = Mongoose.Post.content (data post))
         then
           finish (Mongoose.edit_post ext userId id content now) db
           = (db, Sent 200 (Mongoose.BPost post))
         else
           ∃ posts,
             let post' :=
               Doc pid
                 (Mongoose.Post.Make kept (Mongoose.Post.image (data post))
                    (Mongoose.Post.author (data post)) (Mongoose.Post.likes (data post))
                    (Mongoose.Post.createdAt (data post)) now) in
             finish (Mongoose.edit_post ext userId id content now) db
             = (Mongoose.MkDb (Mongoose.Users db) posts (Mongoose.Comments db)
                  (Mongoose.fresh db),
                Sent 200 (Mongoose.BPost post'))
             ∧ findOne (by_id pid) posts = Some post'
             ∧ (∀ o, o ≠ pid →
                  findOne (by_id o) posts = findOne (by_id o) (Mongoose.Posts db))
             ∧ length posts = length (Mongoose.Posts db)
       else
         finish (Mongoose.edit_post ext userId id content now) db
         = (db, Sent 403 (Mongoose.BText "Not allowed"))).
Proof.
  intros Hid. unfold finish, Mongoose.edit_post, Mongoose.cast.
  rewrite bind_run, Hid. simpl. rewrite bind_run. simpl. rewrite bind_run.
  split; [by intros ->|].
  intros post Hp. rewrite Hp. simpl.
  pose proof (findOne_by_id_id _ _ _ Hp) as Hpid.
  destruct (String.eqb _ userId); simpl; [|done].
  set (kept := match content with
               | Some c => if String.eqb c "" then Mongoose.Post.content (data post)
                           else Some c
               | None => Mongoose.Post.content (data post)
               end).
  assert (match content with
          | Some "" | None => Mongoose.Post.content (data post)
          | Some c => Some c
          end = kept) as ->.
  { subst kept. destruct content as [[|c0 c]|]; done. }
  case_bool_decide as Hkept; [done|].
  set (new := Mongoose.Post.Make kept (Mongoose.Post.image (data post))
                (Mongoose.Post.author (data post)) (Mongoose.Post.likes (data post))
                (Mongoose.Post.createdAt (data post)) now).
  destruct (updateOne_total (by_id pid) (λ _, Some new) (Mongoose.Posts db))
    as [posts Hposts]; [by eexists|].
  exists posts. rewrite bind_run. unfold Mongoose.savePost. rewrite bind_run. simpl.
  rewrite Hpid, Hposts. simpl.
  destruct (findOne_updateOne_same _ _ _ _ _ Hp Hposts) as (a & [= <-] & Hp').
  rewrite Hpid in Hp'. split; [done|]. split; [done|]. split.
  - intros o Ho. by eapply findOne_updateOne_other.
  - by eapply updateOne_length.
Qed.

Lemma mongoose_edit_post_by_author_only_witness :
  finish (Mongoose.edit_post Demo.ext Demo.id1 Demo.id3 (Some "") 90) Demo.mdb
  = (Demo.mdb,
     Sent 200 (Mongoose.BPost
                 (Doc (OID Demo.id3)
                    (Mongoose.Post.Make (Some "hello") None (OID Demo.id1) [] 12 12))))
  ∧ (finish (Mongoose.edit_post Demo.ext Demo.id1 Demo.id3 (Some "hi") 90) Demo.mdb).2
    = Sent 200 (Mongoose.BPost
                  (Doc (OID Demo.id3)
                     (Mongoose.Post.Make (Some "hi") None (OID Demo.id1) [] 12 90)))
  ∧ finish (Mongoose.edit_post Demo.ext Demo.id2 Demo.id3 (Some "mine now") 90) Demo.mdb
    = (Demo.mdb, Sent 403 (Mongoose.BText "Not allowed")).
Proof.
  split; [|split].
  - exact (proj2 (mongoose_edit_post_by_author_only Demo.ext Demo.id1 Demo.id3
                    (Some "") 90 (OID Demo.id3) Demo.mdb eq_refl)
             _ eq_refl).
  - destruct (proj2 (mongoose_edit_post_by_author_only Demo.ext Demo.id1 Demo.id3
                       (Some "hi") 90 (OID Demo.id3) Demo.mdb eq_refl)
                _ eq_refl) as (posts & Hrun & _).
    by rewrite Hrun.
  - exact (proj2 (mongoose_edit_post_by_author_only Demo.ext Demo.id2 Demo.id3
                    (Some "mine now") 90 (OID Demo.id3) Demo.mdb eq_refl)
             _ eq_refl).
Defined.

(** [DELETE /api/comments/:id] of the Mongoose server.  Only the comment's
    author may delete it: anyone else gets 403 and nothing changes.  For the
    author the comment is removed (no comment has its identifier afterwards,
    identifiers being unique) and every other comment, the posts and the
    users stay. *)
Theorem mongoose_delete_comment_by_author_only ext userId id cid comment db :
  ObjectId_new ext id = Some cid →
  findOne (by_id cid) (Mongoose.Comments db) = Some comment →
  if String.eqb (toString (Mongoose.Comment.author (data comment))) userId
  then
    finish (Mongoose.delete_comment ext userId id) db
    = (Mongoose.MkDb (Mongoose.Users db) (Mongoose.Posts db)
         (deleteOne (by_id cid) (Mongoose.Comments db)) (Mongoose.fresh db),
       Sent 200 (Mongoose.BText "Comment deleted"))
    ∧ (NoDup (_id <$> Mongoose.Comments db) →
       findOne (by_id cid) (deleteOne (by_id cid) (Mongoose.Comments db)) = None)
    ∧ (∀ c, c ∈ Mongoose.Comments db → _id c ≠ cid →
            c ∈ deleteOne (by_id cid) (Mongoose.Comments db))
    ∧ length (deleteOne (by_id cid) (Mongoose.Comments db))
      = pred (length (Mongoose.Comments db))
  else
    finish (Mongoose.delete_comment ext userId id) db
    = (db, Sent 403 (Mongoose.BText "Not allowed")).
Proof.
  intros Hid Hc. unfold finish, Mongoose.delete_comment, Mongoose.cast.
  rewrite bind_run, Hid. simpl. rewrite bind_run. simpl. rewrite bind_run, Hc. simpl.
  pose proof (findOne_by_id_id _ _ _ Hc) as Hcid.
  destruct (String.eqb _ userId); simpl; [|done].
  rewrite Hcid. split; [done|]. split; [apply deleteOne_removes|]. clear Hid.
  split.
  - intros c Hin Hne. clear Hc. induction (Mongoose.Comments db) as [|y l IH]; [done|].
    simpl. apply elem_of_cons in Hin as [->|Hin].
    + unfold by_id at 1. rewrite bool_decide_eq_false_2 by done. left.
    + destruct (by_id cid y); [done|]. right. by apply IH.
  - revert Hc. induction (Mongoose.Comments db) as [|y l IH]; [done|]. simpl.
    destruct (by_id cid y); [done|]. intros Hc. simpl. rewrite (IH Hc).
    destruct l; [done|]. done.
Qed.

Lemma mongoose_delete_comment_by_author_only_witness :
  finish (Mongoose.delete_comment Demo.ext Demo.id2 "000000000000000000000004") Demo.mdb
  = (Mongoose.MkDb [] (Mongoose.Posts Demo.mdb) [] 4,
     Sent 200 (Mongoose.BText "Comment deleted"))
  ∧ finish (Mongoose.delete_comment Demo.ext Demo.id1 "000000000000000000000004")
      Demo.mdb
    = (Demo.mdb, Sent 403 (Mongoose.BText "Not allowed")).
Proof.
  split.
  - exact (proj1 (mongoose_delete_comment_by_author_only Demo.ext Demo.id2
                    "000000000000000000000004" (OID "000000000000000000000004")
                    _ Demo.mdb eq_refl eq_refl)).
  - exact (mongoose_delete_comment_by_author_only Demo.ext Demo.id1
             "000000000000000000000004" (OID "000000000000000000000004")
             _ Demo.mdb eq_refl eq_refl).
Defined.

(** ** Malformed and unknown identifiers *)

(** A route with an [:id] parameter that is not a well-formed identifier
    sends no response: once past the gate (and, on the administration routes,
    past the role check, which answers 403 first) the handler throws on
    constructing the [ObjectId], before any write. *)
Theorem malformed_id_is_not_answered ext (req : request route) id token uid_hex uid u db :
  id_param (target req) = Some id →
  ObjectId_new ext id = None →
  bearer (authorization req) = Some token →
  jwt_verify ext token = Some uid_hex →
  ObjectId_new ext uid_hex = Some uid →
  findOne (by_id uid) (Users db) = Some u →
  truthy (field u "banned") = false →
  handle ext req db
  = if admin_route (target req) && negb (has_role "admin" u)
    then (db, Sent 403 (BText "Admin only"))
    else (db, Thrown BSONError).
Proof.
  intros Hp Hid Hb Hv Hn Hf Hban.
  pose proof (auth_passes ext req _ _ _ _ _ Hb Hv Hn Hf Hban) as Ha.
  unfold handle, finish, app.
  destruct (target req); try discriminate Hp; injection Hp as ->;
    rewrite (bind_value _ _ _ _ _ Ha); simpl;
    unfold follow, unfollow, like, add_comment, adminOnly, ban, admin_delete_post;
    try (by rewrite bind_run, Hid).
  - destruct (has_role "admin" u); simpl; [|done].
    rewrite bind_run. simpl. by rewrite bind_run, Hid.
  - destruct (has_role "admin" u); simpl; [|done].
    rewrite bind_run. simpl. by rewrite bind_run, Hid.
Qed.

Lemma malformed_id_is_not_answered_witness :
  handle Demo.ext (Request (Demo.bearer_of Demo.id1) 95 (PutLike "not-an-id")) Demo.db0
  = (Demo.db0, Thrown BSONError)
  ∧ handle Demo.ext (Request (Demo.bearer_of Demo.id2) 95 (PutAdminBan "not-an-id"))
      Demo.db0
    = (Demo.db0, Sent 403 (BText "Admin only")).
Proof.
  split.
  - exact (malformed_id_is_not_answered Demo.ext
             (Request (Demo.bearer_of Demo.id1) 95 (PutLike "not-an-id")) "not-an-id"
             ("jwt:" +:+ Demo.id1) Demo.id1 (OID Demo.id1) Demo.alice Demo.db0
             eq_refl eq_refl eq_refl eq_refl eq_refl eq_refl eq_refl).
  - exact (malformed_id_is_not_answered Demo.ext
             (Request (Demo.bearer_of Demo.id2) 95 (PutAdminBan "not-an-id")) "not-an-id"
             ("jwt:" +:+ Demo.id2) Demo.id2 (OID Demo.id2) Demo.bob Demo.db0
             eq_refl eq_refl eq_refl eq_refl eq_refl eq_refl eq_refl).
Defined.

(** Following does not look the target up: with a well-formed identifier that
    names no identity record the request still answers 200, the caller's
    [following] gains the identifier, no record gains a follower, and a follow
    notification addressed to that identifier is stored. *)
Theorem follow_does_not_check_the_target ext (u : user) id now b ua la db :
  ObjectId_new ext id = Some b →
  _id u ≠ b →
  findOne (by_id b) (Users db) = None →
  findOne (by_id (_id u)) (Users db) = Some ua →
  data ua !! "following" = Some (VArr la) →
  existsb (is_oid b) la = false →
  ∃ us,
    finish (follow ext u id now) db
    = (MkDb us (Posts db) (Comments db)
         (Notifications db
            ++ [Doc (oid_gen ext (fresh db))
                  (Notification.Make "follow" (_id u) b None false now)])
         (S (fresh db)),
       Sent 200 (BText "Followed"))
    ∧ findOne (by_id (_id u)) us
      = Some (Doc (_id u) (<["following" := VArr (la ++ [VOid b])]> (data ua)))
    ∧ (∀ o, o ≠ _id u → findOne (by_id o) us = findOne (by_id o) (Users db))
    ∧ length us = length (Users db).
Proof.
  intros Hid Hab Hb Hua Hla Hnb.
  destruct (updateOne_succeeds (by_id (_id u)) (op_addToSet "following" b) (Users db))
    as [us H1].
  { intros d Hd. rewrite Hua in Hd. injection Hd as <-.
    unfold op_addToSet. rewrite Hla. by eexists. }
  assert (findOne (by_id b) us = None) as Hb1.
  { by rewrite (findOne_updateOne_other b (_id u) _ _ _ (not_eq_sym Hab) H1). }
  assert (updateOne (by_id b) (op_addToSet "followers" (_id u)) us = Some us) as H2.
  { apply updateOne_fix. intros d Hd. congruence. }
  exists us. split; [by apply (follow_run ext u id now b db us us)|].
  destruct (findOne_updateOne_same _ _ _ _ _ Hua H1) as (x & Hx & Hua').
  unfold op_addToSet in Hx. rewrite Hla, Hnb in Hx. injection Hx as <-.
  rewrite (findOne_by_id_id _ _ _ Hua) in Hua'.
  split; [done|]. split.
  - intros o Ho. by eapply findOne_updateOne_other.
  - by eapply updateOne_length.
Qed.

Lemma follow_does_not_check_the_target_witness :
  (finish (follow Demo.ext Demo.alice "00000000000000000000beef" 96) Demo.db0).2
  = Sent 200 (BText "Followed")
  ∧ length (Notifications
              (finish (follow Demo.ext Demo.alice "00000000000000000000beef" 96)
                 Demo.db0).1) = 1%nat.
Proof.
  destruct (follow_does_not_check_the_target Demo.ext Demo.alice
              "00000000000000000000beef" 96 (OID "00000000000000000000beef")
              Demo.alice [] Demo.db0)
    as (us & Hrun & _);
    [ reflexivity | apply (bool_decide_unpack _); by vm_compute | reflexivity
    | reflexivity | by vm_compute | reflexivity |].
  by rewrite Hrun.
Defined.

(** ** Commenting *)



(** ** Profile images *)

(** [PUT /api/profile/avatar] and [PUT /api/profile/cover].  Without an
    uploaded file the handler throws, and so it does when the image host
    fails; nothing is written in either case.  Otherwise the hosted URL is
    stored in the caller's [profileImage] (or [coverImage]) and answered;
    every other field of the caller and every other record stay. *)
Theorem profile_image_sets_one_field ext k (u : user) file db :
  findOne (by_id (_id u)) (Users db) = Some u →
  match file with
  | None => finish (profile_image ext k u file) db = (db, Thrown TypeError)
  | Some buffer =>
      match uploadToImgBB ext buffer with
      | None => finish (profile_image ext k u file) db = (db, Thrown UploadError)
      | Some url =>
          ∃ us,
            finish (profile_image ext k u file) db
            = (MkDb us (Posts db) (Comments db) (Notifications db) (fresh db),
               Sent 200 (BText url))
            ∧ findOne (by_id (_id u)) us = Some (Doc (_id u) (<[k := VStr url]> (data u)))
            ∧ (∀ o, o ≠ _id u → findOne (by_id o) us = findOne (by_id o) (Users db))
            ∧ length us = length (Users db)
      end
  end.
Proof.
  intros Hu. unfold finish, profile_image.
  destruct file as [buffer|]; [|done]. rewrite bind_run. simpl. rewrite bind_run.
  destruct (uploadToImgBB ext buffer) as [url|]; simpl; [|done].
  destruct (updateOne_total (by_id (_id u)) (op_set {[ k := VStr url ]}) (Users db))
    as [us Hus]; [by eexists|].
  exists us. rewrite bind_run. unfold updateUser. rewrite Hus. simpl.
  destruct (findOne_updateOne_same _ _ _ _ _ Hu Hus) as (a & Ha & Hu').
  rewrite op_set_singleton in Ha. injection Ha as <-.
  split; [done|]. split; [done|]. split.
  - intros o Ho. by eapply findOne_updateOne_other.
  - by eapply updateOne_length.
Qed.

Lemma profile_image_sets_one_field_witness :
  finish (profile_image Demo.ext "profileImage" Demo.alice None) Demo.db0
  = (Demo.db0, Thrown TypeError)
  ∧ (finish (profile_image Demo.ext "profileImage" Demo.alice (Some [])) Demo.db0).2
    = Sent 200 (BText "https://i.ibb.co/img.png").
Proof.
  split.
  - exact (profile_image_sets_one_field Demo.ext "profileImage" Demo.alice None
             Demo.db0 eq_refl).
  - destruct (profile_image_sets_one_field Demo.ext "profileImage" Demo.alice (Some [])
                Demo.db0 eq_refl) as (us & Hrun & _).
    by rewrite Hrun.
Defined.

(** [PUT /api/posts/:id/like] of the Mongoose server: liking a post one has
    not liked appends one's identifier to its likes and answers with the post
    as stored; liking it again answers with the same post and writes
    nothing.  (The caller's identifier string is the one the token carries,
    which casts to an [ObjectId] spelled the same.) *)
Theorem mongoose_like_twice_likes_once ext userId id now now' pid uid post db :
  ObjectId_new ext id = Some pid →
  ObjectId_new ext userId = Some uid →
  toString uid = userId →
  findOne (by_id pid) (Mongoose.Posts db) = Some post →
  existsb (λ o, String.eqb (toString o) userId) (Mongoose.Post.likes (data post)) = false →
  let first := finish (Mongoose.like ext userId id now) db in
  let second := finish (Mongoose.like ext userId id now') first.1 in
  let post' :=
    Doc pid
      (Mongoose.Post.Make (Mongoose.Post.content (data post))
         (Mongoose.Post.image (data post)) (Mongoose.Post.author (data post))
         (Mongoose.Post.likes (data post) ++ [uid])
         (Mongoose.Post.createdAt (data post)) now) in
  first.2 = Sent 200 (Mongoose.BPost post')
  ∧ findOne (by_id pid) (Mongoose.Posts first.1) = Some post'
  ∧ Mongoose.Users first.1 = Mongoose.Users db
  ∧ Mongoose.Comments first.1 = Mongoose.Comments db
  ∧ second = (first.1, Sent 200 (Mongoose.BPost post')).
Proof.
  intros Hid Hcast Hhex Hp Hnew first second post'.
  pose proof (findOne_by_id_id _ _ _ Hp) as Hpid.
  set (new := Mongoose.Post.Make (Mongoose.Post.content (data post))
                (Mongoose.Post.image (data post)) (Mongoose.Post.author (data post))
                (Mongoose.Post.likes (data post) ++ [uid])
                (Mongoose.Post.createdAt (data post)) now).
  destruct (updateOne_total (by_id pid) (λ _, Some new) (Mongoose.Posts db))
    as [posts Hposts]; [by eexists|].
  destruct (findOne_updateOne_same _ _ _ _ _ Hp Hposts) as (a & [= <-] & Hp').
  rewrite Hpid in Hp'. subst new.
  assert (first = (Mongoose.MkDb (Mongoose.Users db) posts (Mongoose.Comments db)
                     (Mongoose.fresh db),
                   Sent 200 (Mongoose.BPost post'))) as Hfirst.
  { subst first. unfold finish, Mongoose.like, Mongoose.cast.
    rewrite bind_run, Hid. simpl. rewrite bind_run. simpl.
    rewrite bind_run, Hp. simpl. rewrite Hnew. simpl.
    rewrite bind_run, Hcast. simpl. rewrite bind_run.
    unfold Mongoose.savePost. rewrite bind_run. simpl.
    by rewrite Hpid, Hposts. }
  subst second. rewrite Hfirst. simpl. repeat (split; [done|]).
  unfold finish, Mongoose.like, Mongoose.cast.
  rewrite bind_run, Hid. simpl. rewrite bind_run. simpl.
  rewrite bind_run, Hp'. simpl.
  rewrite existsb_app. simpl. rewrite Hhex, String.eqb_refl, orb_true_r. done.
Qed.

Lemma mongoose_like_twice_likes_once_witness :
  let first := finish (Mongoose.like Demo.ext Demo.id2 Demo.id3 98) Demo.mdb in
  finish (Mongoose.like Demo.ext Demo.id2 Demo.id3 99) first.1
  = (first.1,
     Sent 200 (Mongoose.BPost
                 (Doc (OID Demo.id3)
                    (Mongoose.Post.Make (Some "hello") None (OID Demo.id1)
                       [OID Demo.id2] 12 98)))).
Proof.
  intros first.
  destruct (mongoose_like_twice_likes_once Demo.ext Demo.id2 Demo.id3 98 99
              (OID Demo.id3) (OID Demo.id2)
              (Doc (OID Demo.id3)
                 (Mongoose.Post.Make (Some "hello") None (OID Demo.id1) [] 12 12))
              Demo.mdb eq_refl eq_refl eq_refl eq_refl eq_refl)
    as (_ & _ & _ & _ & Hsecond).
  exact Hsecond.
Defined.

(** [GET /api/posts] of the Mongoose server needs no credential and writes
    nothing.  It lists every stored post once, newest first; under each post
    it lists the stored comments made on that post, all of them and no
    others, so a comment whose post is gone is shown nowhere; a post or
    comment whose author has a record carries that record's identifier and
    username and nothing else of it. *)
Theorem mongoose_feed_shows_each_post_with_its_comments ext header now db :
  ∃ rows,
    Mongoose.handle ext (Request header now Mongoose.GetPosts) db
    = (db, Sent 200 (Mongoose.BFeed rows))
    ∧ (λ r, r.1.1) <$> rows ≡ₚ Mongoose.Posts db
    ∧ newest_first (λ r, Mongoose.Post.createdAt (data r.1.1)) rows
    ∧ Forall (λ r,
        (∀ c, c ∈ fst <$> r.2
              ↔ c ∈ Mongoose.Comments db ∧ Mongoose.Comment.post (data c) = _id r.1.1)
        ∧ (∀ u, findOne (by_id (Mongoose.Post.author (data r.1.1))) (Mongoose.Users db)
                = Some u →
                r.1.2 = Some (Doc (_id u) (Mongoose.User.username (data u))))
        ∧ Forall (λ c, ∀ u,
                    findOne (by_id (Mongoose.Comment.author (data c.1)))
                      (Mongoose.Users db) = Some u →
                    c.2 = Some (Doc (_id u) (Mongoose.User.username (data u)))) r.2)
        rows.
Proof.
  eexists. split; [reflexivity|].
  set (key := λ p : doc Mongoose.Post.t, Mongoose.Post.createdAt (data p)).
  split; [|split].
  - rewrite <- list_fmap_compose.
    rewrite (list_fmap_ext _ id (sort_desc key (Mongoose.Posts db))) by done.
    rewrite list_fmap_id. apply sort_desc_perm.
  - unfold newest_first.
    apply (StronglySorted_fmap _ (λ x y, (key y ≤ key x)%Z)); [done|].
    apply sort_desc_sorted.
  - apply Forall_fmap, Forall_forall. intros post _. simpl. split; [|split].
    + intros c. rewrite <- list_fmap_compose.
      rewrite (list_fmap_ext _ id (find _ (Mongoose.Comments db))) by done.
      rewrite list_fmap_id. unfold find.
      rewrite list_elem_of_In, filter_In, <- list_elem_of_In, bool_decide_eq_true. tauto.
    + intros u Hu. unfold Mongoose.populate. by rewrite Hu.
    + apply Forall_fmap, Forall_forall. intros c _ u Hu. simpl in *.
      unfold Mongoose.populate. by rewrite Hu.
Qed.

(** The gate of the Mongoose server only decodes the token, and commenting
    looks neither the post nor the caller up: whoever presents a token that
    verifies gets the comment stored and answered, for any well-formed post
    identifier, whether or not such a post or the caller's record exists.
    Users and posts are untouched. *)
Theorem mongoose_comment_needs_no_post_nor_record ext (req : request Mongoose.route)
    id text token userId pid uid db :
  target req = Mongoose.PostComments id text →
  bearer (authorization req) = Some token →
  jwt_verify ext token = Some userId →
  ObjectId_new ext id = Some pid →
  ObjectId_new ext userId = Some uid →
  let comment := Doc (oid_gen ext (Mongoose.fresh db))
                   (Mongoose.Comment.Make text pid uid (now req) (now req)) in
  Mongoose.handle ext req db
  = (Mongoose.MkDb (Mongoose.Users db) (Mongoose.Posts db)
       (Mongoose.Comments db ++ [comment]) (S (Mongoose.fresh db)),
     Sent 200 (Mongoose.BComment comment)).
Proof.
  intros Ht Hb Hv Hpid Huid comment.
  unfold Mongoose.handle, finish, Mongoose.app. rewrite Ht.
  unfold Mongoose.auth. rewrite Hb, Hv. rewrite bind_run. simpl.
  unfold Mongoose.add_comment, Mongoose.cast.
  rewrite bind_run, Hpid. simpl. rewrite bind_run, Huid. simpl.
  done.
Qed.

Lemma mongoose_comment_needs_no_post_nor_record_witness :
  let req := Request (Demo.bearer_of Demo.id2) 99
               (Mongoose.PostComments "00000000000000000000beef" (Some "anyone?")) in
  Mongoose.Users Demo.mdb = []
  ∧ findOne (by_id (OID "00000000000000000000beef")) (Mongoose.Posts Demo.mdb) = None
  ∧ (Mongoose.handle Demo.ext req Demo.mdb).2
    = Sent 200 (Mongoose.BComment
                  (Doc (OID "000000000000000000000005")
                     (Mongoose.Comment.Make (Some "anyone?")
                        (OID "00000000000000000000beef") (OID Demo.id2) 99 99))).
Proof.
  intros req. split; [reflexivity|]. split; [reflexivity|].
  rewrite (mongoose_comment_needs_no_post_nor_record Demo.ext req
             "00000000000000000000beef" (Some "anyone?") ("jwt:" +:+ Demo.id2) Demo.id2
             (OID "00000000000000000000beef") (OID Demo.id2) Demo.mdb
             eq_refl eq_refl eq_refl eq_refl eq_refl).
  reflexivity.
Defined.
